(** * ripple-binary-codec: Issue, XChainBridge and the signing facade

    A shallow embedding of three modules of the binary codec,

    - [types/issue.ts]          (module [Issue]),
    - [types/xchain-bridge.ts]  (module [XChainBridge]),
    - [binary.ts]               (module [Binary]),

    together with the collaborators they call.  JavaScript values are an
    inductive type, a thrown exception is the [Throw] branch of [result],
    the cursor of a [BinaryParser] is passed explicitly, and the
    [BytesList] sinks of the facade live in an explicit heap. *)

From Stdlib Require Import ZArith NArith List Bool.
From Stdlib Require Import Strings.String Strings.Ascii Strings.Byte DecimalString.
From Stdlib Require Import Permutation Sorting.Sorted Lia.
Import ListNotations.

Local Open Scope string_scope.
Local Open Scope list_scope.
Local Set Warnings "-register-all".

(** ** Exceptions *)

Inductive exn : Type :=
| Error (msg : string)
| TypeError (msg : string).

Inductive result (A : Type) : Type :=
| Ok (a : A)
| Throw (e : exn).

Arguments Ok {A} a.
Arguments Throw {A} e.

Definition bind {A B : Type} (c : result A) (k : A -> result B) : result B :=
  match c with
  | Ok a => k a
  | Throw e => Throw e
  end.

Declare Scope js_scope.
Delimit Scope js_scope with js.
Notation "x <- c ;; k" := (bind c (fun x => k))
  (at level 61, c at next level, right associativity) : js_scope.
Notation "' pat <- c ;; k" := (bind c (fun x => match x with pat => k end))
  (at level 61, pat pattern, c at next level, right associativity) : js_scope.
Local Open Scope js_scope.

(** ** Buffers and hexadecimal text *)

Definition Buffer : Type := list byte.

(** [Buffer.alloc n]: [n] zero bytes. *)
Definition Buffer_alloc (n : nat) : Buffer := repeat x00 n.

(** [Buffer.concat]. *)
Definition Buffer_concat (chunks : list Buffer) : Buffer := List.concat chunks.

Definition hexChars : string := "0123456789ABCDEF".

Definition hexDigit (n : nat) : ascii :=
  match String.get n hexChars with
  | Some c => c
  | None => "0"%char
  end.

Definition byteToHex (b : byte) : string :=
  let n := N.to_nat (Byte.to_N b) in
  String (hexDigit (n / 16)) (String (hexDigit (n mod 16)) EmptyString).

(** Modelled from the spec: [SerializedType.toHex] is absent.  "all hex
    I/O is uppercase on output, case-insensitive on input." *)
Fixpoint toHex (bs : Buffer) : string :=
  match bs with
  | [] => ""
  | b :: rest => byteToHex b ++ toHex rest
  end.

Definition hexValue (c : ascii) : option N :=
  let n := N_of_ascii c in
  if (48 <=? n)%N && (n <=? 57)%N then Some (n - 48)%N
  else if (65 <=? n)%N && (n <=? 70)%N then Some (n - 55)%N
  else if (97 <=? n)%N && (n <=? 102)%N then Some (n - 87)%N
  else None.

(** Modelled from the spec: the reading of hexadecimal text, either
    case, is absent.  "MalformedHex: input hex string has odd length or
    non-hex chars" is [None]. *)
Fixpoint fromHex (s : string) : option Buffer :=
  match s with
  | EmptyString => Some []
  | String hi (String lo rest) =>
      match hexValue hi, hexValue lo, fromHex rest with
      | Some h, Some l, Some bs =>
          match Byte.of_N (16 * h + l) with
          | Some b => Some (b :: bs)
          | None => None
          end
      | _, _, _ => None
      end
  | String _ EmptyString => None
  end.

(** ** JavaScript values *)

(** The classes of the codec whose instances travel as values. *)
Inductive ClassName : Type :=
| CAccountID | CCurrency | CIssue | CIssuedCurrency | CXChainBridge
| CHash256 | CAmount | CUInt32 | CUInt64 | CBlob | CSTObject.

Definition ClassName_eqb (a b : ClassName) : bool :=
  match a, b with
  | CAccountID, CAccountID | CCurrency, CCurrency | CIssue, CIssue
  | CIssuedCurrency, CIssuedCurrency | CXChainBridge, CXChainBridge
  | CHash256, CHash256 | CAmount, CAmount | CUInt32, CUInt32
  | CUInt64, CUInt64 | CBlob, CBlob | CSTObject, CSTObject => true
  | _, _ => false
  end.

(** A run-time value: the JSON values, [undefined], and an instance of a
    [SerializedType] subclass holding its [bytes].  An object is the list
    of its own properties in insertion order; numbers are the integral
    ones. *)
Inductive JsValue : Type :=
| VUndefined
| VNull
| VBool (b : bool)
| VNum (n : Z)
| VStr (s : string)
| VArr (elems : list JsValue)
| VObj (props : list (string * JsValue))
| VInst (cls : ClassName) (bytes : Buffer).

(** The values of JSON: no [undefined] and no class instance inside. *)
Fixpoint isJSON (v : JsValue) : bool :=
  match v with
  | VUndefined | VInst _ _ => false
  | VNull | VBool _ | VNum _ | VStr _ => true
  | VArr elems => forallb isJSON elems
  | VObj props => forallb (fun kv => isJSON (snd kv)) props
  end.

Definition typeof (v : JsValue) : string :=
  match v with
  | VUndefined => "undefined"
  | VBool _ => "boolean"
  | VNum _ => "number"
  | VStr _ => "string"
  | VNull | VArr _ | VObj _ | VInst _ _ => "object"
  end.

(** [obj[name]] on a plain object; [undefined] when the property is
    absent or the value has no such own property. *)
Fixpoint lookup_prop (name : string) (props : list (string * JsValue)) : JsValue :=
  match props with
  | [] => VUndefined
  | (k, v) :: rest => if String.eqb k name then v else lookup_prop name rest
  end.

Definition get_prop (v : JsValue) (name : string) : JsValue :=
  match v with
  | VObj props => lookup_prop name props
  | _ => VUndefined
  end.

(** [obj[name] = v]: replaces the property in place, or appends it. *)
Fixpoint set_prop (name : string) (v : JsValue) (props : list (string * JsValue))
  : list (string * JsValue) :=
  match props with
  | [] => [(name, v)]
  | (k, w) :: rest =>
      if String.eqb k name then (k, v) :: rest else (k, w) :: set_prop name v rest
  end.

Definition decimal (n : nat) : string :=
  DecimalString.NilZero.string_of_uint (Nat.to_uint n).

Definition isDecimalDigit (c : ascii) : bool :=
  let n := N_of_ascii c in ((48 <=? n) && (n <=? 57))%N.

(** [Object.keys]: own enumerable property names; a [TypeError] on
    [null] and [undefined]. *)
Definition Object_keys (v : JsValue) : result (list string) :=
  match v with
  | VUndefined | VNull =>
      Throw (TypeError "Cannot convert undefined or null to object")
  | VBool _ | VNum _ => Ok []
  | VStr s => Ok (map decimal (seq 0 (String.length s)))
  | VArr elems => Ok (map decimal (seq 0 (List.length elems)))
  | VObj props => Ok (map fst props)
  | VInst _ _ => Ok ["bytes"]
  end.

(** ** [Array.prototype.sort] *)

Section Sort.
Context {A : Type} (leb : A -> A -> bool).

Fixpoint insert_sorted (x : A) (l : list A) : list A :=
  match l with
  | [] => [x]
  | y :: rest => if leb x y then x :: l else y :: insert_sorted x rest
  end.

(** A stable insertion sort. *)
Fixpoint sort_by (l : list A) : list A :=
  match l with
  | [] => []
  | x :: rest => insert_sorted x (sort_by rest)
  end.
End Sort.

(** The default order of [sort()] on strings: by code unit. *)
Definition Array_sort (keys : list string) : list string :=
  sort_by String.leb keys.

(** [keys[i] === s], false when [keys[i]] is [undefined]. *)
Definition index_is (keys : list string) (i : nat) (s : string) : bool :=
  match nth_error keys i with
  | Some k => String.eqb k s
  | None => false
  end.

(** ** BinaryParser *)

(** Modelled from the spec: [serdes/binary-parser.ts] is absent.  "Parser:
    immutable byte buffer + advancing cursor ... Any read past end fails
    with UnexpectedEnd."  The parser is the bytes still ahead of the
    cursor. *)
Definition Parser : Type := Buffer.

Definition UnexpectedEnd : exn := Error "UnexpectedEnd".
Definition MalformedHex : exn := Error "MalformedHex".

(** Modelled from the spec: [new BinaryParser(hex)], over the bytes the
    text stands for. *)
Definition BinaryParser_new (hex : string) : result Parser :=
  match fromHex hex with
  | Some bs => Ok bs
  | None => Throw MalformedHex
  end.

(** Modelled from the spec: [parser.read(n)]. *)
Definition Parser_read (n : nat) (p : Parser) : result (Buffer * Parser) :=
  if Nat.leb n (List.length p) then Ok (firstn n p, skipn n p)
  else Throw UnexpectedEnd.

(** Modelled from the spec: [parser.skip(n)]. *)
Definition Parser_skip (n : nat) (p : Parser) : result (unit * Parser) :=
  if Nat.leb n (List.length p) then Ok (tt, skipn n p)
  else Throw UnexpectedEnd.

(** ** Collaborators outside the three modules *)

(** The address codec, package [ripple-address-codec]: an external
    collaborator, "decode_account_id(string) -> bytes[20]" and
    "encode_account_id(bytes[20]) -> string". *)
Class AddressCodec : Type := {
  decodeAccountID : string -> result Buffer;
  encodeAccountID : Buffer -> result string
}.

(** The static side and the [toJSON] of a [SerializedType] subclass:
    [from], [fromParser], and [toJSON] on the bytes of an instance
    ([toBytes] is the identity on those bytes). *)
Record SerializedTypeClass : Type := {
  cls : ClassName;
  st_from : JsValue -> result Buffer;
  st_fromParser : Parser -> result (Buffer * Parser);
  st_toJSON : Buffer -> result JsValue
}.

(** [types/currency.ts] is absent: the class is a parameter.  Its
    [toJSON] is always a string, which the [Issue] code compares with
    ['XRP']. *)
Class CurrencyCodec : Type := {
  Currency_from : JsValue -> result Buffer;
  Currency_toJSON : Buffer -> string
}.

(** Modelled from the spec: [Currency.fromParser] is absent.  "Currency:
    20 bytes." *)
Definition Currency_fromParser (parser : Parser) : result (Buffer * Parser) :=
  Parser_read 20 parser.

Section AccountID.
Context `{AddressCodec}.

(** Modelled from the spec: [types/account-id.ts] is absent.
    "AccountID: 20 bytes; JSON is the base58-with-checksum address
    decoded via an external address codec collaborator." *)
Definition AccountID_from (value : JsValue) : result Buffer :=
  match value with
  | VInst CAccountID bytes => Ok bytes
  | VStr s => decodeAccountID s
  | _ => Throw (Error "Cannot construct AccountID from value given")
  end.

(** Modelled from the spec: [AccountID.fromParser], 20 bytes. *)
Definition AccountID_fromParser (parser : Parser) : result (Buffer * Parser) :=
  Parser_read 20 parser.

(** Modelled from the spec: [AccountID.toJSON], the address of the
    bytes. *)
Definition AccountID_toJSON (bytes : Buffer) : result JsValue :=
  s <- encodeAccountID bytes ;; Ok (VStr s).

(** The class [AccountID]. *)
Definition AccountID : SerializedTypeClass :=
  {| cls := CAccountID;
     st_from := AccountID_from;
     st_fromParser := AccountID_fromParser;
     st_toJSON := AccountID_toJSON |}.

End AccountID.

(** ** [types/issue.ts] *)

Module Issue.
Section Issue.
Context `{AddressCodec} `{CurrencyCodec}.

Definition isIssueObject (arg : JsValue) : result bool :=
  keys <- Object_keys arg ;;
  let keys := Array_sort keys in
  Ok (Nat.eqb (List.length keys) 2
      && index_is keys 0 "currency" && index_is keys 1 "issuer").

Definition ZERO_ISSUED_CURRENCY : Buffer := Buffer_alloc 20.

(** The constructor: [super(bytes ?? Issue.ZERO_ISSUED_CURRENCY.bytes)].
    An [Issue] is identified with its [bytes]. *)
Definition new (bytes : option Buffer) : Buffer :=
  match bytes with
  | Some b => b
  | None => ZERO_ISSUED_CURRENCY
  end.

Definition assertXrpIsValid (value : string) : result unit :=
  if negb (String.eqb value "XRP")
  then Throw (Error (value ++ " is an illegal amount"))
  else Ok tt.

Definition from (value : JsValue) : result Buffer :=
  match value with
  | VInst CIssue bytes => Ok bytes
  | VStr s =>
      _ <- assertXrpIsValid s ;;
      currency <- Currency_from (VStr s) ;;
      Ok (new (Some currency))
  | _ =>
      isObj <- isIssueObject value ;;
      if isObj then
        currency <- Currency_from (get_prop value "currency") ;;
        issuer <- AccountID_from (get_prop value "issuer") ;;
        Ok (new (Some (Buffer_concat [currency; issuer])))
      else Throw (Error "Invalid type to construct an Amount")
  end.

Definition fromParser (parser : Parser) : result (Buffer * Parser) :=
  '(currency, parser) <- Parser_read 20 parser ;;
  if String.eqb (Currency_toJSON currency) "XRP" then
    Ok (new (Some currency), parser)
  else
    '(issuer, parser) <- Parser_read 20 parser ;;
    Ok (new (Some (Buffer_concat [currency; issuer])), parser).

Definition toJSON (this : Buffer) : result JsValue :=
  parser <- BinaryParser_new (toHex this) ;;
  '(currency, parser) <- Currency_fromParser parser ;;
  if String.eqb (Currency_toJSON currency) "XRP" then
    Ok (VStr (Currency_toJSON currency))
  else
    '(issuer, parser) <- AccountID_fromParser parser ;;
    issuerJson <- AccountID_toJSON issuer ;;
    Ok (VObj [("currency", VStr (Currency_toJSON currency));
              ("issuer", issuerJson)]).

(** The class as the other modules see it. *)
Definition Issue : SerializedTypeClass :=
  {| cls := CIssue;
     st_from := from;
     st_fromParser := fromParser;
     st_toJSON := toJSON |}.
End Issue.
End Issue.

(** ** [types/xchain-bridge.ts] *)

(** [types/issued-currency.ts] is absent: the class is a parameter. *)
Class IssuedCurrencyCodec : Type := {
  IssuedCurrency_from : JsValue -> result Buffer;
  IssuedCurrency_fromParser : Parser -> result (Buffer * Parser);
  IssuedCurrency_toJSON : Buffer -> result JsValue
}.

Module XChainBridge.
Section XChainBridge.
Context `{AddressCodec} `{IssuedCurrencyCodec}.

Definition IssuedCurrency : SerializedTypeClass :=
  {| cls := CIssuedCurrency;
     st_from := IssuedCurrency_from;
     st_fromParser := IssuedCurrency_fromParser;
     st_toJSON := IssuedCurrency_toJSON |}.

Definition isXChainBridgeObject (arg : JsValue) : result bool :=
  keys <- Object_keys arg ;;
  let keys := Array_sort keys in
  Ok (Nat.eqb (List.length keys) 4
      && index_is keys 0 "IssuingChainDoor"
      && index_is keys 1 "IssuingChainIssue"
      && index_is keys 2 "LockingChainDoor"
      && index_is keys 3 "LockingChainIssue").

Definition ZERO_XCHAIN_BRIDGE : Buffer :=
  Buffer_concat [[x14]; Buffer_alloc 40; [x14]; Buffer_alloc 40].

Record TypeOrderItem : Type := { name : string; type : SerializedTypeClass }.

Definition TYPE_ORDER : list TypeOrderItem :=
  [ {| name := "LockingChainDoor"; type := AccountID |};
    {| name := "LockingChainIssue"; type := IssuedCurrency |};
    {| name := "IssuingChainDoor"; type := AccountID |};
    {| name := "IssuingChainIssue"; type := IssuedCurrency |} ].

(** [type === AccountID]. *)
Definition isAccountID (t : SerializedTypeClass) : bool :=
  ClassName_eqb (cls t) CAccountID.

Definition new (bytes : option Buffer) : Buffer :=
  match bytes with
  | Some b => b
  | None => ZERO_XCHAIN_BRIDGE
  end.

(** [items.forEach(body)], the body acting on the variables it closes
    over; an exception leaves the loop. *)
Fixpoint forEach {S : Type} (body : S -> TypeOrderItem -> result S)
  (items : list TypeOrderItem) (s : S) : result S :=
  match items with
  | [] => Ok s
  | item :: rest => s' <- body s item ;; forEach body rest s'
  end.

(** The loop body of [from]; [bytes.push] appends. *)
Definition from_body (value : JsValue) (bytes : list Buffer) (item : TypeOrderItem)
  : result (list Buffer) :=
  let bytes := if isAccountID (type item) then bytes ++ [[x14]] else bytes in
  object <- st_from (type item) (get_prop value (name item)) ;;
  Ok (bytes ++ [object]).

Definition from (value : JsValue) : result Buffer :=
  match value with
  | VInst CXChainBridge bytes => Ok bytes
  | _ =>
      isObj <- isXChainBridgeObject value ;;
      if isObj then
        bytes <- forEach (from_body value) TYPE_ORDER [] ;;
        Ok (new (Some (Buffer_concat bytes)))
      else Throw (Error "Invalid type to construct a XChainBridge")
  end.

(** The loop body of [fromParser], on the pair of [bytes] and the
    parser's cursor. *)
Definition fromParser_body (st : list Buffer * Parser) (item : TypeOrderItem)
  : result (list Buffer * Parser) :=
  let '(bytes, parser) := st in
  '(bytes, parser) <-
    (if isAccountID (type item) then
       '(_, parser) <- Parser_skip 1 parser ;; Ok (bytes ++ [[x14]], parser)
     else Ok (bytes, parser)) ;;
  '(object, parser) <- st_fromParser (type item) parser ;;
  Ok (bytes ++ [object], parser).

Definition fromParser (parser : Parser) : result (Buffer * Parser) :=
  '(bytes, parser) <- forEach fromParser_body TYPE_ORDER ([], parser) ;;
  Ok (new (Some (Buffer_concat bytes)), parser).

(** The loop body of [toJSON], on the pair of [json] and the cursor. *)
Definition toJSON_body (st : list (string * JsValue) * Parser) (item : TypeOrderItem)
  : result (list (string * JsValue) * Parser) :=
  let '(json, parser) := st in
  '(_, parser) <-
    (if isAccountID (type item) then Parser_skip 1 parser else Ok (tt, parser)) ;;
  '(inst, parser) <- st_fromParser (type item) parser ;;
  object <- st_toJSON (type item) inst ;;
  Ok (set_prop (name item) object json, parser).

Definition toJSON (this : Buffer) : result JsValue :=
  parser <- BinaryParser_new (toHex this) ;;
  '(json, _) <- forEach toJSON_body TYPE_ORDER ([], parser) ;;
  Ok (VObj json).

End XChainBridge.
End XChainBridge.

(** ** The definitions registry and the core types of the facade *)

(** A field of the registry, as the spec's FieldDefinition: "name, type
    name, field code, isSigningField, isSerialized, isVLEncoded". *)
Record FieldInstance : Type := {
  f_name : string;
  f_type : string;
  nth : Z;
  isVLEncoded : bool;
  isSerialized : bool;
  isSigningField : bool
}.

(** [enums/definitions.json] and the type codecs it names are absent: the
    registry is a parameter.  [Field] is field_by_name, [typeCode] the
    TYPES table, [associatedType] the codec of a type name, [Amount] and
    [STObject] the two codecs the facade names directly. *)
Class Definitions : Type := {
  Field : string -> option FieldInstance;
  typeCode : string -> Z;
  associatedType : string -> SerializedTypeClass;
  Amount : SerializedTypeClass;
  STObject : SerializedTypeClass
}.

(** The package [big-integer], an external collaborator: [bigInt(text)]. *)
Class BigInteger : Type := {
  bigInt : string -> result Z
}.

Definition byte_of_Z (z : Z) : byte :=
  match Byte.of_N (Z.to_N (z mod 256)) with
  | Some b => b
  | None => x00
  end.

Definition Z_of_byte (b : byte) : Z := Z.of_N (Byte.to_N b).

(** The [width] low-order base-256 digits of [n], most significant
    first. *)
Fixpoint be_bytes (width : nat) (n : Z) : Buffer :=
  match width with
  | O => []
  | S w => byte_of_Z (n / 256 ^ Z.of_nat w) :: be_bytes w n
  end.

(** The number a buffer denotes big-endian. *)
Definition be_value (bs : Buffer) : Z :=
  fold_left (fun acc b => (acc * 256 + Z_of_byte b)%Z) bs 0%Z.

Module HashPrefix.

(** Modelled from the spec: [hash-prefixes.ts] is absent.  "prefix
    0x53545800 (transaction-signing hash prefix)". *)
Definition transactionSig : Buffer := [x53; x54; x58; x00].

(** Modelled from the spec: "encodeForMultisigning: prefix 0x534D5400". *)
Definition transactionMultiSig : Buffer := [x53; x4d; x54; x00].

(** Modelled from the spec: "encodeForSigningClaim: prefix 0x434C4D00". *)
Definition paymentChannelClaim : Buffer := [x43; x4c; x4d; x00].

End HashPrefix.

(** Modelled from the spec: [types/hash-256.ts] is absent.  "Hash128/160/256:
    exact 16/20/32 bytes; hex string (case-insensitive) in JSON." *)
Definition Hash256_from (value : JsValue) : result Buffer :=
  match value with
  | VInst CHash256 bytes => Ok bytes
  | VStr s =>
      match fromHex s with
      | Some bytes =>
          if Nat.eqb (List.length bytes) 32 then Ok bytes
          else Throw (Error "Invalid Hash length 32")
      | None => Throw MalformedHex
      end
  | _ => Throw (Error "Cannot construct Hash256 from value given")
  end.

(** Modelled from the spec: [types/uint-64.ts] is absent.
    "UInt8/16/32/64: big-endian, fixed width."  The argument is the
    integer a [bigInt] holds. *)
Definition UInt64_from (num : Z) : result Buffer :=
  if (0 <=? num)%Z && (num <? 2 ^ 64)%Z then Ok (be_bytes 8 num)
  else Throw (Error "Cannot construct UInt64 from value given").

(** [String(v)] on the values whose [typeof] is not ['object']. *)
Definition String_ (v : JsValue) : string :=
  match v with
  | VUndefined => "undefined"
  | VNull => "null"
  | VBool true => "true"
  | VBool false => "false"
  | VNum n => DecimalString.NilZero.string_of_int (Z.to_int n)
  | VStr s => s
  | VArr _ | VObj _ | VInst _ _ => "[object Object]"
  end.

(** ** STObject *)

Section STObject.
Context `{Definitions}.

Definition UnknownField (key : string) : exn := Error ("UnknownField " ++ key).

(** Modelled from the spec: section 4.2, the field header of
    (type code, field code). *)
Definition fieldHeader (t f : Z) : Buffer :=
  if (t <? 16)%Z then
    if (f <? 16)%Z then [byte_of_Z (t * 16 + f)]
    else [byte_of_Z (t * 16); byte_of_Z f]
  else
    if (f <? 16)%Z then [byte_of_Z f; byte_of_Z t]
    else [x00; byte_of_Z t; byte_of_Z f].

(** Modelled from the spec: section 4.5, the length prefix of a
    VL-encoded field, the dual of the decoding given there. *)
Definition encodeVL (len : Z) : result Buffer :=
  if (len <=? 192)%Z then Ok [byte_of_Z len]
  else if (len <=? 12480)%Z then
    let l := (len - 193)%Z in
    Ok [byte_of_Z (193 + l / 256); byte_of_Z (l mod 256)]
  else if (len <=? 918744)%Z then
    let l := (len - 12481)%Z in
    Ok [byte_of_Z (241 + l / 65536); byte_of_Z ((l / 256) mod 256);
        byte_of_Z (l mod 256)]
  else Throw (Error "Overflow VariableLength").

Definition OBJECT_END_MARKER : Buffer := [xe1].

(** Modelled from the spec: "Canonical order of fields within an
    STObject: sort ascending by (type code, field code)." *)
Definition field_leb (a b : FieldInstance * JsValue) : bool :=
  let ta := typeCode (f_type (fst a)) in
  let tb := typeCode (f_type (fst b)) in
  ((ta <? tb) || ((ta =? tb) && (nth (fst a) <=? nth (fst b))))%Z.

(** Modelled from the spec: "Iterate JSON entries; for each key, look up
    FieldDefinition (fail UnknownField for keys not in registry ...)." *)
Fixpoint lookupFields (props : list (string * JsValue))
  : result (list (FieldInstance * JsValue)) :=
  match props with
  | [] => Ok []
  | (key, v) :: rest =>
      match Field key with
      | None => Throw (UnknownField key)
      | Some f => fs <- lookupFields rest ;; Ok ((f, v) :: fs)
      end
  end.

(** Modelled from the spec: "A field whose isSerialized=false is never
    emitted; a field whose isSigningField=false is skipped when
    signing-filter active."  The predicate a field passes to be emitted:
    [isSerialized], and the caller's predicate when there is one. *)
Definition emits (filter : option (FieldInstance -> bool)) (f : FieldInstance) : bool :=
  isSerialized f &&
  match filter with
  | Some keep => keep f
  | None => true
  end.

(** Modelled from the spec: section 4.4, [types/st-object.ts] is absent.
    The fields an object emits, in canonical order. *)
Definition STObject_fields (props : list (string * JsValue))
  (filter : option (FieldInstance -> bool))
  : result (list (FieldInstance * JsValue)) :=
  fields <- lookupFields props ;;
  Ok (sort_by field_leb (List.filter (fun fv => emits filter (fst fv)) fields)).

(** Modelled from the spec: "Emit the field header.  If the field is
    VL-encoded, emit the length prefix ... If the value is itself an
    STObject nested inside an object context, terminate with 0xE1." *)
Definition encodeField (fv : FieldInstance * JsValue) : result Buffer :=
  let '(f, v) := fv in
  bytes <- st_from (associatedType (f_type f)) v ;;
  vl <- (if isVLEncoded f then encodeVL (Z.of_nat (List.length bytes)) else Ok []) ;;
  Ok (fieldHeader (typeCode (f_type f)) (nth f) ++ vl ++ bytes
      ++ (if String.eqb (f_type f) "STObject" then OBJECT_END_MARKER else [])).

Fixpoint encodeFields (fvs : list (FieldInstance * JsValue)) : result (list Buffer) :=
  match fvs with
  | [] => Ok []
  | fv :: rest =>
      chunk <- encodeField fv ;;
      chunks <- encodeFields rest ;;
      Ok (chunk :: chunks)
  end.

(** Modelled from the spec: section 4.4, [STObject.from(value, filter)],
    the bytes of the resulting object. *)
Definition STObject_from (value : JsValue) (filter : option (FieldInstance -> bool))
  : result Buffer :=
  match value with
  | VInst CSTObject bytes => Ok bytes
  | VObj props =>
      fields <- STObject_fields props filter ;;
      chunks <- encodeFields fields ;;
      Ok (Buffer_concat chunks)
  | _ => Throw (Error "TypeMismatch")
  end.

End STObject.

(** ** The heap: [BytesList] sinks and [BinaryParser] cursors *)

Inductive HeapObject : Type :=
| OBytesList (chunks : list Buffer)
| OParser (ahead : Buffer).

(** Objects are allocated at the end; a reference is an index. *)
Definition Heap : Type := list HeapObject.
Definition ref : Type := nat.

(** A computation on the heap that returns or throws. *)
Definition M (A : Type) : Type := Heap -> result A * Heap.

Definition ret {A : Type} (a : A) : M A := fun h => (Ok a, h).

Definition bindM {A B : Type} (c : M A) (k : A -> M B) : M B :=
  fun h =>
    match c h with
    | (Ok a, h') => k a h'
    | (Throw e, h') => (Throw e, h')
    end.

(** A heap-free computation inside [M]. *)
Definition lift {A : Type} (r : result A) : M A := fun h => (r, h).

Notation "x <~ c ;; k" := (bindM c (fun x => k))
  (at level 61, c at next level, right associativity) : js_scope.

(** [new]: the object goes to the end of the heap. *)
Definition alloc (o : HeapObject) : M ref :=
  fun h => (Ok (List.length h), h ++ [o]).

(** The heap with the object at [r] replaced. *)
Fixpoint store (r : ref) (o : HeapObject) (h : Heap) : Heap :=
  match h, r with
  | [], _ => []
  | _ :: rest, O => o :: rest
  | x :: rest, S r' => x :: store r' o rest
  end.

Definition NotAnObject : exn := TypeError "Cannot read properties of undefined".

(** Modelled from the spec: [serdes/binary-serializer.ts] is absent.
    "Serializer (BytesList): append-only byte vector." *)
Definition BytesList_new : M ref := alloc (OBytesList []).

(** Modelled from the spec: [bytesList.put(bytes)] appends. *)
Definition BytesList_put (this : ref) (bytes : Buffer) : M unit :=
  fun h =>
    match nth_error h this with
    | Some (OBytesList chunks) => (Ok tt, store this (OBytesList (chunks ++ [bytes])) h)
    | _ => (Throw NotAnObject, h)
    end.

(** Modelled from the spec: [bytesList.toBytes()], all that was put, in
    order. *)
Definition BytesList_toBytes (this : ref) : M Buffer :=
  fun h =>
    match nth_error h this with
    | Some (OBytesList chunks) => (Ok (Buffer_concat chunks), h)
    | _ => (Throw NotAnObject, h)
    end.

(** Modelled from the spec: [SerializedType.toBytesSink(list)] is absent.
    "field header + value codec output -> concatenated": the bytes of
    the object are put into the sink. *)
Definition toBytesSink (this : Buffer) (list : ref) : M unit :=
  BytesList_put list this.

(** A call that reads nothing of the heap it starts in and changes
    nothing of it: one result on every heap, and every heap extended by
    the same new objects. *)
Definition local_call {A : Type} (c : M A) : Prop :=
  exists (r : result A) (fresh : list HeapObject), forall h, c h = (r, h ++ fresh).

(** A call whose result is the same on any two heaps and which leaves
    the objects of the heap it starts in as they were. *)
Definition stateless {A : Type} (c : M A) : Prop :=
  forall h1 h2 : Heap,
    fst (c h1) = fst (c h2) /\ firstn (List.length h1) (snd (c h1)) = h1.

(** The bytes of an optional buffer, and the chunk it adds to a sink. *)
Definition optional_bytes (o : option Buffer) : Buffer :=
  match o with
  | Some b => b
  | None => []
  end.

Definition optional_chunk (o : option Buffer) : list Buffer :=
  match o with
  | Some b => [b]
  | None => []
  end.

(** Modelled from the spec: [parser.readType(type)], "read_type(T)",
    is [type.fromParser(this)], the cursor of the parser object moving
    with it. *)
Definition Parser_readType (this : ref) (type : SerializedTypeClass) : M Buffer :=
  fun h =>
    match nth_error h this with
    | Some (OParser ahead) =>
        match st_fromParser type ahead with
        | Ok (inst, ahead') => (Ok inst, store this (OParser ahead') h)
        | Throw e => (Throw e, h)
        end
    | _ => (Throw NotAnObject, h)
    end.

(** ** [binary.ts] *)

Module Binary.
Section Binary.
Context `{AddressCodec} `{Definitions} `{BigInteger}.

Definition makeParser (bytes : string) : M ref :=
  p <~ lift (BinaryParser_new bytes) ;;
  alloc (OParser p).

Definition readJSON (parser : ref) : M JsValue :=
  obj <~ Parser_readType parser STObject ;;
  lift (st_toJSON STObject obj).

Definition binaryToJSON (bytes : string) : M JsValue :=
  parser <~ makeParser bytes ;;
  readJSON parser.

(** The options of [serializeObject]; an absent property is [None]. *)
Record OptionObject : Type := {
  prefix : option Buffer;
  suffix : option Buffer;
  signingFieldsOnly : option bool
}.

(** The default [opts = {}]. *)
Definition no_opts : OptionObject :=
  {| prefix := None; suffix := None; signingFieldsOnly := None |}.

Definition serializeObject (object : JsValue) (opts : OptionObject) : M Buffer :=
  let signingFieldsOnly :=
    match signingFieldsOnly opts with
    | Some b => b
    | None => false
    end in
  bytesList <~ BytesList_new ;;
  _ <~ match prefix opts with
       | Some prefix => BytesList_put bytesList prefix
       | None => ret tt
       end ;;
  let filter :=
    if signingFieldsOnly
    then Some (fun f : FieldInstance => isSigningField f)
    else None in
  obj <~ lift (STObject_from object filter) ;;
  _ <~ toBytesSink obj bytesList ;;
  _ <~ match suffix opts with
       | Some suffix => BytesList_put bytesList suffix
       | None => ret tt
       end ;;
  BytesList_toBytes bytesList.

(** [prefix] is [None] when the caller leaves the argument out. *)
Definition signingData (transaction : JsValue) (prefix : option Buffer) : M Buffer :=
  let prefix :=
    match prefix with
    | Some p => p
    | None => HashPrefix.transactionSig
    end in
  serializeObject transaction
    {| prefix := Some prefix; suffix := None; signingFieldsOnly := Some true |}.

Definition signingClaimData (claim : JsValue) : M Buffer :=
  let prefix := HashPrefix.paymentChannelClaim in
  channel <~ lift (Hash256_from (get_prop claim "channel")) ;;
  bytesList <~ BytesList_new ;;
  _ <~ BytesList_put bytesList prefix ;;
  _ <~ BytesList_put bytesList channel ;;
  _ <~ (if String.eqb (typeof (get_prop claim "amount")) "object" then
          amount <~ lift (st_from Amount (get_prop claim "amount")) ;;
          BytesList_put bytesList amount
        else
          num <~ lift (bigInt (String_ (get_prop claim "amount"))) ;;
          amount <~ lift (UInt64_from num) ;;
          BytesList_put bytesList amount) ;;
  BytesList_toBytes bytesList.

Definition multiSigningData (transaction : JsValue) (signingAccount : JsValue)
  : M Buffer :=
  let prefix := HashPrefix.transactionMultiSig in
  suffix <~ lift (AccountID_from signingAccount) ;;
  serializeObject transaction
    {| prefix := Some prefix; suffix := Some suffix; signingFieldsOnly := Some true |}.

End Binary.
End Binary.

(** ** Summaries of the facade *)

Section FacadeSummary.
Context `{Definitions} `{BigInteger}.

(** The filter of the signing paths. *)
Definition signingFilter : option (FieldInstance -> bool) :=
  Some (fun f : FieldInstance => isSigningField f).

(** The filter [serializeObject] passes on for its options. *)
Definition filterOf (opts : Binary.OptionObject) : option (FieldInstance -> bool) :=
  match Binary.signingFieldsOnly opts with
  | Some true => signingFilter
  | _ => None
  end.

(** The amount of a claim as [signingClaimData] converts it. *)
Definition claimAmount (amount : JsValue) : result Buffer :=
  if String.eqb (typeof amount) "object" then st_from Amount amount
  else num <- bigInt (String_ amount) ;; UInt64_from num.

End FacadeSummary.

(** ** Canonical encodings *)

(** The keys of the JSON form of a bridge, in the order of [TYPE_ORDER]. *)
Definition BRIDGE_KEYS : list string :=
  ["LockingChainDoor"; "LockingChainIssue"; "IssuingChainDoor"; "IssuingChainIssue"].

Section Canonical.
Context `{AddressCodec} `{CurrencyCodec}.

(** An AccountID whose address decodes back to it. *)
Definition canonical_AccountID (a : Buffer) : Prop :=
  List.length a = 20%nat /\
  exists s, encodeAccountID a = Ok s /\ decodeAccountID s = Ok a.

(** A currency other than XRP whose JSON form converts back to it. *)
Definition canonical_issued_Currency (c : Buffer) : Prop :=
  List.length c = 20%nat /\
  Currency_toJSON c <> "XRP" /\
  Currency_from (VStr (Currency_toJSON c)) = Ok c.

(** The XRP currency: the bytes ['XRP'] converts to, shown as ['XRP']. *)
Definition canonical_XRP (c : Buffer) : Prop :=
  List.length c = 20%nat /\
  Currency_toJSON c = "XRP" /\
  Currency_from (VStr "XRP") = Ok c.

(** "Issue: 20-byte currency if XRP; otherwise 40 bytes (currency +
    issuer)", each part canonical for its own codec. *)
Definition canonical_Issue (b : Buffer) : Prop :=
  canonical_XRP b \/
  exists c a, b = c ++ a /\ canonical_issued_Currency c /\ canonical_AccountID a.

(** An encoding of class [T] that [T.fromParser] reads back whatever
    follows it, and that survives [T.from(_.toJSON())]. *)
Definition canonical_for (T : SerializedTypeClass) (i : Buffer) : Prop :=
  (forall rest, st_fromParser T (i ++ rest) = Ok (i, rest)) /\
  exists j, st_toJSON T i = Ok j /\ st_from T j = Ok i.

(** "[0x14][LockingDoor:20][LockingIssue][0x14][IssuingDoor:20][IssuingIssue]",
    each part canonical. *)
Definition canonical_XChainBridge `{IssuedCurrencyCodec} (b : Buffer) : Prop :=
  exists d1 i1 d2 i2,
    b = [x14] ++ d1 ++ i1 ++ [x14] ++ d2 ++ i2 /\
    canonical_AccountID d1 /\ canonical_for XChainBridge.IssuedCurrency i1 /\
    canonical_AccountID d2 /\ canonical_for XChainBridge.IssuedCurrency i2.

End Canonical.

(** ** Concrete collaborators

    Instances of the parameters above, on which the development is run
    at concrete inputs. *)

Module Sample.

Definition ACCOUNT_ZERO : string := "rrrrrrrrrrrrrrrrrrrrrhoLvTp".
Definition ACCOUNT_ONE : string := "rrrrrrrrrrrrrrrrrrrrBZbvji".
Definition ACCOUNT_TEST : string := "rJrRMgiRgrU6hDF4pgu5DXQdWyPbY35ErN".

Definition ACCOUNT_TEST_ID : Buffer :=
  [xba; x8e; x78; x62; x6e; xe4; x2c; x41; xb4; x6d;
   x46; xc3; x04; x8d; xf3; xa1; xc3; xc8; x70; x72].

(** A finite excerpt of the address codec: three accounts and their
    identifiers. *)
Definition knownAccounts : list (string * Buffer) :=
  [ (ACCOUNT_ZERO, Buffer_alloc 20);
    (ACCOUNT_ONE, Buffer_alloc 19 ++ [x01]);
    (ACCOUNT_TEST, ACCOUNT_TEST_ID) ].

Definition Buffer_eqb (a b : Buffer) : bool :=
  if list_eq_dec Byte.byte_eq_dec a b then true else false.

Fixpoint decodeKnown (table : list (string * Buffer)) (s : string) : result Buffer :=
  match table with
  | [] => Throw (Error "Non-base58 character")
  | (addr, id) :: rest => if String.eqb addr s then Ok id else decodeKnown rest s
  end.

Fixpoint encodeKnown (table : list (string * Buffer)) (b : Buffer) : result string :=
  match table with
  | [] => Throw (Error "unknown account")
  | (addr, id) :: rest => if Buffer_eqb id b then Ok addr else encodeKnown rest b
  end.

#[export] Instance addressCodec : AddressCodec :=
  {| decodeAccountID := decodeKnown knownAccounts;
     encodeAccountID := encodeKnown knownAccounts |}.

(** Letters and digits. *)
Definition isIsoChar (c : ascii) : bool :=
  let n := N_of_ascii c in
  ((48 <=? n) && (n <=? 57) || (65 <=? n) && (n <=? 90)
   || (97 <=? n) && (n <=? 122))%N.

Definition isIsoCode (s : string) : bool :=
  Nat.eqb (String.length s) 3 && forallb isIsoChar (list_ascii_of_string s).

(** "standard 3-letter ISO code -> 12 zero bytes + 3 ASCII + 5 zero
    bytes". *)
Definition isoToBytes (code : string) : Buffer :=
  Buffer_alloc 12 ++ list_byte_of_string code ++ Buffer_alloc 5.

(** Modelled from the spec: [types/currency.ts] is absent.  "Three
    canonical shapes: (a) standard 3-letter ISO code ...; (b) "XRP" -> 20
    zero bytes; (c) non-standard -> raw 20 bytes hex." *)
Definition specCurrency_from (value : JsValue) : result Buffer :=
  match value with
  | VInst CCurrency bytes => Ok bytes
  | VStr s =>
      if String.eqb s "XRP" then Ok (Buffer_alloc 20)
      else if isIsoCode s then Ok (isoToBytes s)
      else
        match fromHex s with
        | Some bytes =>
            if Nat.eqb (List.length bytes) 20 then Ok bytes
            else Throw (Error "Unsupported Currency representation")
        | None => Throw (Error "Unsupported Currency representation")
        end
  | _ => Throw (Error "Cannot construct Currency from value given")
  end.

(** Modelled from the spec: "to_json returns the 3-letter code if it
    matches the standard layout and bytes [0..11] and [15..19] are zero
    and the 3-letter chars are valid; otherwise uppercase hex", the 20
    zero bytes being "XRP". *)
Definition specCurrency_toJSON (bytes : Buffer) : string :=
  if Buffer_eqb bytes (Buffer_alloc 20) then "XRP"
  else
    let code := string_of_list_byte (firstn 3 (skipn 12 bytes)) in
    if Buffer_eqb bytes (isoToBytes code) && isIsoCode code
       && negb (String.eqb code "XRP")
    then code
    else toHex bytes.

#[export] Instance currencyCodec : CurrencyCodec :=
  {| Currency_from := specCurrency_from;
     Currency_toJSON := specCurrency_toJSON |}.

(** The sibling class [Issue] in the place of [IssuedCurrency]. *)
#[export] Instance issuedCurrencyCodec : IssuedCurrencyCodec :=
  {| IssuedCurrency_from := Issue.from;
     IssuedCurrency_fromParser := Issue.fromParser;
     IssuedCurrency_toJSON := Issue.toJSON |}.

(** The JSON values of that class that denote XRP: the strings. *)
Definition isStringForm (v : JsValue) : bool :=
  match v with
  | VStr _ => true
  | _ => false
  end.

(** The package [big-integer] on decimal text. *)
Definition parseDecimal (text : string) : result Z :=
  match NilEmpty.int_of_string text with
  | Some i => Ok (Z.of_int i)
  | None => Throw (Error ("Invalid integer: " ++ text))
  end.

#[export] Instance bigInteger : BigInteger := {| bigInt := parseDecimal |}.

(** A class of which only [from] is in the excerpt. *)
Definition fromOnly (c : ClassName) (from : JsValue -> result Buffer)
  : SerializedTypeClass :=
  {| cls := c;
     st_from := from;
     st_fromParser := fun _ => Throw (Error "outside the excerpt");
     st_toJSON := fun _ => Throw (Error "outside the excerpt") |}.

Definition UInt32_from (value : JsValue) : result Buffer :=
  match value with
  | VNum n =>
      if (0 <=? n)%Z && (n <? 2 ^ 32)%Z then Ok (be_bytes 4 n)
      else Throw (Error "Invalid UInt32")
  | _ => Throw (Error "Cannot construct UInt32 from given value")
  end.

Definition Blob_from (value : JsValue) : result Buffer :=
  match value with
  | VStr s =>
      match fromHex s with
      | Some bytes => Ok bytes
      | None => Throw MalformedHex
      end
  | _ => Throw (Error "Cannot construct Blob from value given")
  end.

(** An excerpt of the issued-amount codec: the values "0" and "1"
    ("the first 8 amount bytes are D4 C3 8D 7E A4 C6 80 00"), followed by
    currency and issuer. *)
Definition Amount_from (value : JsValue) : result Buffer :=
  match value with
  | VObj _ =>
      mantissa <-
        match get_prop value "value" with
        | VStr "0" => Ok [x80; x00; x00; x00; x00; x00; x00; x00]
        | VStr "1" => Ok [xd4; xc3; x8d; x7e; xa4; xc6; x80; x00]
        | _ => Throw (Error "outside the excerpt")
        end ;;
      currency <- specCurrency_from (get_prop value "currency") ;;
      issuer <- AccountID_from (get_prop value "issuer") ;;
      Ok (mantissa ++ currency ++ issuer)
  | _ => Throw (Error "outside the excerpt")
  end.

Definition field (name type : string) (code : Z) (vl serialized signing : bool)
  : FieldInstance :=
  {| f_name := name; f_type := type; nth := code; isVLEncoded := vl;
     isSerialized := serialized; isSigningField := signing |}.

(** An excerpt of the FIELDS table. *)
Definition FIELDS : list FieldInstance :=
  [ field "Flags" "UInt32" 2 false true true;
    field "Sequence" "UInt32" 4 false true true;
    field "SigningPubKey" "Blob" 3 true true true;
    field "TxnSignature" "Blob" 4 true true false;
    field "Account" "AccountID" 1 true true true;
    field "hash" "Hash256" 257 false false false ].

(** An excerpt of the TYPES table. *)
Definition TYPES : list (string * Z) :=
  [ ("UInt32", 2); ("Hash256", 5); ("Amount", 6); ("Blob", 7);
    ("AccountID", 8); ("STObject", 14) ]%Z.

Definition sampleField (key : string) : option FieldInstance :=
  find (fun f => String.eqb (f_name f) key) FIELDS.

Definition sampleTypeCode (type : string) : Z :=
  match find (fun tc => String.eqb (fst tc) type) TYPES with
  | Some tc => snd tc
  | None => (-2)%Z
  end.

Definition sampleType (type : string) : SerializedTypeClass :=
  if String.eqb type "UInt32" then fromOnly CUInt32 UInt32_from
  else if String.eqb type "Blob" then fromOnly CBlob Blob_from
  else if String.eqb type "AccountID" then AccountID
  else if String.eqb type "Hash256" then fromOnly CHash256 Hash256_from
  else fromOnly CSTObject (fun _ => Throw (Error "outside the excerpt")).

#[export] Instance definitions : Definitions :=
  {| Field := sampleField;
     typeCode := sampleTypeCode;
     associatedType := sampleType;
     Amount := fromOnly CAmount Amount_from;
     STObject := fromOnly CSTObject (fun _ => Throw (Error "outside the excerpt")) |}.

(** A transaction over the excerpt: [TxnSignature] is no signing field
    and [hash] is not serialized. *)
Definition tx : list (string * JsValue) :=
  [ ("TxnSignature", VStr "ABCD"); ("Sequence", VNum 1); ("hash", VStr "00");
    ("SigningPubKey", VStr ""); ("Account", VStr ACCOUNT_TEST); ("Flags", VNum 0) ].

Definition USD_issue : JsValue :=
  VObj [("currency", VStr "USD"); ("issuer", VStr ACCOUNT_TEST)].

Definition USD_issue_bytes : Buffer :=
  isoToBytes "USD" ++ ACCOUNT_TEST_ID.

Definition bridge : JsValue :=
  VObj [ ("LockingChainDoor", VStr ACCOUNT_TEST);
         ("LockingChainIssue", VStr "XRP");
         ("IssuingChainDoor", VStr ACCOUNT_ONE);
         ("IssuingChainIssue", USD_issue) ].

Definition bridge_bytes : Buffer :=
  [x14] ++ ACCOUNT_TEST_ID ++ Buffer_alloc 20
  ++ [x14] ++ (Buffer_alloc 19 ++ [x01]) ++ USD_issue_bytes.

Definition CHANNEL : string :=
  "43904CBFCDCEC530B4037871F86EE90BF799DF8D2E0EA564BC8A3F332E4F5FB1".

Definition claim : JsValue :=
  VObj [("channel", VStr CHANNEL); ("amount", VStr "1000")].

End Sample.

(** ** Truthiness *)

(** [Boolean(v)]: the falsy values are [undefined], [null], [false], [0]
    and the empty string. *)
Definition truthy (v : JsValue) : bool :=
  match v with
  | VUndefined | VNull | VBool false | VNum 0%Z | VStr EmptyString => false
  | _ => true
  end.

(** [v == null]: true of [null] and of [undefined] only. *)
Definition isNullish (v : JsValue) : bool :=
  match v with
  | VUndefined | VNull => true
  | _ => false
  end.

(** [v.name]: a [TypeError] on [null] and [undefined], the property of an
    object, [undefined] on the other values. *)
Definition member (v : JsValue) (name : string) : result JsValue :=
  match v with
  | VUndefined | VNull =>
      Throw (TypeError ("Cannot read properties of undefined (reading '"
                        ++ name ++ "')"))
  | _ => Ok (get_prop v name)
  end.

(** [v === s] for a string [s]. *)
Definition strictEqualsString (v : JsValue) (s : string) : bool :=
  match v with
  | VStr t => String.eqb t s
  | _ => false
  end.

(** ** [models/transactions/AMMWithdraw.ts] *)

(** A validator returns, or throws a [ValidationError]. *)
Inductive Validation : Type :=
| Valid
| ValidationError (message : string).

(** [models/transactions/common.ts] is absent: its three functions are
    parameters. *)
Class TransactionCommon : Type := {
  validateBaseTransaction : JsValue -> Validation;
  isAmount : JsValue -> bool;
  isIssuedCurrency : JsValue -> bool
}.

Module AMMWithdraw.
Section AMMWithdraw.
Context `{TransactionCommon}.

(** [if (bad) throw new ValidationError(message)]. *)
Definition throwIf (bad : bool) (message : string) : Validation :=
  if bad then ValidationError message else Valid.

(** One statement after another: the second runs when the first has not
    thrown. *)
Definition andThen (first second : Validation) : Validation :=
  match first with
  | Valid => second
  | ValidationError message => ValidationError message
  end.

Definition validateAMMWithdraw (tx : list (string * JsValue)) : Validation :=
  let Amount := lookup_prop "Amount" tx in
  let Amount2 := lookup_prop "Amount2" tx in
  let EPrice := lookup_prop "EPrice" tx in
  let LPTokenIn := lookup_prop "LPTokenIn" tx in
  andThen (validateBaseTransaction (VObj tx))
 (andThen
    (if negb (isNullish Amount2) && isNullish Amount then
       ValidationError "AMMWithdraw: must set Amount with Amount2"
     else if negb (isNullish EPrice) && isNullish Amount then
       ValidationError "AMMWithdraw: must set Amount with EPrice"
     else if isNullish LPTokenIn && isNullish Amount then
       ValidationError "AMMWithdraw: must set at least LPTokenIn or Amount"
     else Valid)
 (andThen
    (throwIf (negb (isNullish LPTokenIn) && negb (isIssuedCurrency LPTokenIn))
       "AMMWithdraw: LPTokenIn must be an IssuedCurrencyAmount")
 (andThen
    (throwIf (negb (isNullish Amount) && negb (isAmount Amount))
       "AMMWithdraw: Amount must be an Amount")
 (andThen
    (throwIf (negb (isNullish Amount2) && negb (isAmount Amount2))
       "AMMWithdraw: Amount2 must be an Amount")
    (throwIf (negb (isNullish EPrice) && negb (isAmount EPrice))
       "AMMWithdraw: EPrice must be an Amount"))))).

End AMMWithdraw.
End AMMWithdraw.

(** ** The transaction filters of [getTransactions] *)

Module GetTransactions.

(** The options, as the source declares them; an absent property is
    [None]. *)
Record TransactionsOptions : Type := {
  start : option string;
  limit : option Z;
  minLedgerVersion : option Z;
  maxLedgerVersion : option Z;
  earliestFirst : option bool;
  excludeFailures : option bool;
  initiated : option bool;
  counterparty : option string;
  types : option (list string);
  binary : option bool;
  startTx : option JsValue
}.

(** The options with one property replaced. *)
Definition withInitiated (o : TransactionsOptions) (i : option bool)
  : TransactionsOptions :=
  {| start := start o; limit := limit o; minLedgerVersion := minLedgerVersion o;
     maxLedgerVersion := maxLedgerVersion o; earliestFirst := earliestFirst o;
     excludeFailures := excludeFailures o; initiated := i;
     counterparty := counterparty o; types := types o; binary := binary o;
     startTx := startTx o |}.

Definition withCounterparty (o : TransactionsOptions) (c : option string)
  : TransactionsOptions :=
  {| start := start o; limit := limit o; minLedgerVersion := minLedgerVersion o;
     maxLedgerVersion := maxLedgerVersion o; earliestFirst := earliestFirst o;
     excludeFailures := excludeFailures o; initiated := initiated o;
     counterparty := c; types := types o; binary := binary o;
     startTx := startTx o |}.

Definition withEarliestFirst (o : TransactionsOptions) (e : option bool)
  : TransactionsOptions :=
  {| start := start o; limit := limit o; minLedgerVersion := minLedgerVersion o;
     maxLedgerVersion := maxLedgerVersion o; earliestFirst := e;
     excludeFailures := excludeFailures o; initiated := initiated o;
     counterparty := counterparty o; types := types o; binary := binary o;
     startTx := startTx o |}.

(** Truthiness of an optional boolean, string and value. *)
Definition truthyBool (o : option bool) : bool :=
  match o with
  | Some true => true
  | _ => false
  end.

Definition truthyString (o : option string) : bool :=
  match o with
  | Some EmptyString | None => false
  | Some _ => true
  end.

Definition truthyValue (o : option JsValue) : bool :=
  match o with
  | Some v => truthy v
  | None => false
  end.

(** [v === filters.counterparty]; an absent counterparty is [undefined],
    equal to [undefined] only. *)
Definition strictEqualsOption (v : JsValue) (o : option string) : bool :=
  match o with
  | Some s => strictEqualsString v s
  | None => match v with VUndefined => true | _ => false end
  end.

(** [_.includes(types, v)] on an array of strings. *)
Definition includes (types : list string) (v : JsValue) : bool :=
  existsb (strictEqualsString v) types.

Section Filters.

(** [utils.compareTransactions] is absent: the comparison is a
    parameter. *)
Variable compareTransactions : JsValue -> JsValue -> result Z.

Definition counterpartyFilter (filters : TransactionsOptions) (tx : JsValue)
  : result bool :=
  if negb (truthyString (counterparty filters)) then Ok true
  else
    address <- member tx "address" ;;
    matches <-
      (if strictEqualsOption address (counterparty filters) then Ok true
       else
         specification <- member tx "specification" ;;
         if truthy specification then
           destination <- member specification "destination" ;;
           byDestination <-
             (if truthy destination then
                destAddress <- member destination "address" ;;
                Ok (strictEqualsOption destAddress (counterparty filters))
              else Ok false) ;;
           if byDestination then Ok true
           else
             specCounterparty <- member specification "counterparty" ;;
             Ok (strictEqualsOption specCounterparty (counterparty filters))
         else Ok false) ;;
    if matches then Ok true else Ok false.

Definition transactionFilter (address : string) (filters : TransactionsOptions)
  (tx : JsValue) : result bool :=
  failed <-
    (if truthyBool (excludeFailures filters) then
       outcome <- member tx "outcome" ;;
       res <- member outcome "result" ;;
       Ok (negb (strictEqualsString res "tesSUCCESS"))
     else Ok false) ;;
  if failed then Ok false
  else
    otherType <-
      (match types filters with
       | Some ts => type <- member tx "type" ;; Ok (negb (includes ts type))
       | None => Ok false
       end) ;;
    if otherType then Ok false
    else
      notInitiated <-
        (match initiated filters with
         | Some true =>
             txAddress <- member tx "address" ;;
             Ok (negb (strictEqualsString txAddress address))
         | _ => Ok false
         end) ;;
      if notInitiated then Ok false
      else
        isInitiated <-
          (match initiated filters with
           | Some false =>
               txAddress <- member tx "address" ;;
               Ok (strictEqualsString txAddress address)
           | _ => Ok false
           end) ;;
        if isInitiated then Ok false
        else
          otherParty <-
            (if truthyString (counterparty filters) then
               passes <- counterpartyFilter filters tx ;; Ok (negb passes)
             else Ok false) ;;
          if otherParty then Ok false else Ok true.

Definition orderFilter (options : TransactionsOptions) (tx : JsValue)
  : result bool :=
  match startTx options with
  | Some startTx =>
      if negb (truthy startTx) then Ok true
      else if truthyBool (earliestFirst options) then
        c <- compareTransactions tx startTx ;; Ok (0 <? c)%Z
      else
        c <- compareTransactions tx startTx ;; Ok (c <? 0)%Z
  | None => Ok true
  end.

End Filters.
End GetTransactions.

(** ** Canonical JSON *)

Section CanonicalJSON.
Context `{AddressCodec} `{CurrencyCodec} `{IssuedCurrencyCodec}.

(** The bytes an Issue takes: 20 when the currency in front reads
    ["XRP"], 40 otherwise. *)
Definition Issue_width (p : Buffer) : nat :=
  if String.eqb (Currency_toJSON (firstn 20 p)) "XRP" then 20 else 40.

(** An address that the codec decodes to 20 bytes and encodes back. *)
Definition canonical_address (s : string) : Prop :=
  exists a, decodeAccountID s = Ok a /\ List.length a = 20%nat /\
            encodeAccountID a = Ok s.

(** The JSON of an Issue as [Issue.toJSON] writes it: the string ["XRP"],
    or an object of a currency other than XRP and an issuer, in that
    order, each the JSON form of what it converts to. *)
Definition canonical_Issue_JSON (j : JsValue) : Prop :=
  (j = VStr "XRP" /\
   exists c, Currency_from (VStr "XRP") = Ok c /\ List.length c = 20%nat /\
             Currency_toJSON c = "XRP")
  \/
  (exists code issuer c,
      j = VObj [("currency", VStr code); ("issuer", VStr issuer)] /\
      Currency_from (VStr code) = Ok c /\ List.length c = 20%nat /\
      Currency_toJSON c = code /\ code <> "XRP" /\
      canonical_address issuer).

(** A JSON value that the issue class converts to bytes it reads back and
    shows as the same JSON. *)
Definition canonical_IssuedCurrency_JSON (j : JsValue) : Prop :=
  exists i, IssuedCurrency_from j = Ok i /\
            (forall rest, IssuedCurrency_fromParser (i ++ rest) = Ok (i, rest)) /\
            IssuedCurrency_toJSON i = Ok j.

(** The JSON of a bridge as [XChainBridge.toJSON] writes it. *)
Definition canonical_XChainBridge_JSON (j : JsValue) : Prop :=
  exists door1 issue1 door2 issue2,
    j = VObj [("LockingChainDoor", VStr door1); ("LockingChainIssue", issue1);
              ("IssuingChainDoor", VStr door2); ("IssuingChainIssue", issue2)] /\
    canonical_address door1 /\ canonical_IssuedCurrency_JSON issue1 /\
    canonical_address door2 /\ canonical_IssuedCurrency_JSON issue2.

End CanonicalJSON.

(** ** Concrete transactions *)

Module SampleLedger.

(** An object with exactly the keys [currency], [issuer] and [value]. *)
Definition sampleIsIssuedCurrency (v : JsValue) : bool :=
  match v with
  | VObj props =>
      if list_eq_dec string_dec (Array_sort (map fst props))
           ["currency"; "issuer"; "value"]
      then true else false
  | _ => false
  end.

(** A string of drops, or an issued currency amount. *)
Definition sampleIsAmount (v : JsValue) : bool :=
  match v with
  | VStr _ => true
  | _ => sampleIsIssuedCurrency v
  end.

(** An excerpt of the base validation: [Account] and [TransactionType]
    are strings. *)
Definition sampleValidateBase (tx : JsValue) : Validation :=
  match get_prop tx "Account", get_prop tx "TransactionType" with
  | VStr _, VStr _ => Valid
  | VStr _, _ => ValidationError "BaseTransaction: TransactionType not string"
  | _, _ => ValidationError "BaseTransaction: Account not string"
  end.

#[export] Instance transactionCommon : TransactionCommon :=
  {| validateBaseTransaction := sampleValidateBase;
     isAmount := sampleIsAmount;
     isIssuedCurrency := sampleIsIssuedCurrency |}.

Definition LPToken : JsValue :=
  VObj [("currency", VStr "039C99CD9AB0B70B32ECDA51EAAE471625608EA2");
        ("issuer", VStr "rE54zDvgnghAoPopCgvtiqWNq3dU5y836S");
        ("value", VStr "1000")].

(** An AMMWithdraw with [Amount2] and no [Amount]. *)
Definition withdrawAmount2Only : list (string * JsValue) :=
  [ ("Account", VStr "rWYkbWkCeg8dP6rXALnjgZSjjLyih5NXm");
    ("TransactionType", VStr "AMMWithdraw");
    ("LPTokenIn", LPToken);
    ("Amount2", VStr "500") ].

(** A parsed transaction: its sender, type, result and ledger. *)
Definition parsed (address type result : string) (ledger : Z) : list (string * JsValue) :=
  [ ("address", VStr address);
    ("type", VStr type);
    ("outcome", VObj [("result", VStr result); ("ledgerVersion", VNum ledger)]) ].

Definition ledgerVersion (tx : JsValue) : Z :=
  match get_prop (get_prop tx "outcome") "ledgerVersion" with
  | VNum n => n
  | _ => 0%Z
  end.

(** A comparison of transactions by ledger. *)
Definition compareByLedger (a b : JsValue) : result Z :=
  Ok (ledgerVersion a - ledgerVersion b)%Z.

(** No option set. *)
Definition noOptions : GetTransactions.TransactionsOptions :=
  {| GetTransactions.start := None; GetTransactions.limit := None;
     GetTransactions.minLedgerVersion := None;
     GetTransactions.maxLedgerVersion := None;
     GetTransactions.earliestFirst := None;
     GetTransactions.excludeFailures := None;
     GetTransactions.initiated := None;
     GetTransactions.counterparty := None;
     GetTransactions.types := None;
     GetTransactions.binary := None;
     GetTransactions.startTx := None |}.

(** An empty list of types, and nothing else. *)
Definition noTypes : GetTransactions.TransactionsOptions :=
  {| GetTransactions.start := None; GetTransactions.limit := None;
     GetTransactions.minLedgerVersion := None;
     GetTransactions.maxLedgerVersion := None;
     GetTransactions.earliestFirst := None;
     GetTransactions.excludeFailures := None;
     GetTransactions.initiated := None;
     GetTransactions.counterparty := None;
     GetTransactions.types := Some [];
     GetTransactions.binary := None;
     GetTransactions.startTx := None |}.

(** Payments that succeeded, paging from a payment of ledger 348860. *)
Definition paymentsFrom : GetTransactions.TransactionsOptions :=
  {| GetTransactions.start := None; GetTransactions.limit := None;
     GetTransactions.minLedgerVersion := None;
     GetTransactions.maxLedgerVersion := None;
     GetTransactions.earliestFirst := None;
     GetTransactions.excludeFailures := Some true;
     GetTransactions.initiated := None;
     GetTransactions.counterparty := None;
     GetTransactions.types := Some ["payment"];
     GetTransactions.binary := None;
     GetTransactions.startTx :=
       Some (VObj (parsed Sample.ACCOUNT_TEST "payment" "tesSUCCESS" 348860)) |}.

End SampleLedger.

(** * Properties *)

(** ** The result monad *)

Lemma bind_Ok {A B : Type} (c : result A) (k : A -> result B) (b : B) :
  bind c k = Ok b -> exists a, c = Ok a /\ k a = Ok b.
Proof.
  destruct c as [a|e]; simpl; intros Hk.
  - exists a. split; [reflexivity | exact Hk].
  - discriminate Hk.
Qed.

(** ** Sorting *)

Section SortFacts.
Context {A : Type} (leb : A -> A -> bool).

Lemma insert_sorted_perm (x : A) (l : list A) :
  Permutation (insert_sorted leb x l) (x :: l).
Proof.
  induction l as [|y rest IH]; simpl.
  - apply Permutation_refl.
  - destruct (leb x y).
    + apply Permutation_refl.
    + apply Permutation_trans with (y :: x :: rest).
      * apply perm_skip. exact IH.
      * apply perm_swap.
Qed.

Lemma sort_by_perm (l : list A) : Permutation (sort_by leb l) l.
Proof.
  induction l as [|x rest IH]; simpl.
  - apply perm_nil.
  - apply Permutation_trans with (x :: sort_by leb rest).
    + apply insert_sorted_perm.
    + apply perm_skip. exact IH.
Qed.

Lemma sort_by_In (x : A) (l : list A) : In x (sort_by leb l) <-> In x l.
Proof.
  split; apply Permutation_in.
  - apply sort_by_perm.
  - apply Permutation_sym, sort_by_perm.
Qed.

End SortFacts.

(** ** Key guards *)

Lemma index_is_true (keys : list string) (i : nat) (s : string) :
  index_is keys i s = true -> nth_error keys i = Some s.
Proof.
  unfold index_is. destruct (nth_error keys i) as [k|]; [|discriminate].
  intros Heq. apply String.eqb_eq in Heq. now subst k.
Qed.

Lemma keys_are_two (keys : list string) (a b : string) :
  Nat.eqb (List.length keys) 2 && index_is keys 0 a && index_is keys 1 b = true ->
  keys = [a; b].
Proof.
  intros Hg. apply andb_prop in Hg as [Hg Hb]. apply andb_prop in Hg as [Hlen Ha].
  apply Nat.eqb_eq in Hlen.
  apply index_is_true in Ha, Hb.
  destruct keys as [|k0 [|k1 [|k2 rest]]]; simpl in *; try discriminate.
  now injection Ha as ->; injection Hb as ->.
Qed.

Lemma keys_are_four (keys : list string) (a b c d : string) :
  Nat.eqb (List.length keys) 4 && index_is keys 0 a && index_is keys 1 b
  && index_is keys 2 c && index_is keys 3 d = true ->
  keys = [a; b; c; d].
Proof.
  intros Hg.
  apply andb_prop in Hg as [Hg Hd]. apply andb_prop in Hg as [Hg Hc].
  apply andb_prop in Hg as [Hg Hb]. apply andb_prop in Hg as [Hlen Ha].
  apply Nat.eqb_eq in Hlen.
  apply index_is_true in Ha, Hb, Hc, Hd.
  destruct keys as [|k0 [|k1 [|k2 [|k3 [|k4 rest]]]]]; simpl in *; try discriminate.
  injection Ha as ->; injection Hb as ->; injection Hc as ->; now injection Hd as ->.
Qed.

Section IssueGuards.
Context `{AddressCodec} `{CurrencyCodec}.

(** The guard holds exactly on the objects whose keys are [currency] and
    [issuer], in either order. *)
Lemma isIssueObject_true (props : list (string * JsValue)) :
  Issue.isIssueObject (VObj props) = Ok true ->
  Permutation (map fst props) ["currency"; "issuer"].
Proof.
  unfold Issue.isIssueObject. simpl. intros Hg. injection Hg as Hg.
  apply keys_are_two in Hg. unfold Array_sort in Hg.
  rewrite <- Hg. apply Permutation_sym, sort_by_perm.
Qed.

Lemma isIssueObject_VObj (props : list (string * JsValue)) :
  exists b, Issue.isIssueObject (VObj props) = Ok b.
Proof. unfold Issue.isIssueObject. simpl. eexists. reflexivity. Qed.

End IssueGuards.

Section IssueFrom.
Context `{AddressCodec} `{CurrencyCodec}.

(** C7.  A string other than ["XRP"] is refused by [Issue.from]: the call
    throws ["<s> is an illegal amount"] and returns no value, so ["XRP"]
    is the only string form an Issue accepts. *)
Theorem Issue_from_rejects_other_strings (s : string) :
  s <> "XRP" ->
  Issue.from (VStr s) = Throw (Error (s ++ " is an illegal amount")).
Proof.
  intros Hs. unfold Issue.from, Issue.assertXrpIsValid.
  destruct (String.eqb s "XRP") eqn:Heq.
  - apply String.eqb_eq in Heq. contradiction.
  - reflexivity.
Qed.

(** C10.  An object whose keys are not exactly [currency] and [issuer]
    (one is missing, or there is a further key) makes [Issue.from] throw
    ['Invalid type to construct an Amount']. *)
Theorem Issue_from_rejects_other_key_sets (props : list (string * JsValue)) :
  ~ Permutation (map fst props) ["currency"; "issuer"] ->
  Issue.from (VObj props) = Throw (Error "Invalid type to construct an Amount").
Proof.
  intros Hkeys. unfold Issue.from.
  destruct (isIssueObject_VObj props) as [b Hb]. rewrite Hb. simpl.
  destruct b; [|reflexivity].
  exfalso. apply Hkeys. now apply isIssueObject_true.
Qed.

End IssueFrom.

(** ** Hexadecimal text and the parser *)

Lemma fromHex_byteToHex (b : byte) (rest : string) :
  fromHex (byteToHex b ++ rest) =
  match fromHex rest with
  | Some bs => Some (b :: bs)
  | None => None
  end.
Proof. destruct b; simpl; destruct (fromHex rest); reflexivity. Qed.

Lemma fromHex_toHex (bs : Buffer) : fromHex (toHex bs) = Some bs.
Proof.
  induction bs as [|b rest IH].
  - reflexivity.
  - change (toHex (b :: rest)) with (byteToHex b ++ toHex rest)%string.
    rewrite fromHex_byteToHex, IH. reflexivity.
Qed.

(** A parser built from the hexadecimal text of a buffer is over that
    buffer. *)
Lemma BinaryParser_new_toHex (bs : Buffer) : BinaryParser_new (toHex bs) = Ok bs.
Proof. unfold BinaryParser_new. now rewrite fromHex_toHex. Qed.

Lemma Parser_read_app (n : nat) (a rest : Buffer) :
  List.length a = n -> Parser_read n (a ++ rest) = Ok (a, rest).
Proof.
  intros Hn. unfold Parser_read.
  assert (Hle : Nat.leb n (List.length (a ++ rest)) = true).
  { apply Nat.leb_le. rewrite length_app. lia. }
  rewrite Hle. subst n.
  rewrite firstn_app, firstn_all, Nat.sub_diag, firstn_O, app_nil_r.
  rewrite skipn_app, skipn_all, Nat.sub_diag. reflexivity.
Qed.

Lemma Parser_read_all (n : nat) (a : Buffer) :
  List.length a = n -> Parser_read n a = Ok (a, []).
Proof.
  intros Hn. rewrite <- (app_nil_r a) at 1. now apply Parser_read_app.
Qed.

Lemma Parser_read_Ok (n : nat) (p a rest : Buffer) :
  Parser_read n p = Ok (a, rest) ->
  p = a ++ rest /\ List.length a = n /\ a = firstn n p.
Proof.
  unfold Parser_read. destruct (Nat.leb n (List.length p)) eqn:Hle; [|discriminate].
  intros Hr. injection Hr as <- <-. apply Nat.leb_le in Hle.
  split; [symmetry; apply firstn_skipn|].
  split; [apply firstn_length_le; exact Hle | reflexivity].
Qed.

Lemma Parser_skip_cons (m : byte) (rest : Buffer) :
  Parser_skip 1 (m :: rest) = Ok (tt, rest).
Proof. reflexivity. Qed.

(** ** JSON values *)

Lemma decimal_starts_with_digit (n : nat) (c : ascii) (rest : string) :
  decimal n = String c rest -> isDecimalDigit c = true.
Proof.
  unfold decimal, NilZero.string_of_uint.
  destruct (Nat.to_uint n); simpl; intros Hd; injection Hd as <- _; reflexivity.
Qed.

Lemma decimal_not_word (w : string) (n : nat) :
  (forall c rest, w = String c rest -> isDecimalDigit c = false) ->
  w <> "" -> ~ In w (map decimal (seq 0 n)).
Proof.
  intros Hw Hne Hin. apply in_map_iff in Hin as [k [Hk _]].
  destruct w as [|c rest]; [now apply Hne|].
  pose proof (decimal_starts_with_digit k c rest Hk) as Hd.
  rewrite (Hw c rest eq_refl) in Hd. discriminate.
Qed.

Lemma isJSON_lookup_prop (name : string) (props : list (string * JsValue)) :
  isJSON (VObj props) = true ->
  lookup_prop name props = VUndefined \/ isJSON (lookup_prop name props) = true.
Proof.
  simpl. induction props as [|[k v] rest IH]; simpl; intros Hj.
  - now left.
  - apply andb_prop in Hj as [Hv Hrest].
    destruct (String.eqb k name); [now right | now apply IH].
Qed.

Lemma isJSON_lookup_present (name : string) (props : list (string * JsValue)) :
  isJSON (VObj props) = true ->
  In name (map fst props) ->
  isJSON (lookup_prop name props) = true.
Proof.
  simpl. induction props as [|[k v] rest IH]; simpl; intros Hj Hin.
  - contradiction.
  - apply andb_prop in Hj as [Hv Hrest].
    destruct (String.eqb k name) eqn:Hk; [exact Hv|].
    destruct Hin as [-> | Hin]; [now rewrite String.eqb_refl in Hk|].
    now apply IH.
Qed.

Section AccountIDFacts.
Context `{AddressCodec}.

(** On a JSON value, [AccountID.from] is the address codec on a string. *)
Lemma AccountID_from_JSON (v : JsValue) (a : Buffer) :
  v = VUndefined \/ isJSON v = true ->
  AccountID_from v = Ok a ->
  exists s, v = VStr s /\ decodeAccountID s = Ok a.
Proof.
  intros [-> | Hj]; [discriminate|].
  destruct v; simpl in *; try discriminate.
  intros Hd. eexists. split; [reflexivity | exact Hd].
Qed.

End AccountIDFacts.

(** ** Issue *)

Section IssueFacts.
Context `{AddressCodec} `{CurrencyCodec}.

Lemma isIssueObject_currency_issuer (c i : JsValue) :
  Issue.isIssueObject (VObj [("currency", c); ("issuer", i)]) = Ok true.
Proof. reflexivity. Qed.

(** No array passes the guard: its keys are decimal indices. *)
Lemma isIssueObject_VArr (elems : list JsValue) :
  Issue.isIssueObject (VArr elems) = Ok false.
Proof.
  unfold Issue.isIssueObject. simpl.
  match goal with |- Ok ?g = _ => destruct g eqn:Hg end; [|reflexivity].
  apply keys_are_two in Hg. exfalso.
  apply (decimal_not_word "currency" (List.length elems)).
  - intros c rest Hc. injection Hc as <- _. reflexivity.
  - discriminate.
  - apply (sort_by_In String.leb). unfold Array_sort in Hg. rewrite Hg. now left.
Qed.

(** What [Issue.from] accepts among the JSON values, and what it
    returns. *)
Lemma Issue_from_JSON_inv (value : JsValue) (b : Buffer) :
  isJSON value = true ->
  Issue.from value = Ok b ->
  (value = VStr "XRP" /\ Currency_from (VStr "XRP") = Ok b) \/
  (exists props s c i,
      value = VObj props /\
      Permutation (map fst props) ["currency"; "issuer"] /\
      Currency_from (lookup_prop "currency" props) = Ok c /\
      lookup_prop "issuer" props = VStr s /\
      decodeAccountID s = Ok i /\
      b = c ++ i).
Proof.
  intros Hj Hfrom. destruct value as [| | | |s|elems|props|]; try discriminate.
  - (* a string *)
    left. unfold Issue.from, Issue.assertXrpIsValid in Hfrom.
    destruct (String.eqb s "XRP") eqn:Heq; [|discriminate].
    apply String.eqb_eq in Heq. subst s. simpl in Hfrom.
    destruct (Currency_from (VStr "XRP")) as [c|]; [|discriminate].
    injection Hfrom as <-. now split.
  - (* an array *)
    unfold Issue.from in Hfrom. rewrite isIssueObject_VArr in Hfrom. discriminate.
  - (* an object *)
    right. unfold Issue.from in Hfrom.
    destruct (isIssueObject_VObj props) as [g Hg]. rewrite Hg in Hfrom.
    destruct g; [|discriminate]. simpl in Hfrom.
    apply bind_Ok in Hfrom as [c [Hc Hfrom]].
    apply bind_Ok in Hfrom as [i [Hi Hfrom]].
    injection Hfrom as <-.
    apply AccountID_from_JSON in Hi as [s [Hs Hd]];
      [|now apply isJSON_lookup_prop].
    exists props, s, c, i. unfold Issue.new, Buffer_concat. simpl.
    rewrite app_nil_r. repeat split; try assumption.
    now apply isIssueObject_true.
Qed.

(** [Issue.toJSON] on the currency alone. *)
Lemma Issue_toJSON_20 (c : Buffer) :
  List.length c = 20%nat ->
  Issue.toJSON c =
  if String.eqb (Currency_toJSON c) "XRP" then Ok (VStr (Currency_toJSON c))
  else Throw UnexpectedEnd.
Proof.
  intros Hc. unfold Issue.toJSON, Currency_fromParser.
  rewrite BinaryParser_new_toHex. simpl bind.
  rewrite (Parser_read_all 20 c Hc). simpl bind.
  destruct (String.eqb (Currency_toJSON c) "XRP"); reflexivity.
Qed.

(** [Issue.toJSON] on a currency followed by an issuer. *)
Lemma Issue_toJSON_40 (c i : Buffer) :
  List.length c = 20%nat ->
  List.length i = 20%nat ->
  Issue.toJSON (c ++ i) =
  if String.eqb (Currency_toJSON c) "XRP" then Ok (VStr (Currency_toJSON c))
  else s <- encodeAccountID i ;;
       Ok (VObj [("currency", VStr (Currency_toJSON c)); ("issuer", VStr s)]).
Proof.
  intros Hc Hi. unfold Issue.toJSON, Currency_fromParser, AccountID_fromParser.
  rewrite BinaryParser_new_toHex. simpl bind.
  rewrite (Parser_read_app 20 c i Hc). simpl bind.
  destruct (String.eqb (Currency_toJSON c) "XRP"); [reflexivity|].
  rewrite (Parser_read_all 20 i Hi). simpl bind.
  unfold AccountID_toJSON. destruct (encodeAccountID i); reflexivity.
Qed.

(** The sizes of what [Issue.from] returns on JSON values. *)
Lemma Issue_from_JSON_width (value : JsValue) (b : Buffer) :
  (forall v c, isJSON v = true -> Currency_from v = Ok c -> List.length c = 20%nat) ->
  (forall s a, decodeAccountID s = Ok a -> List.length a = 20%nat) ->
  isJSON value = true ->
  Issue.from value = Ok b ->
  (exists s, value = VStr s) /\ List.length b = 20%nat \/
  (exists props, value = VObj props) /\ List.length b = 40%nat.
Proof.
  intros Hcw Haw Hj Hfrom.
  destruct (Issue_from_JSON_inv value b Hj Hfrom)
    as [[-> Hc] | [props [s [c [i [-> [Hperm [Hc [Hs [Hd ->]]]]]]]]]].
  - left. split; [now exists "XRP" | exact (Hcw (VStr "XRP") _ eq_refl Hc)].
  - right. split; [now exists props|].
    assert (Hjc : isJSON (lookup_prop "currency" props) = true).
    { apply isJSON_lookup_present; [exact Hj|].
      apply (Permutation_in _ (Permutation_sym Hperm)). now left. }
    rewrite length_app, (Hcw _ _ Hjc Hc), (Haw _ _ Hd). reflexivity.
Qed.

(** C6, as amended.  Of the JSON values, [Issue.from] accepts the string
    ["XRP"], returning the 20 bytes of the currency, and the objects with
    the keys [currency] and [issuer], returning 40 bytes, currency then
    issuer, whatever the currency.  [Issue.toJSON] of the result is the
    string ["XRP"] exactly when its first 20 bytes are a currency shown as
    ["XRP"], which an object with currency ["XRP"] also reaches, and the
    object of [currency] and [issuer] otherwise. *)
Theorem Issue_from_sizes_and_JSON (value : JsValue) (b : Buffer) :
  (forall v c, isJSON v = true -> Currency_from v = Ok c -> List.length c = 20%nat) ->
  (forall s a, decodeAccountID s = Ok a -> List.length a = 20%nat) ->
  isJSON value = true ->
  Issue.from value = Ok b ->
  (value = VStr "XRP" /\
   Currency_from (VStr "XRP") = Ok b /\
   List.length b = 20%nat /\
   Issue.toJSON b =
     if String.eqb (Currency_toJSON b) "XRP" then Ok (VStr "XRP")
     else Throw UnexpectedEnd)
  \/
  (exists props c i,
      value = VObj props /\
      Permutation (map fst props) ["currency"; "issuer"] /\
      Currency_from (get_prop value "currency") = Ok c /\
      AccountID_from (get_prop value "issuer") = Ok i /\
      b = c ++ i /\
      List.length b = 40%nat /\
      Issue.toJSON b =
        if String.eqb (Currency_toJSON c) "XRP" then Ok (VStr "XRP")
        else s <- encodeAccountID i ;;
             Ok (VObj [("currency", VStr (Currency_toJSON c));
                       ("issuer", VStr s)])).
Proof.
  intros Hcw Haw Hj Hfrom.
  destruct (Issue_from_JSON_inv value b Hj Hfrom)
    as [[-> Hc] | [props [s [c [i [-> [Hperm [Hc [Hs [Hd ->]]]]]]]]]].
  - left. pose proof (Hcw (VStr "XRP") _ eq_refl Hc) as Hlen.
    repeat split; try assumption.
    rewrite (Issue_toJSON_20 b Hlen).
    destruct (String.eqb (Currency_toJSON b) "XRP") eqn:Heq; [|reflexivity].
    apply String.eqb_eq in Heq. now rewrite Heq.
  - right.
    assert (Hjc : isJSON (lookup_prop "currency" props) = true).
    { apply isJSON_lookup_present; [exact Hj|].
      apply (Permutation_in _ (Permutation_sym Hperm)). now left. }
    pose proof (Hcw _ _ Hjc Hc) as Hlc. pose proof (Haw _ _ Hd) as Hli.
    exists props, c, i. simpl get_prop. rewrite Hs. simpl AccountID_from.
    repeat split; try assumption.
    + rewrite length_app. lia.
    + rewrite (Issue_toJSON_40 c i Hlc Hli).
      destruct (String.eqb (Currency_toJSON c) "XRP") eqn:Heq; [|reflexivity].
      apply String.eqb_eq in Heq. now rewrite Heq.
Qed.

End IssueFacts.

(** ** XChainBridge *)

Lemma index_is_decimal (n i : nat) (w : string) :
  (forall c rest, w = String c rest -> isDecimalDigit c = false) ->
  w <> "" ->
  index_is (Array_sort (map decimal (seq 0 n))) i w = false.
Proof.
  intros Hw Hne. destruct (index_is _ i w) eqn:Hi; [|reflexivity].
  exfalso. apply index_is_true, nth_error_In in Hi.
  apply (decimal_not_word w n Hw Hne).
  now apply (sort_by_In String.leb).
Qed.

Section XChainBridgeFacts.
Context `{AddressCodec} `{IssuedCurrencyCodec}.

Lemma isXChainBridgeObject_true (props : list (string * JsValue)) :
  XChainBridge.isXChainBridgeObject (VObj props) = Ok true ->
  Permutation (map fst props) BRIDGE_KEYS.
Proof.
  unfold XChainBridge.isXChainBridgeObject. simpl. intros Hg. injection Hg as Hg.
  apply keys_are_four in Hg. unfold Array_sort in Hg.
  apply Permutation_trans with (sort_by String.leb (map fst props)).
  - apply Permutation_sym, sort_by_perm.
  - rewrite Hg. unfold BRIDGE_KEYS.
    apply Permutation_trans
      with ["LockingChainDoor"; "IssuingChainDoor"; "IssuingChainIssue";
            "LockingChainIssue"].
    + apply Permutation_sym. apply (Permutation_cons_app [_; _] [_] _).
      apply Permutation_refl.
    + apply perm_skip. apply Permutation_sym.
      apply (Permutation_cons_app [_; _] [] _). apply Permutation_refl.
Qed.

Lemma isXChainBridgeObject_indices (n : nat) :
  Nat.eqb (List.length (Array_sort (map decimal (seq 0 n)))) 4
  && index_is (Array_sort (map decimal (seq 0 n))) 0 "IssuingChainDoor"
  && index_is (Array_sort (map decimal (seq 0 n))) 1 "IssuingChainIssue"
  && index_is (Array_sort (map decimal (seq 0 n))) 2 "LockingChainDoor"
  && index_is (Array_sort (map decimal (seq 0 n))) 3 "LockingChainIssue" = false.
Proof.
  rewrite (index_is_decimal n 0 "IssuingChainDoor").
  - now rewrite andb_false_r.
  - intros c rest Hc. injection Hc as <- _. reflexivity.
  - discriminate.
Qed.

(** Among the JSON values only an object passes the guard. *)
Lemma isXChainBridgeObject_JSON (value : JsValue) :
  isJSON value = true ->
  XChainBridge.isXChainBridgeObject value = Ok true ->
  exists props, value = VObj props.
Proof.
  intros Hj Hg. destruct value as [| | | |s|elems|props|]; try discriminate.
  - unfold XChainBridge.isXChainBridgeObject in Hg. simpl in Hg.
    rewrite isXChainBridgeObject_indices in Hg. discriminate.
  - unfold XChainBridge.isXChainBridgeObject in Hg. simpl in Hg.
    rewrite isXChainBridgeObject_indices in Hg. discriminate.
  - now exists props.
Qed.

(** The four passes of the loop of [from]. *)
Lemma XChainBridge_from_loop (value : JsValue) :
  XChainBridge.forEach (XChainBridge.from_body value) XChainBridge.TYPE_ORDER [] =
  (d1 <- AccountID_from (get_prop value "LockingChainDoor") ;;
   i1 <- IssuedCurrency_from (get_prop value "LockingChainIssue") ;;
   d2 <- AccountID_from (get_prop value "IssuingChainDoor") ;;
   i2 <- IssuedCurrency_from (get_prop value "IssuingChainIssue") ;;
   Ok [[x14]; d1; i1; [x14]; d2; i2]).
Proof.
  unfold XChainBridge.TYPE_ORDER, XChainBridge.forEach, XChainBridge.from_body.
  cbn [XChainBridge.type XChainBridge.name XChainBridge.isAccountID cls
       AccountID XChainBridge.IssuedCurrency ClassName_eqb st_from].
  destruct (AccountID_from (get_prop value "LockingChainDoor")) as [d1|]; [|reflexivity].
  cbn [bind app].
  destruct (IssuedCurrency_from (get_prop value "LockingChainIssue")) as [i1|];
    [|reflexivity].
  cbn [bind app].
  destruct (AccountID_from (get_prop value "IssuingChainDoor")) as [d2|]; [|reflexivity].
  cbn [bind app].
  destruct (IssuedCurrency_from (get_prop value "IssuingChainIssue")) as [i2|];
    reflexivity.
Qed.

(** [XChainBridge.from] on an object that passes the guard. *)
Lemma XChainBridge_from_object (props : list (string * JsValue)) :
  XChainBridge.isXChainBridgeObject (VObj props) = Ok true ->
  XChainBridge.from (VObj props) =
  (d1 <- AccountID_from (lookup_prop "LockingChainDoor" props) ;;
   i1 <- IssuedCurrency_from (lookup_prop "LockingChainIssue" props) ;;
   d2 <- AccountID_from (lookup_prop "IssuingChainDoor" props) ;;
   i2 <- IssuedCurrency_from (lookup_prop "IssuingChainIssue" props) ;;
   Ok ([x14] ++ d1 ++ i1 ++ [x14] ++ d2 ++ i2)).
Proof.
  intros Hg. unfold XChainBridge.from. rewrite Hg. cbn [bind].
  rewrite XChainBridge_from_loop. cbn [get_prop].
  destruct (AccountID_from (lookup_prop "LockingChainDoor" props)) as [d1|];
    [|reflexivity]. cbn [bind].
  destruct (IssuedCurrency_from (lookup_prop "LockingChainIssue" props)) as [i1|];
    [|reflexivity]. cbn [bind].
  destruct (AccountID_from (lookup_prop "IssuingChainDoor" props)) as [d2|];
    [|reflexivity]. cbn [bind].
  destruct (IssuedCurrency_from (lookup_prop "IssuingChainIssue" props)) as [i2|];
    [|reflexivity]. cbn [bind].
  unfold XChainBridge.new, Buffer_concat. cbn [List.concat].
  now rewrite app_nil_r.
Qed.

(** [XChainBridge.fromParser] on a buffer laid out as a bridge, whatever
    the two bytes in front of the doors and whatever follows. *)
Lemma XChainBridge_fromParser_layout (m1 m2 : byte) (d1 i1 d2 i2 rest : Buffer) :
  List.length d1 = 20%nat ->
  List.length d2 = 20%nat ->
  (forall r, IssuedCurrency_fromParser (i1 ++ r) = Ok (i1, r)) ->
  (forall r, IssuedCurrency_fromParser (i2 ++ r) = Ok (i2, r)) ->
  XChainBridge.fromParser (m1 :: d1 ++ i1 ++ m2 :: d2 ++ i2 ++ rest) =
  Ok (x14 :: d1 ++ i1 ++ x14 :: d2 ++ i2, rest).
Proof.
  intros Hd1 Hd2 Hi1 Hi2.
  unfold XChainBridge.fromParser, XChainBridge.TYPE_ORDER, XChainBridge.forEach,
    XChainBridge.fromParser_body.
  cbn [XChainBridge.type XChainBridge.isAccountID cls AccountID
       XChainBridge.IssuedCurrency ClassName_eqb st_fromParser].
  rewrite Parser_skip_cons. cbn [bind].
  unfold AccountID_fromParser. rewrite (Parser_read_app 20 d1 _ Hd1). cbn [bind].
  rewrite Hi1. cbn [bind].
  rewrite Parser_skip_cons. cbn [bind].
  rewrite (Parser_read_app 20 d2 _ Hd2). cbn [bind].
  rewrite Hi2. cbn [bind].
  unfold XChainBridge.new, Buffer_concat. cbn [List.concat app].
  rewrite app_nil_r. reflexivity.
Qed.

(** [XChainBridge.toJSON] on such a buffer: the two bytes in front of
    the doors are not looked at. *)
Lemma XChainBridge_toJSON_layout (m1 m2 : byte) (d1 i1 d2 i2 : Buffer) :
  List.length d1 = 20%nat ->
  List.length d2 = 20%nat ->
  (forall r, IssuedCurrency_fromParser (i1 ++ r) = Ok (i1, r)) ->
  (forall r, IssuedCurrency_fromParser (i2 ++ r) = Ok (i2, r)) ->
  XChainBridge.toJSON (m1 :: d1 ++ i1 ++ m2 :: d2 ++ i2) =
  (s1 <- encodeAccountID d1 ;;
   j1 <- IssuedCurrency_toJSON i1 ;;
   s2 <- encodeAccountID d2 ;;
   j2 <- IssuedCurrency_toJSON i2 ;;
   Ok (VObj [("LockingChainDoor", VStr s1); ("LockingChainIssue", j1);
             ("IssuingChainDoor", VStr s2); ("IssuingChainIssue", j2)])).
Proof.
  intros Hd1 Hd2 Hi1 Hi2.
  unfold XChainBridge.toJSON. rewrite BinaryParser_new_toHex. cbn [bind].
  unfold XChainBridge.TYPE_ORDER, XChainBridge.forEach, XChainBridge.toJSON_body.
  cbn [XChainBridge.type XChainBridge.name XChainBridge.isAccountID cls AccountID
       XChainBridge.IssuedCurrency ClassName_eqb st_fromParser st_toJSON].
  rewrite Parser_skip_cons. cbn [bind].
  unfold AccountID_fromParser, AccountID_toJSON.
  rewrite (Parser_read_app 20 d1 _ Hd1). cbn [bind].
  destruct (encodeAccountID d1) as [s1|]; [|reflexivity]. cbn [bind].
  rewrite Hi1. cbn [bind].
  destruct (IssuedCurrency_toJSON i1) as [j1|]; [|reflexivity]. cbn [bind].
  rewrite Parser_skip_cons. cbn [bind].
  rewrite (Parser_read_app 20 d2 _ Hd2). cbn [bind].
  destruct (encodeAccountID d2) as [s2|]; [|reflexivity]. cbn [bind].
  rewrite <- (app_nil_r i2) at 1. rewrite Hi2. cbn [bind].
  destruct (IssuedCurrency_toJSON i2) as [j2|]; reflexivity.
Qed.

(** A pass of the loop of [toJSON] sets the property of its item. *)
Lemma XChainBridge_toJSON_body_Ok (json json' : list (string * JsValue))
  (p p' : Parser) (item : XChainBridge.TypeOrderItem) :
  XChainBridge.toJSON_body (json, p) item = Ok (json', p') ->
  exists v, json' = set_prop (XChainBridge.name item) v json.
Proof.
  unfold XChainBridge.toJSON_body. intros Hb.
  apply bind_Ok in Hb as [[u p1] [_ Hb]].
  apply bind_Ok in Hb as [[inst p2] [_ Hb]].
  apply bind_Ok in Hb as [v [_ Hb]].
  injection Hb as <- _. now exists v.
Qed.

(** Whatever [toJSON] returns has the four keys, in the order of
    [TYPE_ORDER]. *)
Lemma XChainBridge_toJSON_keys (this : Buffer) (j : JsValue) :
  XChainBridge.toJSON this = Ok j ->
  exists v1 v2 v3 v4,
    j = VObj [("LockingChainDoor", v1); ("LockingChainIssue", v2);
              ("IssuingChainDoor", v3); ("IssuingChainIssue", v4)].
Proof.
  unfold XChainBridge.toJSON. intros Hj.
  apply bind_Ok in Hj as [p [_ Hj]].
  apply bind_Ok in Hj as [[json p'] [Hloop Hj]]. injection Hj as <-.
  unfold XChainBridge.TYPE_ORDER, XChainBridge.forEach in Hloop.
  apply bind_Ok in Hloop as [[json1 p1] [H1 Hloop]].
  apply bind_Ok in Hloop as [[json2 p2] [H2 Hloop]].
  apply bind_Ok in Hloop as [[json3 p3] [H3 Hloop]].
  apply bind_Ok in Hloop as [[json4 p4] [H4 Hloop]].
  injection Hloop as <- _.
  apply XChainBridge_toJSON_body_Ok in H1 as [v1 ->], H2 as [v2 ->],
    H3 as [v3 ->], H4 as [v4 ->].
  exists v1, v2, v3, v4. reflexivity.
Qed.

End XChainBridgeFacts.

Section XChainBridgeTheorems.
Context `{AddressCodec} `{IssuedCurrencyCodec}.

Lemma XChainBridge_from_JSON_guard (value : JsValue) (b : Buffer) :
  isJSON value = true ->
  XChainBridge.from value = Ok b ->
  exists props,
    value = VObj props /\ XChainBridge.isXChainBridgeObject (VObj props) = Ok true.
Proof.
  intros Hj Hfrom.
  assert (Hg : XChainBridge.isXChainBridgeObject value = Ok true).
  { destruct value; try discriminate;
      unfold XChainBridge.from in Hfrom;
      apply bind_Ok in Hfrom as [g [Hg Hfrom]];
      destruct g; try discriminate; exact Hg. }
  destruct (isXChainBridgeObject_JSON value Hj Hg) as [props ->].
  now exists props.
Qed.

(** C5.  A bridge built by [XChainBridge.from] from a JSON value is, in
    order: the byte 0x14, the 20 bytes of LockingChainDoor, the bytes of
    LockingChainIssue (20 if it denotes XRP, else 40), the byte 0x14, the
    20 bytes of IssuingChainDoor, and the bytes of IssuingChainIssue (20
    or 40 likewise).  The sizes of the issues are those of the issue
    class, whose JSON values that denote XRP are [denotesXRP].  The JSON
    value is an object with exactly the four keys, and what [toJSON]
    returns has exactly those four keys. *)
Theorem XChainBridge_layout_and_keys
  (denotesXRP : JsValue -> bool) (value : JsValue) (b : Buffer) :
  (forall s a, decodeAccountID s = Ok a -> List.length a = 20%nat) ->
  (forall v i, isJSON v = true -> IssuedCurrency_from v = Ok i ->
               List.length i = if denotesXRP v then 20%nat else 40%nat) ->
  isJSON value = true ->
  XChainBridge.from value = Ok b ->
  (exists props d1 i1 d2 i2,
      value = VObj props /\
      Permutation (map fst props) BRIDGE_KEYS /\
      AccountID_from (get_prop value "LockingChainDoor") = Ok d1 /\
      IssuedCurrency_from (get_prop value "LockingChainIssue") = Ok i1 /\
      AccountID_from (get_prop value "IssuingChainDoor") = Ok d2 /\
      IssuedCurrency_from (get_prop value "IssuingChainIssue") = Ok i2 /\
      b = [x14] ++ d1 ++ i1 ++ [x14] ++ d2 ++ i2 /\
      List.length d1 = 20%nat /\
      List.length i1 =
        (if denotesXRP (get_prop value "LockingChainIssue") then 20%nat else 40%nat) /\
      List.length d2 = 20%nat /\
      List.length i2 =
        (if denotesXRP (get_prop value "IssuingChainIssue") then 20%nat else 40%nat)) /\
  (forall j, XChainBridge.toJSON b = Ok j ->
             exists v1 v2 v3 v4,
               j = VObj [("LockingChainDoor", v1); ("LockingChainIssue", v2);
                         ("IssuingChainDoor", v3); ("IssuingChainIssue", v4)]).
Proof.
  intros Haw Hiw Hj Hfrom. split; [|intros j; apply XChainBridge_toJSON_keys].
  destruct (XChainBridge_from_JSON_guard value b Hj Hfrom) as [props [-> Hg]].
  rewrite (XChainBridge_from_object props Hg) in Hfrom.
  apply bind_Ok in Hfrom as [d1 [Hd1 Hfrom]].
  apply bind_Ok in Hfrom as [i1 [Hi1 Hfrom]].
  apply bind_Ok in Hfrom as [d2 [Hd2 Hfrom]].
  apply bind_Ok in Hfrom as [i2 [Hi2 Hfrom]].
  injection Hfrom as <-.
  exists props, d1, i1, d2, i2. cbn [get_prop].
  destruct (AccountID_from_JSON _ d1 (isJSON_lookup_prop _ props Hj) Hd1)
    as [s1 [_ Hs1]].
  destruct (AccountID_from_JSON _ d2 (isJSON_lookup_prop _ props Hj) Hd2)
    as [s2 [_ Hs2]].
  pose proof (isXChainBridgeObject_true props Hg) as Hperm.
  assert (Hin : forall k, In k BRIDGE_KEYS -> isJSON (lookup_prop k props) = true).
  { intros k Hk. apply isJSON_lookup_present; [exact Hj|].
    exact (Permutation_in _ (Permutation_sym Hperm) Hk). }
  repeat split; try assumption.
  - exact (Haw _ _ Hs1).
  - apply (Hiw _ _ (Hin _ (or_intror (or_introl eq_refl))) Hi1).
  - exact (Haw _ _ Hs2).
  - apply (Hiw _ _ (Hin _ (or_intror (or_intror (or_intror (or_introl eq_refl))))) Hi2).
Qed.

(** C9.  [XChainBridge.fromParser] and [XChainBridge.toJSON] step over
    the byte in front of each AccountID without looking at it.  On a
    buffer laid out as a bridge but with any two bytes [m1], [m2] in
    those places, parsing returns, the bytes of the parsed bridge have
    0x14 there, [toJSON] is what it is with 0x14 there, and the parsed
    bytes are the input only when both bytes were 0x14. *)
Theorem XChainBridge_markers_not_checked
  (m1 m2 : byte) (d1 i1 d2 i2 rest : Buffer) :
  List.length d1 = 20%nat ->
  List.length d2 = 20%nat ->
  (forall r, IssuedCurrency_fromParser (i1 ++ r) = Ok (i1, r)) ->
  (forall r, IssuedCurrency_fromParser (i2 ++ r) = Ok (i2, r)) ->
  XChainBridge.fromParser (m1 :: d1 ++ i1 ++ m2 :: d2 ++ i2 ++ rest) =
    Ok (x14 :: d1 ++ i1 ++ x14 :: d2 ++ i2, rest) /\
  XChainBridge.toJSON (m1 :: d1 ++ i1 ++ m2 :: d2 ++ i2) =
    XChainBridge.toJSON (x14 :: d1 ++ i1 ++ x14 :: d2 ++ i2) /\
  (x14 :: d1 ++ i1 ++ x14 :: d2 ++ i2 = m1 :: d1 ++ i1 ++ m2 :: d2 ++ i2
   <-> m1 = x14 /\ m2 = x14).
Proof.
  intros Hd1 Hd2 Hi1 Hi2. split; [|split].
  - now apply XChainBridge_fromParser_layout.
  - rewrite !XChainBridge_toJSON_layout by assumption. reflexivity.
  - split.
    + intros Heq. injection Heq as Hm1 Heq.
      apply app_inv_head in Heq. apply app_inv_head in Heq.
      injection Heq as Hm2. now split.
    + intros [-> ->]. reflexivity.
Qed.

End XChainBridgeTheorems.

(** ** Round trips *)

Section RoundTrip.
Context `{AddressCodec} `{CurrencyCodec}.

Lemma Issue_fromParser_canonical (i rest : Buffer) :
  canonical_Issue i -> Issue.fromParser (i ++ rest) = Ok (i, rest).
Proof.
  intros [[Hlen [Hxrp _]] | [c [a [-> [[Hc [Hnx _]] [Ha _]]]]]];
    unfold Issue.fromParser.
  - rewrite (Parser_read_app 20 i rest Hlen). cbn [bind].
    rewrite Hxrp. reflexivity.
  - rewrite <- app_assoc. rewrite (Parser_read_app 20 c _ Hc). cbn [bind].
    apply String.eqb_neq in Hnx. rewrite Hnx.
    rewrite (Parser_read_app 20 a rest Ha). cbn [bind].
    unfold Issue.new, Buffer_concat. cbn [List.concat]. now rewrite app_nil_r.
Qed.

Lemma Issue_toJSON_from_canonical (i : Buffer) :
  canonical_Issue i ->
  exists j, Issue.toJSON i = Ok j /\ Issue.from j = Ok i.
Proof.
  intros [[Hlen [Hxrp Hfrom]] | [c [a [-> [[Hc [Hnx Hfrom]] [Ha [s [He Hd]]]]]]]].
  - exists (VStr "XRP"). split.
    + rewrite (Issue_toJSON_20 i Hlen), Hxrp. reflexivity.
    + unfold Issue.from, Issue.assertXrpIsValid. cbn [String.eqb negb bind].
      simpl. rewrite Hfrom. reflexivity.
  - exists (VObj [("currency", VStr (Currency_toJSON c)); ("issuer", VStr s)]).
    split.
    + rewrite (Issue_toJSON_40 c a Hc Ha).
      apply String.eqb_neq in Hnx. rewrite Hnx, He. reflexivity.
    + unfold Issue.from. rewrite isIssueObject_currency_issuer. cbn [bind].
      change (get_prop (VObj [("currency", VStr (Currency_toJSON c));
                              ("issuer", VStr s)]) "currency")
        with (VStr (Currency_toJSON c)).
      change (get_prop (VObj [("currency", VStr (Currency_toJSON c));
                              ("issuer", VStr s)]) "issuer")
        with (VStr s).
      rewrite Hfrom. cbn [bind AccountID_from]. rewrite Hd. cbn [bind].
      unfold Issue.new, Buffer_concat. cbn [List.concat]. now rewrite app_nil_r.
Qed.

(** A canonical Issue is canonical for the class [Issue]. *)
Lemma canonical_Issue_for (i : Buffer) :
  canonical_Issue i -> canonical_for Issue.Issue i.
Proof.
  intros Hi. split.
  - intros rest. now apply Issue_fromParser_canonical.
  - now apply Issue_toJSON_from_canonical.
Qed.

Lemma Issue_roundtrip (b : Buffer) :
  canonical_Issue b ->
  ('(issue, _) <- Issue.fromParser b ;;
   json <- Issue.toJSON issue ;;
   Issue.from json) = Ok b.
Proof.
  intros Hb. rewrite <- (app_nil_r b) at 1.
  rewrite (Issue_fromParser_canonical b [] Hb). cbn [bind].
  destruct (Issue_toJSON_from_canonical b Hb) as [j [Hj Hfrom]].
  rewrite Hj. cbn [bind]. exact Hfrom.
Qed.

Context `{IssuedCurrencyCodec}.

Lemma isXChainBridgeObject_four (v1 v2 v3 v4 : JsValue) :
  XChainBridge.isXChainBridgeObject
    (VObj [("LockingChainDoor", v1); ("LockingChainIssue", v2);
           ("IssuingChainDoor", v3); ("IssuingChainIssue", v4)]) = Ok true.
Proof. reflexivity. Qed.

Lemma XChainBridge_roundtrip (b : Buffer) :
  canonical_XChainBridge b ->
  ('(bridge, _) <- XChainBridge.fromParser b ;;
   json <- XChainBridge.toJSON bridge ;;
   XChainBridge.from json) = Ok b.
Proof.
  intros [d1 [i1 [d2 [i2 [-> [Hd1 [Hi1 [Hd2 Hi2]]]]]]]].
  destruct Hd1 as [Hl1 [s1 [He1 Hde1]]]. destruct Hd2 as [Hl2 [s2 [He2 Hde2]]].
  destruct Hi1 as [Hp1 [j1 [Hj1 Hf1]]]. destruct Hi2 as [Hp2 [j2 [Hj2 Hf2]]].
  cbn [XChainBridge.IssuedCurrency st_fromParser st_toJSON st_from] in *.
  cbn [app].
  rewrite <- (app_nil_r i2) at 1.
  rewrite (XChainBridge_fromParser_layout x14 x14 d1 i1 d2 i2 [] Hl1 Hl2 Hp1 Hp2).
  cbn [bind].
  rewrite (XChainBridge_toJSON_layout x14 x14 d1 i1 d2 i2 Hl1 Hl2 Hp1 Hp2).
  rewrite He1, Hj1, He2, Hj2. cbn [bind].
  rewrite (XChainBridge_from_object _ (isXChainBridgeObject_four _ _ _ _)).
  cbn [lookup_prop String.eqb Ascii.eqb Bool.eqb].
  cbn [AccountID_from]. rewrite Hde1, Hf1, Hde2, Hf2. reflexivity.
Qed.

(** C4.  Decoding the canonical bytes of an Issue, or of an
    XChainBridge, to JSON and encoding that JSON again gives the same
    bytes. *)
Theorem bytes_JSON_bytes_roundtrip (bi bx : Buffer) :
  canonical_Issue bi ->
  canonical_XChainBridge bx ->
  ('(issue, _) <- Issue.fromParser bi ;;
   json <- Issue.toJSON issue ;;
   Issue.from json) = Ok bi /\
  ('(bridge, _) <- XChainBridge.fromParser bx ;;
   json <- XChainBridge.toJSON bridge ;;
   XChainBridge.from json) = Ok bx.
Proof.
  intros Hi Hx. split.
  - now apply Issue_roundtrip.
  - now apply XChainBridge_roundtrip.
Qed.

End RoundTrip.

(** ** Big-endian integers *)

Lemma Z_of_byte_of_Z (z : Z) : Z_of_byte (byte_of_Z z) = (z mod 256)%Z.
Proof.
  unfold Z_of_byte, byte_of_Z.
  assert (Hr : (0 <= z mod 256 < 256)%Z) by (apply Z.mod_pos_bound; lia).
  destruct (Byte.of_N (Z.to_N (z mod 256))) as [b|] eqn:Hb.
  - apply Byte.to_of_N in Hb. rewrite Hb. apply Z2N.id. lia.
  - apply Byte.of_N_None_iff in Hb. lia.
Qed.

Lemma be_bytes_length (w : nat) (n : Z) : List.length (be_bytes w n) = w.
Proof. induction w as [|w IH]; simpl; [reflexivity | now rewrite IH]. Qed.

Lemma be_value_be_bytes_acc (w : nat) (n acc : Z) :
  fold_left (fun a b => (a * 256 + Z_of_byte b)%Z) (be_bytes w n) acc =
  (acc * 256 ^ Z.of_nat w + n mod 256 ^ Z.of_nat w)%Z.
Proof.
  revert acc. induction w as [|w IH]; intros acc.
  - cbn [be_bytes fold_left]. change (256 ^ Z.of_nat 0)%Z with 1%Z.
    rewrite Z.mod_1_r. lia.
  - cbn [be_bytes fold_left]. rewrite IH, Z_of_byte_of_Z.
    rewrite Nat2Z.inj_succ, Z.pow_succ_r by lia.
    assert (Hp : (0 < 256 ^ Z.of_nat w)%Z) by (apply Z.pow_pos_nonneg; lia).
    rewrite (Z.mul_comm 256 (256 ^ Z.of_nat w)).
    rewrite (Z.rem_mul_r n (256 ^ Z.of_nat w) 256) by lia.
    lia.
Qed.

(** The bytes of [be_bytes] denote the number they were cut from. *)
Lemma be_value_be_bytes (w : nat) (n : Z) :
  (0 <= n < 256 ^ Z.of_nat w)%Z -> be_value (be_bytes w n) = n.
Proof.
  intros Hn. unfold be_value. rewrite be_value_be_bytes_acc.
  rewrite Z.mod_small by exact Hn. lia.
Qed.

Lemma UInt64_from_Ok (num : Z) (amount : Buffer) :
  UInt64_from num = Ok amount ->
  amount = be_bytes 8 num /\ List.length amount = 8%nat /\ be_value amount = num.
Proof.
  unfold UInt64_from.
  destruct ((0 <=? num)%Z && (num <? 2 ^ 64)%Z) eqn:Hr; [|discriminate].
  intros Ha.
  assert (Heq : amount = be_bytes 8 num) by congruence. subst amount.
  apply andb_prop in Hr as [Hlo Hhi].
  apply Z.leb_le in Hlo. apply Z.ltb_lt in Hhi.
  split; [reflexivity|]. split; [apply be_bytes_length|].
  apply be_value_be_bytes. change (256 ^ Z.of_nat 8)%Z with (2 ^ 64)%Z. lia.
Qed.

Lemma Hash256_from_string (hex : string) (channel : Buffer) :
  Hash256_from (VStr hex) = Ok channel ->
  fromHex hex = Some channel /\ List.length channel = 32%nat.
Proof.
  unfold Hash256_from. destruct (fromHex hex) as [bytes|]; [|discriminate].
  destruct (Nat.eqb (List.length bytes) 32) eqn:Hl; [|discriminate].
  intros Hc. injection Hc as <-. apply Nat.eqb_eq in Hl. now split.
Qed.

(** ** The heap *)

Lemma nth_error_fresh (h : Heap) (o : HeapObject) :
  nth_error (h ++ [o]) (List.length h) = Some o.
Proof. rewrite nth_error_app2, Nat.sub_diag by lia. reflexivity. Qed.

Lemma store_fresh (h : Heap) (o o' : HeapObject) :
  store (List.length h) o' (h ++ [o]) = h ++ [o'].
Proof. induction h as [|x rest IH]; simpl; [reflexivity | now rewrite IH]. Qed.

Lemma BytesList_put_fresh (h : Heap) (chunks : list Buffer) (bytes : Buffer) :
  BytesList_put (List.length h) bytes (h ++ [OBytesList chunks]) =
  (Ok tt, h ++ [OBytesList (chunks ++ [bytes])]).
Proof. unfold BytesList_put. now rewrite nth_error_fresh, store_fresh. Qed.

Lemma BytesList_toBytes_fresh (h : Heap) (chunks : list Buffer) :
  BytesList_toBytes (List.length h) (h ++ [OBytesList chunks]) =
  (Ok (Buffer_concat chunks), h ++ [OBytesList chunks]).
Proof. unfold BytesList_toBytes. now rewrite nth_error_fresh. Qed.

Lemma firstn_heap_app (h garbage : Heap) :
  firstn (List.length h) (h ++ garbage) = h.
Proof. rewrite firstn_app, firstn_all, Nat.sub_diag, firstn_O. apply app_nil_r. Qed.

Lemma local_call_stateless {A : Type} (c : M A) : local_call c -> stateless c.
Proof.
  intros [r [fresh Hc]] h1 h2. rewrite (Hc h1), (Hc h2). simpl.
  split; [reflexivity | apply firstn_heap_app].
Qed.

(** ** The facade *)

Section BinaryFacts.
Context `{AddressCodec} `{Definitions} `{BigInteger}.

(** [serializeObject] run on any heap. *)
Lemma serializeObject_run (object : JsValue) (opts : Binary.OptionObject) (h : Heap) :
  Binary.serializeObject object opts h =
  match STObject_from object (filterOf opts) with
  | Ok obj =>
      (Ok (optional_bytes (Binary.prefix opts) ++ obj
           ++ optional_bytes (Binary.suffix opts)),
       h ++ [OBytesList (optional_chunk (Binary.prefix opts) ++ [obj]
                         ++ optional_chunk (Binary.suffix opts))])
  | Throw e => (Throw e, h ++ [OBytesList (optional_chunk (Binary.prefix opts))])
  end.
Proof.
  unfold Binary.serializeObject, filterOf, signingFilter, bindM at 1,
    BytesList_new, alloc, toBytesSink.
  destruct opts as [[prefix|] [suffix|] [[|]|]]; cbn [Binary.prefix Binary.suffix
    Binary.signingFieldsOnly optional_bytes optional_chunk];
    unfold bindM, ret, lift;
    rewrite ?BytesList_put_fresh;
    match goal with
    | |- context [STObject_from object ?f] => destruct (STObject_from object f) as [obj|e]
    end;
    try reflexivity;
    rewrite ?BytesList_put_fresh, ?BytesList_toBytes_fresh;
    unfold Buffer_concat; cbn [List.concat app]; rewrite ?app_nil_r; reflexivity.
Qed.

Lemma signingData_run (transaction : JsValue) (prefix : option Buffer) (h : Heap) :
  Binary.signingData transaction prefix h =
  let prefix := match prefix with
                | Some p => p
                | None => HashPrefix.transactionSig
                end in
  match STObject_from transaction signingFilter with
  | Ok obj => (Ok (prefix ++ obj), h ++ [OBytesList [prefix; obj]])
  | Throw e => (Throw e, h ++ [OBytesList [prefix]])
  end.
Proof.
  unfold Binary.signingData. rewrite serializeObject_run.
  cbn [filterOf Binary.signingFieldsOnly Binary.prefix Binary.suffix
       optional_bytes optional_chunk].
  destruct (STObject_from transaction signingFilter); cbn [app];
    rewrite ?app_nil_r; reflexivity.
Qed.

Lemma multiSigningData_run (transaction signingAccount : JsValue) (h : Heap) :
  Binary.multiSigningData transaction signingAccount h =
  match AccountID_from signingAccount with
  | Ok suffix =>
      match STObject_from transaction signingFilter with
      | Ok obj =>
          (Ok (HashPrefix.transactionMultiSig ++ obj ++ suffix),
           h ++ [OBytesList [HashPrefix.transactionMultiSig; obj; suffix]])
      | Throw e => (Throw e, h ++ [OBytesList [HashPrefix.transactionMultiSig]])
      end
  | Throw e => (Throw e, h)
  end.
Proof.
  unfold Binary.multiSigningData, bindM, lift.
  destruct (AccountID_from signingAccount) as [suffix|e]; [|reflexivity].
  rewrite serializeObject_run.
  cbn [filterOf Binary.signingFieldsOnly Binary.prefix Binary.suffix
       optional_bytes optional_chunk].
  destruct (STObject_from transaction signingFilter); reflexivity.
Qed.

Lemma signingClaimData_run (claim : JsValue) (h : Heap) :
  Binary.signingClaimData claim h =
  match Hash256_from (get_prop claim "channel") with
  | Ok channel =>
      match claimAmount (get_prop claim "amount") with
      | Ok amount =>
          (Ok (HashPrefix.paymentChannelClaim ++ channel ++ amount),
           h ++ [OBytesList [HashPrefix.paymentChannelClaim; channel; amount]])
      | Throw e =>
          (Throw e, h ++ [OBytesList [HashPrefix.paymentChannelClaim; channel]])
      end
  | Throw e => (Throw e, h)
  end.
Proof.
  unfold Binary.signingClaimData, claimAmount, bindM at 1, lift at 1.
  destruct (Hash256_from (get_prop claim "channel")) as [channel|e]; [|reflexivity].
  unfold bindM at 1, BytesList_new, alloc.
  unfold bindM at 1. rewrite BytesList_put_fresh.
  unfold bindM at 1. rewrite BytesList_put_fresh. cbn [app].
  destruct (String.eqb (typeof (get_prop claim "amount")) "object").
  - unfold bindM, lift.
    destruct (st_from Amount (get_prop claim "amount")) as [amount|e]; [|reflexivity].
    rewrite BytesList_put_fresh, BytesList_toBytes_fresh.
    unfold Buffer_concat. cbn [List.concat app]. now rewrite app_nil_r.
  - unfold bindM, lift.
    destruct (bigInt (String_ (get_prop claim "amount"))) as [num|e]; [|reflexivity].
    cbn [bind].
    destruct (UInt64_from num) as [amount|e]; [|reflexivity].
    rewrite BytesList_put_fresh, BytesList_toBytes_fresh.
    unfold Buffer_concat. cbn [List.concat app]. now rewrite app_nil_r.
Qed.

Lemma binaryToJSON_run (bytes : string) (h : Heap) :
  Binary.binaryToJSON bytes h =
  match BinaryParser_new bytes with
  | Ok p =>
      match st_fromParser STObject p with
      | Ok (obj, p') => (st_toJSON STObject obj, h ++ [OParser p'])
      | Throw e => (Throw e, h ++ [OParser p])
      end
  | Throw e => (Throw e, h)
  end.
Proof.
  unfold Binary.binaryToJSON, Binary.makeParser, Binary.readJSON, bindM, lift, alloc.
  destruct (BinaryParser_new bytes) as [p|e]; [|reflexivity].
  unfold Parser_readType. rewrite nth_error_fresh.
  destruct (st_fromParser STObject p) as [[obj p']|e]; [|reflexivity].
  rewrite store_fresh. destruct (st_toJSON STObject obj); reflexivity.
Qed.

End BinaryFacts.

Section STObjectFacts.
Context `{Definitions}.

Lemma lookupFields_In (props : list (string * JsValue))
  (fields : list (FieldInstance * JsValue)) (f : FieldInstance) (v : JsValue) :
  lookupFields props = Ok fields ->
  (In (f, v) fields <-> exists key, In (key, v) props /\ Field key = Some f).
Proof.
  revert fields. induction props as [|[key w] rest IH]; intros fields Hl.
  - injection Hl as <-. split; [intros [] | intros [key [[] _]]].
  - cbn [lookupFields] in Hl. destruct (Field key) as [g|] eqn:Hg; [|discriminate].
    apply bind_Ok in Hl as [fs [Hfs Hl]]. injection Hl as <-.
    specialize (IH fs Hfs). split.
    + intros [Heq | Hin].
      * injection Heq as -> ->. exists key. split; [now left | exact Hg].
      * apply IH in Hin as [k [Hk Hf]]. exists k. split; [now right | exact Hf].
    + intros [k [[Heq | Hin] Hf]].
      * injection Heq as -> ->. left. congruence.
      * right. apply IH. now exists k.
Qed.

(** The fields an object emits under a filter. *)
Lemma STObject_fields_In (props : list (string * JsValue))
  (filter : option (FieldInstance -> bool))
  (fields emitted : list (FieldInstance * JsValue)) (f : FieldInstance) (v : JsValue) :
  lookupFields props = Ok fields ->
  STObject_fields props filter = Ok emitted ->
  (In (f, v) emitted <-> In (f, v) fields /\ emits filter f = true).
Proof.
  intros Hl. unfold STObject_fields. rewrite Hl. cbn [bind].
  intros He. injection He as <-.
  rewrite (sort_by_In field_leb), filter_In. reflexivity.
Qed.

End STObjectFacts.

Section BinaryTheorems.
Context `{AddressCodec} `{Definitions} `{BigInteger}.

(** C1.  On the signing paths, [signingData] and [multiSigningData], a
    field of the transaction is emitted if and only if its definition has
    both [isSigningField] and [isSerialized]: the emitted fields are
    exactly those, and the bytes returned are the prefix, the encodings
    of the emitted fields in canonical order, and the suffix. *)
Theorem signing_paths_emit_signing_serialized_fields
  (props : list (string * JsValue)) (fields : list (FieldInstance * JsValue))
  (prefix : option Buffer) (account : JsValue) (acct : Buffer) (h : Heap) :
  lookupFields props = Ok fields ->
  AccountID_from account = Ok acct ->
  exists emitted,
    STObject_fields props signingFilter = Ok emitted /\
    (forall f v,
        In (f, v) emitted <->
        (exists key, In (key, v) props /\ Field key = Some f) /\
        isSigningField f = true /\ isSerialized f = true) /\
    fst (Binary.signingData (VObj props) prefix h) =
      (chunks <- encodeFields emitted ;;
       Ok (match prefix with
           | Some p => p
           | None => HashPrefix.transactionSig
           end ++ Buffer_concat chunks)) /\
    fst (Binary.multiSigningData (VObj props) account h) =
      (chunks <- encodeFields emitted ;;
       Ok (HashPrefix.transactionMultiSig ++ Buffer_concat chunks ++ acct)).
Proof.
  intros Hl Hacct.
  destruct (STObject_fields props signingFilter) as [emitted|e] eqn:He.
  2:{ unfold STObject_fields in He. rewrite Hl in He. discriminate. }
  exists emitted. split; [reflexivity|]. split; [|split].
  - intros f v. rewrite (STObject_fields_In props signingFilter fields emitted f v Hl He).
    rewrite (lookupFields_In props fields f v Hl).
    unfold emits, signingFilter. rewrite andb_true_iff. tauto.
  - rewrite signingData_run. cbn zeta. cbn [STObject_from]. rewrite He. cbn [bind].
    destruct (encodeFields emitted); reflexivity.
  - rewrite multiSigningData_run, Hacct. cbn [STObject_from]. rewrite He. cbn [bind].
    destruct (encodeFields emitted); reflexivity.
Qed.

(** C2.  [multiSigningData(tx, a)] is the four bytes 53 4D 54 00, then
    the signing-fields-only serialization of [tx], then the bytes of the
    AccountID of [a], 20 of them, with nothing in between. *)
Theorem multiSigningData_layout
  (transaction : JsValue) (address : string) (acct : Buffer) (h : Heap) :
  (forall s a, decodeAccountID s = Ok a -> List.length a = 20%nat) ->
  decodeAccountID address = Ok acct ->
  fst (Binary.multiSigningData transaction (VStr address) h) =
    (body <- STObject_from transaction signingFilter ;;
     Ok ([x53; x4d; x54; x00] ++ body ++ acct)) /\
  List.length acct = 20%nat.
Proof.
  intros Haw Hd. split; [|exact (Haw _ _ Hd)].
  rewrite multiSigningData_run. cbn [AccountID_from]. rewrite Hd.
  destruct (STObject_from transaction signingFilter); reflexivity.
Qed.

(** C3.  [signingClaimData] of a claim whose channel is hexadecimal text
    is the four bytes 43 4C 4D 00, then the 32 bytes of the channel, then
    the amount: for a string, the 8 bytes that denote big-endian the
    integer [bigInt] reads in it; for an object, the 48 bytes of the
    [Amount] codec. *)
Theorem signingClaimData_layout
  (claim : JsValue) (hex : string) (channel : Buffer) (h : Heap) :
  (forall props b, isJSON (VObj props) = true ->
                   st_from Amount (VObj props) = Ok b -> List.length b = 48%nat) ->
  isJSON claim = true ->
  get_prop claim "channel" = VStr hex ->
  Hash256_from (VStr hex) = Ok channel ->
  List.length channel = 32%nat /\
  (forall s, get_prop claim "amount" = VStr s ->
     fst (Binary.signingClaimData claim h) =
       (num <- bigInt s ;;
        amount <- UInt64_from num ;;
        Ok ([x43; x4c; x4d; x00] ++ channel ++ amount)) /\
     (forall num amount, bigInt s = Ok num -> UInt64_from num = Ok amount ->
        List.length amount = 8%nat /\ be_value amount = num)) /\
  (forall props, get_prop claim "amount" = VObj props ->
     fst (Binary.signingClaimData claim h) =
       (amount <- st_from Amount (VObj props) ;;
        Ok ([x43; x4c; x4d; x00] ++ channel ++ amount)) /\
     (forall amount, st_from Amount (VObj props) = Ok amount ->
        List.length amount = 48%nat)).
Proof.
  intros Hamt Hj Hch Hc.
  split; [exact (proj2 (Hash256_from_string hex channel Hc))|]. split.
  - intros s Hs. split.
    + rewrite signingClaimData_run, Hch, Hc, Hs. unfold claimAmount.
      cbn [typeof String_]. change (String.eqb "string" "object") with false.
      cbv iota.
      destruct (bigInt s) as [num|e]; [|reflexivity]. cbn [bind].
      destruct (UInt64_from num); reflexivity.
    + intros num amount _ Hu. apply UInt64_from_Ok in Hu. tauto.
  - intros props Hp. split.
    + rewrite signingClaimData_run, Hch, Hc, Hp. unfold claimAmount.
      cbn [typeof]. change (String.eqb "object" "object") with true. cbv iota.
      destruct (st_from Amount (VObj props)); reflexivity.
    + intros amount Ha. apply (Hamt props amount); [|exact Ha].
      destruct claim as [| | | | | |cprops|]; try discriminate.
      cbn [get_prop] in Hp.
      destruct (isJSON_lookup_prop "amount" cprops Hj) as [Hu | Hja];
        rewrite Hp in *; [discriminate | exact Hja].
Qed.

(** C8.  Each operation of the facade is deterministic and stateless: on
    any two heaps it gives the same result, so the result is a function
    of the arguments alone, and it leaves every object of the heap it
    starts in as it was, so no later call can see that it ran. *)
Theorem facade_is_stateless
  (object transaction claim account : JsValue) (opts : Binary.OptionObject)
  (prefix : option Buffer) (bytes : string) :
  stateless (Binary.serializeObject object opts) /\
  stateless (Binary.signingData transaction prefix) /\
  stateless (Binary.multiSigningData transaction account) /\
  stateless (Binary.signingClaimData claim) /\
  stateless (Binary.binaryToJSON bytes).
Proof.
  split; [|split; [|split; [|split]]]; apply local_call_stateless; unfold local_call.
  - destruct (STObject_from object (filterOf opts)) as [obj|e] eqn:Hs;
      eexists; eexists; intros h; rewrite serializeObject_run, Hs; reflexivity.
  - destruct (STObject_from transaction signingFilter) as [obj|e] eqn:Hs;
      eexists; eexists; intros h; rewrite signingData_run; cbn zeta; rewrite Hs;
      reflexivity.
  - destruct (AccountID_from account) as [suffix|e] eqn:Ha.
    + destruct (STObject_from transaction signingFilter) as [obj|e] eqn:Hs;
        eexists; eexists; intros h; rewrite multiSigningData_run, Ha, Hs;
        reflexivity.
    + exists (Throw e), []. intros h.
      rewrite multiSigningData_run, Ha, app_nil_r. reflexivity.
  - destruct (Hash256_from (get_prop claim "channel")) as [channel|e] eqn:Hc.
    + destruct (claimAmount (get_prop claim "amount")) as [amount|e] eqn:Ha;
        eexists; eexists; intros h; rewrite signingClaimData_run, Hc, Ha;
        reflexivity.
    + exists (Throw e), []. intros h.
      rewrite signingClaimData_run, Hc, app_nil_r. reflexivity.
  - destruct (BinaryParser_new bytes) as [p|e] eqn:Hp.
    + destruct (st_fromParser STObject p) as [[obj p']|e] eqn:Hf;
        eexists; eexists; intros h; rewrite binaryToJSON_run, Hp, Hf; reflexivity.
    + exists (Throw e), []. intros h.
      rewrite binaryToJSON_run, Hp, app_nil_r. reflexivity.
Qed.

End BinaryTheorems.

(** * Further properties *)

(** ** Sorting is a function of the elements *)

Section SortUnique.
Context {A : Type} (leb : A -> A -> bool).
Hypothesis leb_total : forall x y, leb x y = true \/ leb y x = true.
Hypothesis leb_trans : forall x y z, leb x y = true -> leb y z = true -> leb x z = true.
Hypothesis leb_antisym : forall x y, leb x y = true -> leb y x = true -> x = y.

Let R (x y : A) : Prop := leb x y = true.

Lemma insert_sorted_StronglySorted (x : A) (l : list A) :
  StronglySorted R l -> StronglySorted R (insert_sorted leb x l).
Proof.
  induction l as [|y rest IH]; intros Hl; cbn [insert_sorted].
  - constructor; constructor.
  - apply StronglySorted_inv in Hl as [Hrest Hy].
    destruct (leb x y) eqn:Hxy.
    + constructor; [constructor; assumption|].
      constructor; [exact Hxy|].
      apply Forall_impl with (P := R y); [|exact Hy].
      intros z Hz. exact (leb_trans x y z Hxy Hz).
    + constructor; [now apply IH|].
      apply (Permutation_Forall (Permutation_sym (insert_sorted_perm leb x rest))).
      constructor; [|exact Hy].
      destruct (leb_total x y) as [Hc | Hc]; [congruence | exact Hc].
Qed.

Lemma sort_by_StronglySorted (l : list A) : StronglySorted R (sort_by leb l).
Proof.
  induction l as [|x rest IH]; cbn [sort_by].
  - constructor.
  - now apply insert_sorted_StronglySorted.
Qed.

Lemma StronglySorted_head_least (x y : A) (l1 l2 : list A) :
  StronglySorted R (x :: l1) -> Permutation (x :: l1) (y :: l2) -> R x y.
Proof.
  intros Hs Hp. apply StronglySorted_inv in Hs as [_ Hx].
  assert (Hin : In y (x :: l1))
    by (apply (Permutation_in _ (Permutation_sym Hp)); now left).
  destruct Hin as [<- | Hin].
  - destruct (leb_total x x); assumption.
  - rewrite Forall_forall in Hx. now apply Hx.
Qed.

Lemma StronglySorted_unique (l1 l2 : list A) :
  StronglySorted R l1 -> StronglySorted R l2 -> Permutation l1 l2 -> l1 = l2.
Proof.
  revert l2. induction l1 as [|x t1 IH]; intros l2 H1 H2 Hp.
  - symmetry. now apply Permutation_nil.
  - destruct l2 as [|y t2].
    + apply Permutation_sym, Permutation_nil in Hp. discriminate Hp.
    + assert (x = y) as <-.
      { apply leb_antisym.
        - exact (StronglySorted_head_least x y t1 t2 H1 Hp).
        - exact (StronglySorted_head_least y x t2 t1 H2 (Permutation_sym Hp)). }
      f_equal. apply IH.
      * now apply StronglySorted_inv in H1.
      * now apply StronglySorted_inv in H2.
      * now apply Permutation_cons_inv in Hp.
Qed.

(** Two lists with the same elements sort to the same list. *)
Lemma sort_by_Permutation (l l' : list A) :
  Permutation l l' -> sort_by leb l = sort_by leb l'.
Proof.
  intros Hp. apply StronglySorted_unique; try apply sort_by_StronglySorted.
  apply Permutation_trans with l; [apply sort_by_perm|].
  apply Permutation_trans with l'; [exact Hp | apply Permutation_sym, sort_by_perm].
Qed.

End SortUnique.

Lemma string_compare_trans (s1 s2 s3 : string) :
  String.compare s1 s2 <> Gt -> String.compare s2 s3 <> Gt ->
  String.compare s1 s3 <> Gt.
Proof.
  revert s2 s3. induction s1 as [|a s1 IH]; intros [|b s2] [|c s3]; simpl;
    try congruence.
  unfold Ascii.compare.
  destruct (N.compare_spec (N_of_ascii a) (N_of_ascii b)) as [Hab|Hab|Hab];
    destruct (N.compare_spec (N_of_ascii b) (N_of_ascii c)) as [Hbc|Hbc|Hbc];
    destruct (N.compare_spec (N_of_ascii a) (N_of_ascii c)) as [Hac|Hac|Hac];
    try congruence; try lia.
  apply IH.
Qed.

Lemma string_leb_trans (x y z : string) :
  String.leb x y = true -> String.leb y z = true -> String.leb x z = true.
Proof.
  unfold String.leb. intros Hxy Hyz.
  pose proof (string_compare_trans x y z) as Ht.
  destruct (String.compare x y); destruct (String.compare y z);
    destruct (String.compare x z); try discriminate; try reflexivity;
    exfalso; apply Ht; congruence.
Qed.

(** [Object.keys(arg).sort()] does not depend on the order of the
    properties. *)
Lemma Array_sort_Permutation (keys keys' : list string) :
  Permutation keys keys' -> Array_sort keys = Array_sort keys'.
Proof.
  apply sort_by_Permutation.
  - exact String.leb_total.
  - exact string_leb_trans.
  - exact String.leb_antisym.
Qed.

(** A property read by name does not depend on the order of the
    properties of an object, whose names are distinct. *)
Lemma lookup_prop_Permutation (name : string) (props props' : list (string * JsValue)) :
  NoDup (map fst props) -> Permutation props props' ->
  lookup_prop name props = lookup_prop name props'.
Proof.
  intros Hnd Hp. induction Hp as [|[k v] l l' Hp IH|[k1 v1] [k2 v2] l|l l' l'' Hp1 IH1 Hp2 IH2].
  - reflexivity.
  - cbn [lookup_prop]. destruct (String.eqb k name); [reflexivity|].
    apply IH. now inversion Hnd.
  - cbn [lookup_prop].
    destruct (String.eqb k2 name) eqn:H2; destruct (String.eqb k1 name) eqn:H1;
      try reflexivity.
    apply String.eqb_eq in H1, H2. subst k1 k2.
    inversion Hnd as [|? ? Hnin _]. exfalso. apply Hnin. now left.
  - rewrite IH1 by exact Hnd. apply IH2.
    apply (Permutation_NoDup (Permutation_map fst Hp1) Hnd).
Qed.

(** ** More on Issue *)

Lemma firstn_add_skipn {A : Type} (n m : nat) (l : list A) :
  firstn (n + m) l = firstn n l ++ firstn m (skipn n l).
Proof.
  revert l. induction n as [|n IH]; intros [|x l]; simpl;
    try reflexivity.
  - now rewrite firstn_nil.
  - now rewrite IH.
Qed.

Lemma Parser_read_eq (n : nat) (p : Parser) :
  Parser_read n p =
  if Nat.leb n (List.length p) then Ok (firstn n p, skipn n p) else Throw UnexpectedEnd.
Proof. reflexivity. Qed.

Section IssueMore.
Context `{AddressCodec} `{CurrencyCodec}.

Lemma Issue_fromParser_eq (p : Parser) :
  Issue.fromParser p =
  if Nat.leb (Issue_width p) (List.length p)
  then Ok (firstn (Issue_width p) p, skipn (Issue_width p) p)
  else Throw UnexpectedEnd.
Proof.
  unfold Issue.fromParser, Issue_width. rewrite Parser_read_eq.
  destruct (Nat.leb 20 (List.length p)) eqn:H20.
  - cbn [bind]. destruct (String.eqb (Currency_toJSON (firstn 20 p)) "XRP").
    + rewrite H20. reflexivity.
    + rewrite Parser_read_eq, length_skipn.
      apply Nat.leb_le in H20.
      destruct (Nat.leb 40 (List.length p)) eqn:H40.
      * apply Nat.leb_le in H40.
        replace (Nat.leb 20 (List.length p - 20)) with true
          by (symmetry; apply Nat.leb_le; lia).
        cbn [bind]. unfold Issue.new, Buffer_concat. cbn [List.concat].
        rewrite app_nil_r, skipn_skipn.
        change 40%nat with (20 + 20)%nat. now rewrite firstn_add_skipn.
      * apply Nat.leb_gt in H40.
        replace (Nat.leb 20 (List.length p - 20)) with false
          by (symmetry; apply Nat.leb_gt; lia).
        reflexivity.
  - cbn [bind]. apply Nat.leb_gt in H20.
    destruct (String.eqb (Currency_toJSON (firstn 20 p)) "XRP").
    + replace (Nat.leb 20 (List.length p)) with false
        by (symmetry; apply Nat.leb_gt; lia). reflexivity.
    + replace (Nat.leb 40 (List.length p)) with false
        by (symmetry; apply Nat.leb_gt; lia). reflexivity.
Qed.

Lemma Issue_width_firstn (p : Buffer) :
  (Issue_width p <= List.length p)%nat ->
  Issue_width (firstn (Issue_width p) p) = Issue_width p.
Proof.
  intros Hle. unfold Issue_width at 1 3.
  rewrite firstn_firstn.
  replace (Nat.min 20 (Issue_width p)) with 20%nat; [reflexivity|].
  unfold Issue_width. destruct (String.eqb _ _); reflexivity.
Qed.

(** What [Issue.fromParser] returns, followed by what it leaves in the
    parser, is what the parser held; the issue is 20 bytes when its
    currency reads ["XRP"] and 40 otherwise; and the only failure is
    [UnexpectedEnd], on fewer bytes than that. *)
Theorem Issue_fromParser_framing (p : Parser) :
  (forall b rest,
      Issue.fromParser p = Ok (b, rest) ->
      p = b ++ rest /\ List.length b = Issue_width b) /\
  (forall e,
      Issue.fromParser p = Throw e ->
      e = UnexpectedEnd /\ (List.length p < Issue_width p)%nat).
Proof.
  rewrite Issue_fromParser_eq.
  destruct (Nat.leb (Issue_width p) (List.length p)) eqn:Hle.
  - apply Nat.leb_le in Hle. split; [|discriminate].
    intros b rest Hr. injection Hr as <- <-.
    split; [symmetry; apply firstn_skipn|].
    rewrite Issue_width_firstn by exact Hle. now apply firstn_length_le.
  - apply Nat.leb_gt in Hle. split; [discriminate|].
    intros e He. injection He as <-. now split.
Qed.

Lemma Issue_toJSON_eq (this : Buffer) :
  Issue.toJSON this =
  if Nat.leb (Issue_width this) (List.length this) then
    if String.eqb (Currency_toJSON (firstn 20 this)) "XRP" then Ok (VStr "XRP")
    else s <- encodeAccountID (firstn 20 (skipn 20 this)) ;;
         Ok (VObj [("currency", VStr (Currency_toJSON (firstn 20 this)));
                   ("issuer", VStr s)])
  else Throw UnexpectedEnd.
Proof.
  unfold Issue.toJSON, Currency_fromParser, AccountID_fromParser, Issue_width.
  rewrite BinaryParser_new_toHex. cbn [bind]. rewrite Parser_read_eq.
  destruct (Nat.leb 20 (List.length this)) eqn:H20.
  - cbn [bind].
    destruct (String.eqb (Currency_toJSON (firstn 20 this)) "XRP") eqn:Hx.
    + rewrite H20. apply String.eqb_eq in Hx. now rewrite Hx.
    + rewrite Parser_read_eq, length_skipn. apply Nat.leb_le in H20.
      destruct (Nat.leb 40 (List.length this)) eqn:H40.
      * apply Nat.leb_le in H40.
        replace (Nat.leb 20 (List.length this - 20)) with true
          by (symmetry; apply Nat.leb_le; lia).
        cbn [bind]. unfold AccountID_toJSON.
        destruct (encodeAccountID (firstn 20 (skipn 20 this))); reflexivity.
      * apply Nat.leb_gt in H40.
        replace (Nat.leb 20 (List.length this - 20)) with false
          by (symmetry; apply Nat.leb_gt; lia).
        reflexivity.
  - cbn [bind]. apply Nat.leb_gt in H20.
    destruct (String.eqb (Currency_toJSON (firstn 20 this)) "XRP").
    + replace (Nat.leb 20 (List.length this)) with false
        by (symmetry; apply Nat.leb_gt; lia). reflexivity.
    + replace (Nat.leb 40 (List.length this)) with false
        by (symmetry; apply Nat.leb_gt; lia). reflexivity.
Qed.

(** [Issue.toJSON] of an Issue that [Issue.fromParser] returned never
    runs out of bytes: it is ["XRP"], or the object of the currency and
    of the address of the last 20 bytes. *)
Theorem Issue_toJSON_after_fromParser (p : Parser) (b rest : Buffer) :
  Issue.fromParser p = Ok (b, rest) ->
  Issue.toJSON b =
  if String.eqb (Currency_toJSON (firstn 20 b)) "XRP" then Ok (VStr "XRP")
  else s <- encodeAccountID (skipn 20 b) ;;
       Ok (VObj [("currency", VStr (Currency_toJSON (firstn 20 b)));
                 ("issuer", VStr s)]).
Proof.
  intros Hp. rewrite Issue_fromParser_eq in Hp.
  destruct (Nat.leb (Issue_width p) (List.length p)) eqn:Hle; [|discriminate].
  apply Nat.leb_le in Hle. injection Hp as <- _.
  rewrite Issue_toJSON_eq, (Issue_width_firstn p Hle).
  rewrite (firstn_length_le _ Hle), Nat.leb_refl.
  match goal with
  | |- context [String.eqb ?x "XRP"] => destruct (String.eqb x "XRP") eqn:Hx
  end; [reflexivity|].
  assert (Hw : Issue_width p = 40%nat).
  { rewrite <- (Issue_width_firstn p Hle). unfold Issue_width at 1.
    now rewrite Hx. }
  rewrite Hw in *.
  rewrite (@firstn_all2 _ 20 (skipn 20 (firstn 40 p))); [reflexivity|].
  rewrite length_skipn, firstn_length_le by exact Hle. lia.
Qed.

(** [Issue.toJSON] reads the bytes of one issue and nothing behind them:
    bytes that follow a whole issue do not change the JSON, and an
    instance of fewer bytes than its issue throws [UnexpectedEnd]. *)
Theorem Issue_toJSON_reads_one_issue (this : Buffer) :
  (Nat.leb (Issue_width this) (List.length this) = true ->
   forall junk, Issue.toJSON (this ++ junk) = Issue.toJSON this) /\
  (Nat.leb (Issue_width this) (List.length this) = false ->
   Issue.toJSON this = Throw UnexpectedEnd).
Proof.
  split; intros Hle.
  - intros junk. rewrite !Issue_toJSON_eq. apply Nat.leb_le in Hle.
    assert (H20 : (20 <= List.length this)%nat).
    { revert Hle. unfold Issue_width. destruct (String.eqb _ _); lia. }
    assert (Hf : firstn 20 (this ++ junk) = firstn 20 this).
    { rewrite firstn_app. replace (20 - List.length this)%nat with 0%nat by lia.
      now rewrite firstn_O, app_nil_r. }
    assert (Hw : Issue_width (this ++ junk) = Issue_width this)
      by (unfold Issue_width; now rewrite Hf).
    rewrite Hw, Hf, length_app.
    replace (Nat.leb (Issue_width this) (List.length this + List.length junk))
      with true by (symmetry; apply Nat.leb_le; lia).
    replace (Nat.leb (Issue_width this) (List.length this))
      with true by (symmetry; apply Nat.leb_le; lia).
    destruct (String.eqb (Currency_toJSON (firstn 20 this)) "XRP") eqn:Hx;
      [reflexivity|].
    assert (H40 : (40 <= List.length this)%nat).
    { revert Hle. unfold Issue_width. rewrite Hx. lia. }
    rewrite skipn_app, firstn_app, length_skipn.
    replace (20 - List.length this)%nat with 0%nat by lia.
    replace (20 - (List.length this - 20))%nat with 0%nat by lia.
    now rewrite firstn_O, app_nil_r.
  - rewrite Issue_toJSON_eq, Hle. reflexivity.
Qed.

(** [Issue.from] on the JSON values that are neither a string nor an
    object: a boolean, a number and an array are no Issue, and [null]
    does not reach that answer, [Object.keys] throwing first. *)
Theorem Issue_from_rejects_other_JSON :
  (forall b, Issue.from (VBool b) = Throw (Error "Invalid type to construct an Amount")) /\
  (forall n, Issue.from (VNum n) = Throw (Error "Invalid type to construct an Amount")) /\
  (forall elems,
      Issue.from (VArr elems) = Throw (Error "Invalid type to construct an Amount")) /\
  Issue.from VNull = Throw (TypeError "Cannot convert undefined or null to object").
Proof.
  split; [reflexivity|]. split; [reflexivity|]. split; [|reflexivity].
  intros elems. unfold Issue.from. now rewrite isIssueObject_VArr.
Qed.

(** The guard of [Issue.from] does not look at the order of the keys. *)
Lemma isIssueObject_Permutation (props props' : list (string * JsValue)) :
  Permutation props props' ->
  Issue.isIssueObject (VObj props) = Issue.isIssueObject (VObj props').
Proof.
  intros Hp. unfold Issue.isIssueObject. cbn [Object_keys bind].
  now rewrite (Array_sort_Permutation _ _ (Permutation_map fst Hp)).
Qed.

(** [Issue.from] does not depend on the order in which an object lists
    its properties. *)
Theorem Issue_from_key_order (props props' : list (string * JsValue)) :
  NoDup (map fst props) ->
  Permutation props props' ->
  Issue.from (VObj props) = Issue.from (VObj props').
Proof.
  intros Hnd Hp. unfold Issue.from.
  rewrite (isIssueObject_Permutation props props' Hp). cbn [get_prop].
  now rewrite !(lookup_prop_Permutation _ props props' Hnd Hp).
Qed.

(** The JSON of an Issue converts to canonical bytes that show as that
    JSON. *)
Lemma Issue_from_canonical_JSON (j : JsValue) :
  canonical_Issue_JSON j ->
  exists i, Issue.from j = Ok i /\ canonical_Issue i /\ Issue.toJSON i = Ok j.
Proof.
  intros [[-> [c [Hc [Hlen Hx]]]]
         | [code [issuer [c [-> [Hc [Hlen [Hcode [Hne [a [Hd [Hla He]]]]]]]]]]]].
  - exists c. split; [|split].
    + unfold Issue.from, Issue.assertXrpIsValid. cbn [String.eqb negb bind].
      simpl. rewrite Hc. reflexivity.
    + left. now repeat split.
    + rewrite (Issue_toJSON_20 c Hlen), Hx. reflexivity.
  - exists (c ++ a). split; [|split].
    + unfold Issue.from. rewrite isIssueObject_currency_issuer. cbn [bind].
      change (get_prop (VObj [("currency", VStr code); ("issuer", VStr issuer)])
                "currency") with (VStr code).
      change (get_prop (VObj [("currency", VStr code); ("issuer", VStr issuer)])
                "issuer") with (VStr issuer).
      rewrite Hc. cbn [bind AccountID_from]. rewrite Hd. cbn [bind].
      unfold Issue.new, Buffer_concat. cbn [List.concat]. now rewrite app_nil_r.
    + right. exists c, a. split; [reflexivity|]. split.
      * split; [exact Hlen|]. rewrite Hcode. now split.
      * split; [exact Hla|]. now exists issuer.
    + rewrite (Issue_toJSON_40 c a Hlen Hla), Hcode.
      apply String.eqb_neq in Hne. rewrite Hne, He. reflexivity.
Qed.

(** JSON to bytes to JSON: [Issue.toJSON] of [Issue.from] of the JSON of
    an Issue is that JSON. *)
Theorem Issue_JSON_roundtrip (j : JsValue) :
  canonical_Issue_JSON j ->
  (b <- Issue.from j ;; Issue.toJSON b) = Ok j.
Proof.
  intros Hj. destruct (Issue_from_canonical_JSON j Hj) as [i [Hf [_ Ht]]].
  rewrite Hf. exact Ht.
Qed.

End IssueMore.

(** ** More on XChainBridge *)

Lemma Parser_skip_Ok (p rest : Parser) :
  Parser_skip 1 p = Ok (tt, rest) -> exists m, p = m :: rest.
Proof.
  destruct p as [|m p']; [discriminate|].
  intros Hs. injection Hs as <-. now exists m.
Qed.

Section XChainBridgeMore.
Context `{AddressCodec} `{IssuedCurrencyCodec}.

Lemma isXChainBridgeObject_VObj (props : list (string * JsValue)) :
  exists b, XChainBridge.isXChainBridgeObject (VObj props) = Ok b.
Proof. unfold XChainBridge.isXChainBridgeObject. simpl. eexists. reflexivity. Qed.

(** [XChainBridge.from] on a JSON value other than [null] that is not an
    object with exactly the four keys throws ['Invalid type to construct
    a XChainBridge']: a string, a number, a boolean, an array, an object
    with a key missing, renamed or added. *)
Theorem XChainBridge_from_rejects (value : JsValue) :
  isJSON value = true ->
  value <> VNull ->
  (forall props, value = VObj props -> ~ Permutation (map fst props) BRIDGE_KEYS) ->
  XChainBridge.from value = Throw (Error "Invalid type to construct a XChainBridge").
Proof.
  intros Hj Hnull Hkeys.
  destruct value as [| | | |s|elems|props|]; try discriminate; try reflexivity.
  - now contradiction Hnull.
  - unfold XChainBridge.from, XChainBridge.isXChainBridgeObject. simpl.
    now rewrite isXChainBridgeObject_indices.
  - unfold XChainBridge.from, XChainBridge.isXChainBridgeObject. simpl.
    now rewrite isXChainBridgeObject_indices.
  - unfold XChainBridge.from.
    destruct (isXChainBridgeObject_VObj props) as [g Hg]. rewrite Hg. cbn [bind].
    destruct g; [|reflexivity].
    exfalso. apply (Hkeys props eq_refl). now apply isXChainBridgeObject_true.
Qed.

(** Whatever [XChainBridge.fromParser] returns is laid out as a bridge
    with 0x14 in front of both doors, and the parser held the same bytes
    but for those two, followed by what is left in it: given that the
    issue class consumes what it returns, parsing takes exactly as many
    bytes as the bridge has. *)
Theorem XChainBridge_fromParser_framing (p : Parser) (b rest : Buffer) :
  (forall q i r, IssuedCurrency_fromParser q = Ok (i, r) -> q = i ++ r) ->
  XChainBridge.fromParser p = Ok (b, rest) ->
  exists m1 d1 i1 m2 d2 i2,
    p = m1 :: d1 ++ i1 ++ m2 :: d2 ++ i2 ++ rest /\
    b = x14 :: d1 ++ i1 ++ x14 :: d2 ++ i2 /\
    List.length d1 = 20%nat /\ List.length d2 = 20%nat /\
    List.length p = (List.length b + List.length rest)%nat.
Proof.
  intros Hic Hp. unfold XChainBridge.fromParser in Hp.
  apply bind_Ok in Hp as [[bytes p4] [Hloop Hp]]. injection Hp as <- <-.
  unfold XChainBridge.TYPE_ORDER, XChainBridge.forEach,
    XChainBridge.fromParser_body in Hloop.
  cbn [XChainBridge.type XChainBridge.isAccountID cls AccountID
       XChainBridge.IssuedCurrency ClassName_eqb st_fromParser] in Hloop.
  unfold AccountID_fromParser in Hloop.
  (* LockingChainDoor *)
  apply bind_Ok in Hloop as [[bs1 q1] [H1 Hloop]].
  apply bind_Ok in H1 as [[bs1' q1'] [Hs1 H1]]. cbv beta iota in H1.
  apply bind_Ok in Hs1 as [[u1 q1''] [Hs1 Hs1']]. cbv beta iota in Hs1'.
  injection Hs1' as <- <-.
  destruct u1. apply Parser_skip_Ok in Hs1 as [m1 ->].
  apply bind_Ok in H1 as [[d1 q2] [Hd1 H1]]. cbv beta iota in H1.
  injection H1 as <- <-.
  apply Parser_read_Ok in Hd1 as [-> [Hl1 _]].
  (* LockingChainIssue *)
  apply bind_Ok in Hloop as [[bs2 q3] [H2 Hloop]].
  apply bind_Ok in H2 as [[bs2' q3'] [Hn2 H2]]. cbv beta iota in H2.
  injection Hn2 as <- <-.
  apply bind_Ok in H2 as [[i1 q3''] [Hi1 H2]]. cbv beta iota in H2.
  injection H2 as <- <-.
  apply Hic in Hi1 as ->.
  (* IssuingChainDoor *)
  apply bind_Ok in Hloop as [[bs3 q4] [H3 Hloop]].
  apply bind_Ok in H3 as [[bs3' q4'] [Hs2 H3]]. cbv beta iota in H3.
  apply bind_Ok in Hs2 as [[u2 q4''] [Hs2 Hs2']]. cbv beta iota in Hs2'.
  injection Hs2' as <- <-.
  destruct u2. apply Parser_skip_Ok in Hs2 as [m2 ->].
  apply bind_Ok in H3 as [[d2 q5] [Hd2 H3]]. cbv beta iota in H3.
  injection H3 as <- <-.
  apply Parser_read_Ok in Hd2 as [-> [Hl2 _]].
  (* IssuingChainIssue *)
  apply bind_Ok in Hloop as [[bs4 q6] [H4 Hloop]].
  apply bind_Ok in H4 as [[bs4' q6'] [Hn4 H4]]. cbv beta iota in H4.
  injection Hn4 as <- <-.
  apply bind_Ok in H4 as [[i2 q6''] [Hi2 H4]]. cbv beta iota in H4.
  injection H4 as <- <-.
  apply Hic in Hi2 as ->.
  injection Hloop as <- <-.
  exists m1, d1, i1, m2, d2, i2.
  unfold XChainBridge.new, Buffer_concat. cbn [List.concat app].
  rewrite app_nil_r.
  repeat split; try assumption.
  cbn [List.length]. rewrite !length_app. cbn [List.length].
  rewrite !length_app. lia.
Qed.

(** A buffer of fewer than 21 bytes, the empty one among them, is no
    bridge: [fromParser] and [toJSON] throw [UnexpectedEnd] on it. *)
Theorem XChainBridge_short_input (p : Buffer) :
  (List.length p < 21)%nat ->
  XChainBridge.fromParser p = Throw UnexpectedEnd /\
  XChainBridge.toJSON p = Throw UnexpectedEnd.
Proof.
  intros Hlen.
  unfold XChainBridge.fromParser, XChainBridge.toJSON.
  rewrite BinaryParser_new_toHex. cbn [bind].
  unfold XChainBridge.TYPE_ORDER, XChainBridge.forEach,
    XChainBridge.fromParser_body, XChainBridge.toJSON_body.
  cbn [XChainBridge.type XChainBridge.isAccountID cls AccountID
       XChainBridge.IssuedCurrency ClassName_eqb st_fromParser].
  destruct p as [|m p']; [split; reflexivity|].
  rewrite Parser_skip_cons. cbn [bind].
  unfold AccountID_fromParser. rewrite Parser_read_eq.
  cbn [List.length] in Hlen.
  replace (Nat.leb 20 (List.length p')) with false
    by (symmetry; apply Nat.leb_gt; lia).
  split; reflexivity.
Qed.

(** The guard of [XChainBridge.from] does not look at the order of the
    keys. *)
Lemma isXChainBridgeObject_Permutation (props props' : list (string * JsValue)) :
  Permutation props props' ->
  XChainBridge.isXChainBridgeObject (VObj props) =
  XChainBridge.isXChainBridgeObject (VObj props').
Proof.
  intros Hp. unfold XChainBridge.isXChainBridgeObject. cbn [Object_keys bind].
  now rewrite (Array_sort_Permutation _ _ (Permutation_map fst Hp)).
Qed.

(** [XChainBridge.from] does not depend on the order in which an object
    lists its properties: the bytes follow [TYPE_ORDER]. *)
Theorem XChainBridge_from_key_order (props props' : list (string * JsValue)) :
  NoDup (map fst props) ->
  Permutation props props' ->
  XChainBridge.from (VObj props) = XChainBridge.from (VObj props').
Proof.
  intros Hnd Hp. unfold XChainBridge.from.
  rewrite (isXChainBridgeObject_Permutation props props' Hp).
  rewrite !XChainBridge_from_loop. cbn [get_prop].
  now rewrite !(lookup_prop_Permutation _ props props' Hnd Hp).
Qed.

(** JSON to bytes to JSON: [XChainBridge.toJSON] of [XChainBridge.from]
    of the JSON of a bridge is that JSON. *)
Theorem XChainBridge_JSON_roundtrip (j : JsValue) :
  canonical_XChainBridge_JSON j ->
  (b <- XChainBridge.from j ;; XChainBridge.toJSON b) = Ok j.
Proof.
  intros [door1 [issue1 [door2 [issue2 [-> [Hd1 [Hi1 [Hd2 Hi2]]]]]]]].
  destruct Hd1 as [d1 [Hde1 [Hl1 He1]]]. destruct Hd2 as [d2 [Hde2 [Hl2 He2]]].
  destruct Hi1 as [i1 [Hf1 [Hp1 Hj1]]]. destruct Hi2 as [i2 [Hf2 [Hp2 Hj2]]].
  rewrite (XChainBridge_from_object _ (isXChainBridgeObject_four _ _ _ _)).
  cbn [lookup_prop String.eqb Ascii.eqb Bool.eqb].
  cbn [AccountID_from]. rewrite Hde1, Hf1, Hde2, Hf2. cbn [bind app].
  rewrite (XChainBridge_toJSON_layout x14 x14 d1 i1 d2 i2 Hl1 Hl2 Hp1 Hp2).
  rewrite He1, Hj1, He2, Hj2. reflexivity.
Qed.

End XChainBridgeMore.

(** ** More on the facade *)

Section BinaryMore.
Context `{AddressCodec} `{Definitions} `{BigInteger}.

(** [serializeObject] wraps one and the same body: with a prefix and a
    suffix it returns the prefix, what it returns without them, and the
    suffix, or throws what it throws without them; a property left out
    is as an empty buffer, and [signingFieldsOnly: false] is as leaving
    it out. *)
Theorem serializeObject_prefix_suffix
  (object : JsValue) (p s : option Buffer) (f : option bool) (h h' : Heap) :
  fst (Binary.serializeObject object
         {| Binary.prefix := p; Binary.suffix := s; Binary.signingFieldsOnly := f |} h) =
    (body <- fst (Binary.serializeObject object
                    {| Binary.prefix := None; Binary.suffix := None;
                       Binary.signingFieldsOnly := f |} h') ;;
     Ok (optional_bytes p ++ body ++ optional_bytes s)) /\
  fst (Binary.serializeObject object
         {| Binary.prefix := p; Binary.suffix := s;
            Binary.signingFieldsOnly := Some false |} h) =
    fst (Binary.serializeObject object
           {| Binary.prefix := p; Binary.suffix := s;
              Binary.signingFieldsOnly := None |} h').
Proof.
  rewrite !serializeObject_run.
  cbn [Binary.prefix Binary.suffix Binary.signingFieldsOnly filterOf
       optional_bytes optional_chunk].
  split.
  - destruct (STObject_from object _) as [obj|e]; cbn [fst bind app];
      [now rewrite app_nil_r | reflexivity].
  - destruct (STObject_from object None); reflexivity.
Qed.

(** A signing account that does not convert, and a channel that does
    not, are reported before anything else is done: the call throws that
    exception whatever the transaction or the amount, and creates no
    sink. *)
Theorem facade_converts_account_and_channel_first :
  (forall transaction account e h,
      AccountID_from account = Throw e ->
      Binary.multiSigningData transaction account h = (Throw e, h)) /\
  (forall claim e h,
      Hash256_from (get_prop claim "channel") = Throw e ->
      Binary.signingClaimData claim h = (Throw e, h)).
Proof.
  split.
  - intros transaction account e h Ha. now rewrite multiSigningData_run, Ha.
  - intros claim e h Hc. now rewrite signingClaimData_run, Hc.
Qed.


End BinaryMore.

(** ** AMMWithdraw *)

Section AMMWithdrawFacts.
Context `{TransactionCommon}.

(** [validateAMMWithdraw] returns exactly when the base transaction is
    valid, [Amount] is set or else [LPTokenIn] is set with neither
    [Amount2] nor [EPrice], and every one of the four fields that is set
    has its type; a field that is [null] counts as not set. *)
Theorem validateAMMWithdraw_accepts_iff (tx : list (string * JsValue)) :
  let Amount := lookup_prop "Amount" tx in
  let Amount2 := lookup_prop "Amount2" tx in
  let EPrice := lookup_prop "EPrice" tx in
  let LPTokenIn := lookup_prop "LPTokenIn" tx in
  AMMWithdraw.validateAMMWithdraw tx = Valid <->
  validateBaseTransaction (VObj tx) = Valid /\
  (isNullish Amount = false \/
   (isNullish LPTokenIn = false /\ isNullish Amount2 = true /\
    isNullish EPrice = true)) /\
  (isNullish LPTokenIn = true \/ isIssuedCurrency LPTokenIn = true) /\
  (isNullish Amount = true \/ isAmount Amount = true) /\
  (isNullish Amount2 = true \/ isAmount Amount2 = true) /\
  (isNullish EPrice = true \/ isAmount EPrice = true).
Proof.
  cbv zeta. unfold AMMWithdraw.validateAMMWithdraw, AMMWithdraw.andThen,
    AMMWithdraw.throwIf.
  destruct (validateBaseTransaction (VObj tx)) as [|m].
  2:{ split; [discriminate | intros [Hb _]; discriminate Hb]. }
  destruct (isNullish (lookup_prop "Amount" tx));
    destruct (isNullish (lookup_prop "Amount2" tx));
    destruct (isNullish (lookup_prop "EPrice" tx));
    destruct (isNullish (lookup_prop "LPTokenIn" tx));
    cbn [negb andb];
    try (split; [discriminate | intros [_ [[Hc | [Hc1 [Hc2 Hc3]]] _]]; discriminate]);
    destruct (isIssuedCurrency (lookup_prop "LPTokenIn" tx));
    destruct (isAmount (lookup_prop "Amount" tx));
    destruct (isAmount (lookup_prop "Amount2" tx));
    destruct (isAmount (lookup_prop "EPrice" tx));
    cbn [negb andb];
    (split; [intros Hv; try discriminate Hv; intuition congruence
            | intros Hc; try reflexivity; exfalso; intuition congruence]).
Qed.

(** With [Amount] not set, a wrong combination is reported before any
    type: [Amount2] first, then [EPrice], then the want of [LPTokenIn],
    whatever the values of the fields are. *)
Theorem validateAMMWithdraw_combination_first (tx : list (string * JsValue)) :
  validateBaseTransaction (VObj tx) = Valid ->
  isNullish (lookup_prop "Amount" tx) = true ->
  isNullish (lookup_prop "LPTokenIn" tx) = true \/
  isNullish (lookup_prop "Amount2" tx) = false \/
  isNullish (lookup_prop "EPrice" tx) = false ->
  AMMWithdraw.validateAMMWithdraw tx =
  ValidationError
    (if negb (isNullish (lookup_prop "Amount2" tx))
     then "AMMWithdraw: must set Amount with Amount2"
     else if negb (isNullish (lookup_prop "EPrice" tx))
     then "AMMWithdraw: must set Amount with EPrice"
     else "AMMWithdraw: must set at least LPTokenIn or Amount").
Proof.
  intros Hb Ha Hc.
  unfold AMMWithdraw.validateAMMWithdraw, AMMWithdraw.andThen. rewrite Hb, Ha.
  destruct (isNullish (lookup_prop "Amount2" tx));
    destruct (isNullish (lookup_prop "EPrice" tx));
    destruct (isNullish (lookup_prop "LPTokenIn" tx));
    cbn [negb andb]; try reflexivity;
    destruct Hc as [Hc | [Hc | Hc]]; discriminate Hc.
Qed.

End AMMWithdrawFacts.

(** ** The transaction filters *)

Lemma member_truthy (v : JsValue) (name : string) :
  truthy v = true -> member v name = Ok (get_prop v name).
Proof. destruct v; try discriminate; reflexivity. Qed.

Lemma member_not_nullish (v : JsValue) (name : string) :
  isNullish v = false -> member v name = Ok (get_prop v name).
Proof. destruct v; try discriminate; reflexivity. Qed.

Lemma member_nullish (v : JsValue) (name : string) :
  isNullish v = true -> exists e, member v name = Throw e.
Proof. destruct v; try discriminate; eexists; reflexivity. Qed.

Section FilterFacts.
Import GetTransactions.

(** On a transaction object [counterpartyFilter] returns. *)
Lemma counterpartyFilter_returns (filters : TransactionsOptions)
  (props : list (string * JsValue)) :
  exists b, counterpartyFilter filters (VObj props) = Ok b.
Proof.
  unfold counterpartyFilter.
  destruct (negb (truthyString (counterparty filters))); [now exists true|].
  cbn [member get_prop bind].
  destruct (strictEqualsOption (lookup_prop "address" props) (counterparty filters));
    [now exists true|].
  destruct (truthy (lookup_prop "specification" props)) eqn:Hs;
    [|now exists false].
  rewrite (member_truthy _ "destination" Hs). cbn [bind].
  destruct (truthy (get_prop (lookup_prop "specification" props) "destination"))
    eqn:Hd.
  - rewrite (member_truthy _ "address" Hd). cbn [bind].
    destruct (strictEqualsOption _ (counterparty filters)); [now exists true|].
    rewrite (member_truthy _ "counterparty" Hs). cbn [bind].
    destruct (strictEqualsOption _ (counterparty filters)); eexists; reflexivity.
  - cbn [bind]. rewrite (member_truthy _ "counterparty" Hs). cbn [bind].
    destruct (strictEqualsOption _ (counterparty filters)); eexists; reflexivity.
Qed.

(** [transactionFilter] throws on a transaction object in one case only:
    failures are to be excluded and the transaction has no [outcome] to
    read the result from. *)
Theorem transactionFilter_throws_iff (address : string)
  (filters : TransactionsOptions) (props : list (string * JsValue)) :
  (exists e, transactionFilter address filters (VObj props) = Throw e) <->
  truthyBool (excludeFailures filters) = true /\
  isNullish (lookup_prop "outcome" props) = true.
Proof.
  unfold transactionFilter. cbn [member get_prop bind].
  destruct (truthyBool (excludeFailures filters)).
  - destruct (isNullish (lookup_prop "outcome" props)) eqn:Ho.
    + destruct (member_nullish _ "result" Ho) as [e He]. rewrite He. cbn [bind].
      split; [now split | intros _; now exists e].
    + rewrite (member_not_nullish _ "result" Ho). cbn [bind].
      split; [|intros [_ Hc]; discriminate Hc].
      intros [e He]. exfalso. revert He.
      destruct (negb (strictEqualsString _ "tesSUCCESS")); [discriminate|].
      destruct (types filters) as [ts|]; cbn [bind];
        try (destruct (negb (includes ts _)); [discriminate|]);
        destruct (initiated filters) as [[|]|]; cbn [bind];
        try (destruct (negb (strictEqualsString _ address)); [discriminate|]);
        try (destruct (strictEqualsString _ address); [discriminate|]);
        destruct (truthyString (counterparty filters)); try discriminate;
        destruct (counterpartyFilter_returns filters props) as [b ->]; cbn [bind];
        destruct b; discriminate.
  - split; [|intros [Hc _]; discriminate Hc].
    intros [e He]. exfalso. revert He. cbn [bind].
    destruct (types filters) as [ts|]; cbn [bind];
      try (destruct (negb (includes ts _)); [discriminate|]);
      destruct (initiated filters) as [[|]|]; cbn [bind];
      try (destruct (negb (strictEqualsString _ address)); [discriminate|]);
      try (destruct (strictEqualsString _ address); [discriminate|]);
      destruct (truthyString (counterparty filters)); try discriminate;
      destruct (counterpartyFilter_returns filters props) as [b ->]; cbn [bind];
      destruct b; discriminate.
Qed.

(** [initiated: true] and [initiated: false] split what passes without
    [initiated] in two: a transaction object that passes the other
    filters passes exactly one of them, the first when its [address] is
    the account and the second when it is not. *)
Theorem transactionFilter_initiated_splits (address : string)
  (filters : TransactionsOptions) (props : list (string * JsValue)) (b : bool) :
  transactionFilter address (withInitiated filters None) (VObj props) = Ok b ->
  transactionFilter address (withInitiated filters (Some true)) (VObj props) =
    Ok (b && strictEqualsString (lookup_prop "address" props) address) /\
  transactionFilter address (withInitiated filters (Some false)) (VObj props) =
    Ok (b && negb (strictEqualsString (lookup_prop "address" props) address)).
Proof.
  unfold transactionFilter.
  cbn [withInitiated initiated excludeFailures types counterparty member get_prop].
  intros Hn.
  match type of Hn with
  | bind ?c _ = _ => destruct c as [failed|e]; [|discriminate Hn]
  end.
  cbn [bind] in *. destruct failed; [injection Hn as <-; now split|].
  match type of Hn with
  | bind ?c _ = _ => destruct c as [otherType|e]; [|discriminate Hn]
  end.
  cbn [bind] in *. destruct otherType; [injection Hn as <-; now split|].
  destruct (strictEqualsString (lookup_prop "address" props) address);
    cbn [negb bind andb].
  - rewrite andb_true_r, andb_false_r. split; [exact Hn | reflexivity].
  - rewrite andb_true_r, andb_false_r. split; [reflexivity | exact Hn].
Qed.

(** Two edges of the options.  An empty [counterparty] filters nothing:
    it is as no counterparty.  An empty [types] is still a list: with it
    no transaction object passes. *)
Theorem transactionFilter_empty_options (address : string)
  (filters : TransactionsOptions) :
  (counterparty filters = Some "" ->
   forall tx, transactionFilter address filters tx =
              transactionFilter address (withCounterparty filters None) tx) /\
  (types filters = Some [] ->
   truthyBool (excludeFailures filters) = false ->
   forall props, transactionFilter address filters (VObj props) = Ok false).
Proof.
  split.
  - intros Hc tx. unfold transactionFilter.
    cbn [withCounterparty initiated excludeFailures types counterparty].
    rewrite Hc. reflexivity.
  - intros Ht He props. unfold transactionFilter. rewrite Ht, He. reflexivity.
Qed.

Variable compareTransactions : JsValue -> JsValue -> result Z.

(** Paging from a start transaction: given that a transaction compares
    equal to itself, the start transaction is not returned again, in
    either direction; and no transaction passes both directions. *)
Theorem orderFilter_excludes_start (options : TransactionsOptions) (startTx0 : JsValue) :
  (forall t, compareTransactions t t = Ok 0%Z) ->
  startTx options = Some startTx0 ->
  truthy startTx0 = true ->
  orderFilter compareTransactions options startTx0 = Ok false /\
  (forall tx,
      orderFilter compareTransactions (withEarliestFirst options (Some true)) tx = Ok true ->
      orderFilter compareTransactions (withEarliestFirst options (Some false)) tx = Ok false).
Proof.
  intros Hrefl Hs Ht. unfold orderFilter.
  cbn [withEarliestFirst startTx earliestFirst truthyBool].
  rewrite Hs, Ht. cbn [negb]. split.
  - destruct (truthyBool (earliestFirst options)); rewrite Hrefl; reflexivity.
  - intros tx. destruct (compareTransactions tx startTx0) as [c|e]; [|discriminate].
    cbn [bind]. intros Hc. injection Hc as Hc. apply Z.ltb_lt in Hc.
    f_equal. apply Z.ltb_ge. lia.
Qed.

End FilterFacts.

(** * The development at concrete inputs *)

Import Sample.

(** ** The sample collaborators keep to their widths *)

Lemma sample_decode_width (s : string) (a : Buffer) :
  decodeAccountID s = Ok a -> List.length a = 20%nat.
Proof.
  cbn [decodeAccountID addressCodec decodeKnown knownAccounts].
  repeat match goal with
         | |- context [String.eqb ?k s] => destruct (String.eqb k s)
         end;
    intros Hd; try discriminate; injection Hd as <-; reflexivity.
Qed.

Lemma isoToBytes_length (code : string) :
  isIsoCode code = true -> List.length (isoToBytes code) = 20%nat.
Proof.
  unfold isIsoCode. intros Hc. apply andb_prop in Hc as [Hlen _].
  apply Nat.eqb_eq in Hlen.
  destruct code as [|a [|b [|c [|d rest]]]]; try discriminate. reflexivity.
Qed.

Lemma sample_currency_width (v : JsValue) (c : Buffer) :
  isJSON v = true -> Currency_from v = Ok c -> List.length c = 20%nat.
Proof.
  intros Hj. destruct v as [| | | |s| | |]; try discriminate.
  cbn [Currency_from currencyCodec specCurrency_from].
  destruct (String.eqb s "XRP").
  - intros Hc. injection Hc as <-. reflexivity.
  - destruct (isIsoCode s) eqn:Hiso.
    + intros Hc. injection Hc as <-. now apply isoToBytes_length.
    + destruct (fromHex s) as [bytes|]; [|discriminate].
      destruct (Nat.eqb (List.length bytes) 20) eqn:Hl; [|discriminate].
      intros Hc. injection Hc as <-. now apply Nat.eqb_eq.
Qed.

Lemma toHex_length (bs : Buffer) : String.length (toHex bs) = (2 * List.length bs)%nat.
Proof.
  induction bs as [|b rest IH]; [reflexivity|].
  change (toHex (b :: rest)) with (byteToHex b ++ toHex rest)%string.
  unfold byteToHex. cbn [String.append String.length List.length]. rewrite IH. lia.
Qed.

Lemma Buffer_eqb_true (a b : Buffer) : Buffer_eqb a b = true -> a = b.
Proof. unfold Buffer_eqb. now destruct (list_eq_dec Byte.byte_eq_dec a b). Qed.

(** Every 20 bytes are a canonical currency of the sample codec: XRP, or
    a currency whose JSON form converts back to it. *)
Lemma sample_currency_canonical (c : Buffer) :
  List.length c = 20%nat -> canonical_XRP c \/ canonical_issued_Currency c.
Proof.
  intros Hlen.
  unfold canonical_XRP, canonical_issued_Currency.
  cbn [Currency_toJSON Currency_from currencyCodec].
  unfold specCurrency_toJSON.
  destruct (Buffer_eqb c (Buffer_alloc 20)) eqn:Hz.
  - left. apply Buffer_eqb_true in Hz. subst c. repeat split.
  - right. split; [exact Hlen|].
    set (code := string_of_list_byte (firstn 3 (skipn 12 c))).
    destruct (Buffer_eqb c (isoToBytes code) && isIsoCode code
              && negb (String.eqb code "XRP")) eqn:Hiso.
    + apply andb_prop in Hiso as [Hiso Hnx]. apply andb_prop in Hiso as [Hb Hcode].
      apply Buffer_eqb_true in Hb. apply negb_true_iff in Hnx.
      split; [now apply String.eqb_neq|].
      unfold specCurrency_from. rewrite Hnx, Hcode. now rewrite <- Hb.
    + assert (Hl : String.length (toHex c) = 40%nat)
        by (rewrite toHex_length, Hlen; reflexivity).
      assert (Hnx : String.eqb (toHex c) "XRP" = false).
      { apply String.eqb_neq. intros Heq. rewrite Heq in Hl. discriminate Hl. }
      split; [now apply String.eqb_neq|].
      unfold specCurrency_from, isIsoCode. rewrite Hnx, Hl.
      cbn [Nat.eqb andb]. rewrite fromHex_toHex, Hlen. reflexivity.
Qed.

(** So, for the sample codecs, the canonical Issues are all the
    currencies alone that are XRP and all the other currencies followed
    by a canonical AccountID. *)
Lemma sample_issue_canonical (c a : Buffer) :
  List.length c = 20%nat ->
  canonical_AccountID a ->
  canonical_Issue c \/ canonical_Issue (c ++ a).
Proof.
  intros Hc Ha. destruct (sample_currency_canonical c Hc) as [Hx | Hi].
  - left. now left.
  - right. right. now exists c, a.
Qed.

Lemma sample_issue_width (v : JsValue) (i : Buffer) :
  isJSON v = true -> IssuedCurrency_from v = Ok i ->
  List.length i = if isStringForm v then 20%nat else 40%nat.
Proof.
  intros Hj Hi.
  destruct (Issue_from_JSON_width v i sample_currency_width sample_decode_width Hj Hi)
    as [[[s ->] Hl] | [[props ->] Hl]]; exact Hl.
Qed.

Lemma sample_amount_width (props : list (string * JsValue)) (b : Buffer) :
  isJSON (VObj props) = true ->
  st_from Amount (VObj props) = Ok b -> List.length b = 48%nat.
Proof.
  intros Hj. cbn [Amount definitions fromOnly st_from Amount_from].
  intros Hb.
  apply bind_Ok in Hb as [m [Hm Hb]].
  apply bind_Ok in Hb as [c [Hc Hb]].
  apply bind_Ok in Hb as [i [Hi Hb]].
  injection Hb as <-.
  assert (Hlm : List.length m = 8%nat).
  { destruct (get_prop (VObj props) "value") as [| | | |s| | |]; try discriminate.
    destruct (String.eqb s "0") eqn:H0.
    - apply String.eqb_eq in H0. subst s. now injection Hm as <-.
    - destruct (String.eqb s "1") eqn:H1.
      + apply String.eqb_eq in H1. subst s. now injection Hm as <-.
      + exfalso. revert Hm H0 H1. clear.
        destruct s as [|[[|] [|] [|] [|] [|] [|] [|] [|]] [|]];
          simpl; intros; congruence. }
  cbn [get_prop] in Hc, Hi.
  assert (Hlc : List.length c = 20%nat).
  { destruct (isJSON_lookup_prop "currency" props Hj) as [Hu | Hjc].
    - rewrite Hu in Hc. discriminate.
    - exact (sample_currency_width _ _ Hjc Hc). }
  destruct (AccountID_from_JSON _ i (isJSON_lookup_prop "issuer" props Hj) Hi)
    as [s [_ Hd]].
  rewrite !length_app, Hlm, Hlc, (sample_decode_width _ _ Hd). reflexivity.
Qed.

(** ** Issue *)

(** [Issue.from] on the string ["USD"]. *)
Lemma Issue_from_USD_string_throws :
  "USD" <> "XRP" /\
  Issue.from (VStr "USD") = Throw (Error "USD is an illegal amount").
Proof.
  split; [discriminate|].
  apply (Issue_from_rejects_other_strings "USD"). discriminate.
Defined.

(** [Issue.from] on an object without [issuer], and on one with a third
    key. *)
Lemma Issue_from_other_key_sets_throw :
  Issue.from (VObj [("currency", VStr "XRP")])
    = Throw (Error "Invalid type to construct an Amount") /\
  Issue.from (VObj [("currency", VStr "USD"); ("issuer", VStr ACCOUNT_TEST);
                    ("value", VStr "1")])
    = Throw (Error "Invalid type to construct an Amount").
Proof.
  split; apply Issue_from_rejects_other_key_sets; cbn [map fst];
    intros Hp; apply Permutation_length in Hp; discriminate Hp.
Defined.

(** C6, the claim as stated fails.  The object with currency ["XRP"] and
    an issuer is accepted by [Issue.from]; the result has 40 bytes and
    its [toJSON] is the string ["XRP"].  So it is neither the 20-byte
    form shown as ["XRP"] nor a 40-byte form shown as an object. *)
Lemma Issue_XRP_object_is_40_bytes_shown_as_XRP :
  let value := VObj [("currency", VStr "XRP"); ("issuer", VStr ACCOUNT_ZERO)] in
  let b := Buffer_alloc 40 in
  isJSON value = true /\
  Issue.from value = Ok b /\
  Issue.toJSON b = Ok (VStr "XRP") /\
  ~ ((List.length b = 20%nat /\ Issue.toJSON b = Ok (VStr "XRP")) \/
     (List.length b = 40%nat /\
      exists c i, Issue.toJSON b = Ok (VObj [("currency", c); ("issuer", i)]))).
Proof.
  cbv zeta. split; [reflexivity|]. split; [reflexivity|]. split; [reflexivity|].
  intros [[Hlen _] | [_ [c [i Hj]]]]; [discriminate Hlen|].
  change (Issue.toJSON (Buffer_alloc 40)) with (@Ok JsValue (VStr "XRP")) in Hj.
  discriminate Hj.
Qed.

(** The amended statement on the object of ["USD"] and an issuer. *)
Lemma Issue_from_USD_object_sizes_and_JSON :
  let value := USD_issue in
  let b := USD_issue_bytes in
  (value = VStr "XRP" /\
   Currency_from (VStr "XRP") = Ok b /\
   List.length b = 20%nat /\
   Issue.toJSON b =
     if String.eqb (Currency_toJSON b) "XRP" then Ok (VStr "XRP")
     else Throw UnexpectedEnd)
  \/
  (exists props c i,
      value = VObj props /\
      Permutation (map fst props) ["currency"; "issuer"] /\
      Currency_from (get_prop value "currency") = Ok c /\
      AccountID_from (get_prop value "issuer") = Ok i /\
      b = c ++ i /\
      List.length b = 40%nat /\
      Issue.toJSON b =
        if String.eqb (Currency_toJSON c) "XRP" then Ok (VStr "XRP")
        else s <- encodeAccountID i ;;
             Ok (VObj [("currency", VStr (Currency_toJSON c));
                       ("issuer", VStr s)])).
Proof.
  cbv zeta.
  apply (Issue_from_sizes_and_JSON USD_issue USD_issue_bytes
           sample_currency_width sample_decode_width);
    reflexivity.
Defined.

(** ** XChainBridge *)

Lemma USD_issue_bytes_canonical : canonical_Issue USD_issue_bytes.
Proof.
  right. exists (isoToBytes "USD"), ACCOUNT_TEST_ID.
  split; [reflexivity|]. split.
  - split; [reflexivity|]. split; [|reflexivity].
    intros Hc. vm_compute in Hc. discriminate Hc.
  - split; [reflexivity|]. exists ACCOUNT_TEST. split; reflexivity.
Qed.

Lemma XRP_issue_bytes_canonical : canonical_Issue (Buffer_alloc 20).
Proof. left. split; [reflexivity|]. split; reflexivity. Qed.

Lemma sample_canonical_for (i : Buffer) :
  canonical_Issue i -> canonical_for XChainBridge.IssuedCurrency i.
Proof. intros Hi. exact (canonical_Issue_for i Hi). Qed.

Lemma bridge_bytes_canonical : canonical_XChainBridge bridge_bytes.
Proof.
  exists ACCOUNT_TEST_ID, (Buffer_alloc 20), (Buffer_alloc 19 ++ [x01]), USD_issue_bytes.
  split; [reflexivity|]. split; [|split; [|split]].
  - split; [reflexivity|]. exists ACCOUNT_TEST. split; reflexivity.
  - apply sample_canonical_for, XRP_issue_bytes_canonical.
  - split; [reflexivity|]. exists ACCOUNT_ONE. split; reflexivity.
  - apply sample_canonical_for, USD_issue_bytes_canonical.
Qed.

(** The layout and the keys of the sample bridge: its locking issue is
    XRP, 20 bytes, and its issuing issue is not, 40 bytes. *)
Lemma XChainBridge_layout_of_sample_bridge :
  let value := bridge in
  let b := bridge_bytes in
  (exists props d1 i1 d2 i2,
      value = VObj props /\
      Permutation (map fst props) BRIDGE_KEYS /\
      AccountID_from (get_prop value "LockingChainDoor") = Ok d1 /\
      IssuedCurrency_from (get_prop value "LockingChainIssue") = Ok i1 /\
      AccountID_from (get_prop value "IssuingChainDoor") = Ok d2 /\
      IssuedCurrency_from (get_prop value "IssuingChainIssue") = Ok i2 /\
      b = [x14] ++ d1 ++ i1 ++ [x14] ++ d2 ++ i2 /\
      List.length d1 = 20%nat /\
      List.length i1 = 20%nat /\
      List.length d2 = 20%nat /\
      List.length i2 = 40%nat) /\
  (forall j, XChainBridge.toJSON b = Ok j ->
             exists v1 v2 v3 v4,
               j = VObj [("LockingChainDoor", v1); ("LockingChainIssue", v2);
                         ("IssuingChainDoor", v3); ("IssuingChainIssue", v4)]).
Proof.
  cbv zeta.
  apply (XChainBridge_layout_and_keys isStringForm bridge bridge_bytes
           sample_decode_width sample_issue_width);
    reflexivity.
Defined.

(** The sample bridge with 00 and FF in front of its doors. *)
Lemma XChainBridge_markers_of_sample_bridge :
  let d1 := ACCOUNT_TEST_ID in
  let i1 := Buffer_alloc 20 in
  let d2 := Buffer_alloc 19 ++ [x01] in
  let i2 := USD_issue_bytes in
  XChainBridge.fromParser (x00 :: d1 ++ i1 ++ xff :: d2 ++ i2 ++ [x2a]) =
    Ok (x14 :: d1 ++ i1 ++ x14 :: d2 ++ i2, [x2a]) /\
  XChainBridge.toJSON (x00 :: d1 ++ i1 ++ xff :: d2 ++ i2) =
    XChainBridge.toJSON (x14 :: d1 ++ i1 ++ x14 :: d2 ++ i2) /\
  (x14 :: d1 ++ i1 ++ x14 :: d2 ++ i2 = x00 :: d1 ++ i1 ++ xff :: d2 ++ i2
   <-> x00 = x14 /\ xff = x14).
Proof.
  cbv zeta.
  apply (XChainBridge_markers_not_checked x00 xff ACCOUNT_TEST_ID (Buffer_alloc 20)
           (Buffer_alloc 19 ++ [x01]) USD_issue_bytes [x2a]).
  - reflexivity.
  - reflexivity.
  - intros r. exact (Issue_fromParser_canonical _ r XRP_issue_bytes_canonical).
  - intros r. exact (Issue_fromParser_canonical _ r USD_issue_bytes_canonical).
Defined.

(** Off the canonical bytes the round trip moves: the 40 bytes of an XRP
    currency with an issuer come back as the 20 bytes of the currency. *)
Lemma roundtrip_of_XRP_with_issuer :
  ('(issue, _) <- Issue.fromParser (Buffer_alloc 40) ;;
   json <- Issue.toJSON issue ;;
   Issue.from json) = Ok (Buffer_alloc 20).
Proof. reflexivity. Qed.

(** The round trips of the sample issue and of the sample bridge. *)
Lemma roundtrip_of_sample_issue_and_bridge :
  ('(issue, _) <- Issue.fromParser USD_issue_bytes ;;
   json <- Issue.toJSON issue ;;
   Issue.from json) = Ok USD_issue_bytes /\
  ('(bridge, _) <- XChainBridge.fromParser bridge_bytes ;;
   json <- XChainBridge.toJSON bridge ;;
   XChainBridge.from json) = Ok bridge_bytes.
Proof.
  apply (bytes_JSON_bytes_roundtrip USD_issue_bytes bridge_bytes).
  - exact USD_issue_bytes_canonical.
  - exact bridge_bytes_canonical.
Defined.

(** ** The facade *)

(** The fields the signing paths emit for the sample transaction, in
    canonical order. *)
Lemma sample_transaction_signing_fields :
  (emitted <- STObject_fields tx signingFilter ;;
   Ok (map (fun fv => f_name (fst fv)) emitted)) =
  Ok ["Flags"; "Sequence"; "SigningPubKey"; "Account"].
Proof. reflexivity. Qed.

(** Results as hexadecimal text: [BinaryParser_new] reads the text into
    the bytes. *)
Lemma signingData_of_sample_transaction :
  fst (Binary.signingData (VObj tx) None []) =
  BinaryParser_new
    "535458002200000000240000000173008114BA8E78626EE42C41B46D46C3048DF3A1C3C87072".
Proof. reflexivity. Qed.

Lemma serializeObject_of_sample_transaction :
  fst (Binary.serializeObject (VObj tx) Binary.no_opts []) =
  BinaryParser_new
    "2200000000240000000173007402ABCD8114BA8E78626EE42C41B46D46C3048DF3A1C3C87072".
Proof. reflexivity. Qed.

(** The signing paths on the sample transaction: [TxnSignature] and
    [hash] are left out. *)
Lemma signing_paths_on_sample_transaction :
  let props := tx in
  let prefix : option Buffer := None in
  let account := VStr ACCOUNT_ONE in
  let acct := Buffer_alloc 19 ++ [x01] in
  let h : Heap := [] in
  exists emitted,
    STObject_fields props signingFilter = Ok emitted /\
    (forall f v,
        In (f, v) emitted <->
        (exists key, In (key, v) props /\ Field key = Some f) /\
        isSigningField f = true /\ isSerialized f = true) /\
    fst (Binary.signingData (VObj props) prefix h) =
      (chunks <- encodeFields emitted ;;
       Ok (match prefix with
           | Some p => p
           | None => HashPrefix.transactionSig
           end ++ Buffer_concat chunks)) /\
    fst (Binary.multiSigningData (VObj props) account h) =
      (chunks <- encodeFields emitted ;;
       Ok (HashPrefix.transactionMultiSig ++ Buffer_concat chunks ++ acct)).
Proof.
  cbv zeta.
  eapply (signing_paths_emit_signing_serialized_fields tx _ None (VStr ACCOUNT_ONE));
    reflexivity.
Defined.

(** [multiSigningData] of the sample transaction for ACCOUNT_ONE. *)
Lemma multiSigningData_of_sample_transaction :
  fst (Binary.multiSigningData (VObj tx) (VStr ACCOUNT_ONE) []) =
    (body <- STObject_from (VObj tx) signingFilter ;;
     Ok ([x53; x4d; x54; x00] ++ body ++ (Buffer_alloc 19 ++ [x01]))) /\
  List.length (Buffer_alloc 19 ++ [x01]) = 20%nat.
Proof.
  apply (multiSigningData_layout (VObj tx) ACCOUNT_ONE (Buffer_alloc 19 ++ [x01]) []
           sample_decode_width).
  reflexivity.
Defined.

Lemma multiSigningData_of_sample_transaction_bytes :
  fst (Binary.multiSigningData (VObj tx) (VStr ACCOUNT_ONE) []) =
  BinaryParser_new
    ("534D5400" ++ "2200000000240000000173008114BA8E78626EE42C41B46D46C3048DF3A1C3C87072"
     ++ "0000000000000000000000000000000000000001").
Proof. reflexivity. Qed.

(** [signingClaimData] of the sample claim of 1000 drops. *)
Lemma signingClaimData_of_sample_claim :
  let h : Heap := [] in
  exists channel,
    Hash256_from (VStr CHANNEL) = Ok channel /\
    List.length channel = 32%nat /\
    (forall s, get_prop claim "amount" = VStr s ->
       fst (Binary.signingClaimData claim h) =
         (num <- bigInt s ;;
          amount <- UInt64_from num ;;
          Ok ([x43; x4c; x4d; x00] ++ channel ++ amount)) /\
       (forall num amount, bigInt s = Ok num -> UInt64_from num = Ok amount ->
          List.length amount = 8%nat /\ be_value amount = num)) /\
    (forall props, get_prop claim "amount" = VObj props ->
       fst (Binary.signingClaimData claim h) =
         (amount <- st_from Amount (VObj props) ;;
          Ok ([x43; x4c; x4d; x00] ++ channel ++ amount)) /\
       (forall amount, st_from Amount (VObj props) = Ok amount ->
          List.length amount = 48%nat)).
Proof.
  cbv zeta. eexists. split; [reflexivity|].
  apply (signingClaimData_layout claim CHANNEL _ [] sample_amount_width);
    reflexivity.
Defined.

Lemma signingClaimData_of_sample_claim_bytes :
  fst (Binary.signingClaimData claim []) =
  BinaryParser_new
    "434C4D0043904CBFCDCEC530B4037871F86EE90BF799DF8D2E0EA564BC8A3F332E4F5FB100000000000003E8".
Proof. reflexivity. Qed.

(** An issued amount in the claim: 48 bytes after prefix and channel. *)
Lemma signingClaimData_of_issued_amount :
  fst (Binary.signingClaimData
         (VObj [("channel", VStr CHANNEL);
                ("amount", VObj [("value", VStr "1"); ("currency", VStr "USD");
                                 ("issuer", VStr ACCOUNT_TEST)])]) []) =
  BinaryParser_new
    ("434C4D0043904CBFCDCEC530B4037871F86EE90BF799DF8D2E0EA564BC8A3F332E4F5FB1"
     ++ "D4C38D7EA4C68000" ++ "0000000000000000000000005553440000000000"
     ++ "BA8E78626EE42C41B46D46C3048DF3A1C3C87072").
Proof. reflexivity. Qed.

(** ** Further runs *)

Import SampleLedger.

(** ** Issue *)

(** The sample issue parsed with a byte behind it, then shown. *)
Lemma Issue_toJSON_after_fromParser_of_sample :
  Issue.fromParser (USD_issue_bytes ++ [x2a]) = Ok (USD_issue_bytes, [x2a]) /\
  Issue.toJSON USD_issue_bytes =
  (if String.eqb (Currency_toJSON (firstn 20 USD_issue_bytes)) "XRP"
   then Ok (VStr "XRP")
   else s <- encodeAccountID (skipn 20 USD_issue_bytes) ;;
        Ok (VObj [("currency", VStr (Currency_toJSON (firstn 20 USD_issue_bytes)));
                  ("issuer", VStr s)])).
Proof.
  split; [reflexivity|].
  apply (Issue_toJSON_after_fromParser (USD_issue_bytes ++ [x2a]) USD_issue_bytes [x2a]).
  reflexivity.
Defined.

(** The sample issue with its issuer listed first. *)
Lemma Issue_from_key_order_of_sample :
  Issue.from (VObj [("currency", VStr "USD"); ("issuer", VStr ACCOUNT_TEST)]) =
  Issue.from (VObj [("issuer", VStr ACCOUNT_TEST); ("currency", VStr "USD")]).
Proof.
  apply Issue_from_key_order.
  - cbn [map fst]. repeat constructor; cbn [In]; intuition discriminate.
  - apply perm_swap.
Defined.

Lemma USD_issue_JSON_canonical : canonical_Issue_JSON USD_issue.
Proof.
  right. exists "USD", ACCOUNT_TEST, (isoToBytes "USD").
  split; [reflexivity|]. split; [reflexivity|]. split; [reflexivity|].
  split; [reflexivity|]. split; [discriminate|].
  exists ACCOUNT_TEST_ID. repeat split.
Qed.

(** The JSON of the sample issue through bytes and back. *)
Lemma Issue_JSON_roundtrip_of_sample :
  (b <- Issue.from USD_issue ;; Issue.toJSON b) = Ok USD_issue.
Proof. apply Issue_JSON_roundtrip. exact USD_issue_JSON_canonical. Defined.

(** ** XChainBridge *)

(** An object with the one key [XChainDoor] is no bridge. *)
Lemma XChainBridge_from_rejects_XChainDoor :
  XChainBridge.from (VObj [("XChainDoor", VStr "test")]) =
  Throw (Error "Invalid type to construct a XChainBridge").
Proof.
  apply XChainBridge_from_rejects.
  - reflexivity.
  - discriminate.
  - intros props Hv. injection Hv as <-. cbn [map fst].
    intros Hp. apply Permutation_length in Hp. discriminate Hp.
Defined.

Lemma sample_issue_framing (q : Parser) (i r : Buffer) :
  IssuedCurrency_fromParser q = Ok (i, r) -> q = i ++ r.
Proof.
  cbn [IssuedCurrency_fromParser issuedCurrencyCodec].
  rewrite Issue_fromParser_eq.
  destruct (Nat.leb (Issue_width q) (List.length q)); [|discriminate].
  intros Hq. injection Hq as <- <-. symmetry. apply firstn_skipn.
Qed.

(** The bytes of the sample bridge, parsed with a byte behind them. *)
Lemma XChainBridge_fromParser_framing_of_sample :
  exists m1 d1 i1 m2 d2 i2,
    bridge_bytes ++ [x2a] = m1 :: d1 ++ i1 ++ m2 :: d2 ++ i2 ++ [x2a] /\
    bridge_bytes = x14 :: d1 ++ i1 ++ x14 :: d2 ++ i2 /\
    List.length d1 = 20%nat /\ List.length d2 = 20%nat /\
    List.length (bridge_bytes ++ [x2a]) =
      (List.length bridge_bytes + List.length [x2a])%nat.
Proof.
  apply (XChainBridge_fromParser_framing (bridge_bytes ++ [x2a]) bridge_bytes [x2a]
           sample_issue_framing).
  reflexivity.
Defined.

(** The empty buffer and 20 zero bytes are no bridge. *)
Lemma XChainBridge_short_inputs_throw :
  (XChainBridge.fromParser [] = Throw UnexpectedEnd /\
   XChainBridge.toJSON [] = Throw UnexpectedEnd) /\
  (XChainBridge.fromParser (Buffer_alloc 20) = Throw UnexpectedEnd /\
   XChainBridge.toJSON (Buffer_alloc 20) = Throw UnexpectedEnd).
Proof.
  split; apply XChainBridge_short_input; cbn [List.length Buffer_alloc repeat]; lia.
Defined.

(** The sample bridge with its keys in alphabetical order. *)
Lemma XChainBridge_from_key_order_of_sample :
  XChainBridge.from bridge =
  XChainBridge.from
    (VObj [ ("IssuingChainDoor", VStr ACCOUNT_ONE);
            ("IssuingChainIssue", USD_issue);
            ("LockingChainDoor", VStr ACCOUNT_TEST);
            ("LockingChainIssue", VStr "XRP") ]).
Proof.
  unfold bridge. apply XChainBridge_from_key_order.
  - cbn [map fst]. repeat constructor; cbn [In]; intuition discriminate.
  - apply (Permutation_cons_app [_; _] [_] _).
    apply (Permutation_cons_app [_; _] [] _).
    apply Permutation_refl.
Defined.

Lemma sample_issue_JSON_canonical (j : JsValue) :
  canonical_Issue_JSON j -> canonical_IssuedCurrency_JSON j.
Proof.
  intros Hj. unfold canonical_IssuedCurrency_JSON.
  cbn [IssuedCurrency_from IssuedCurrency_fromParser IssuedCurrency_toJSON
       issuedCurrencyCodec].
  destruct (Issue_from_canonical_JSON j Hj) as [i [Hf [Hc Ht]]].
  exists i. repeat split; try assumption.
  intros rest. now apply Issue_fromParser_canonical.
Qed.

Lemma sample_address_canonical :
  canonical_address ACCOUNT_TEST /\ canonical_address ACCOUNT_ONE.
Proof.
  split.
  - exists ACCOUNT_TEST_ID. repeat split.
  - exists (Buffer_alloc 19 ++ [x01]). repeat split.
Qed.

Lemma XRP_issue_JSON_canonical : canonical_Issue_JSON (VStr "XRP").
Proof. left. split; [reflexivity|]. exists (Buffer_alloc 20). repeat split. Qed.

Lemma bridge_JSON_canonical : canonical_XChainBridge_JSON bridge.
Proof.
  exists ACCOUNT_TEST, (VStr "XRP"), ACCOUNT_ONE, USD_issue.
  split; [reflexivity|].
  split; [exact (proj1 sample_address_canonical)|].
  split; [exact (sample_issue_JSON_canonical _ XRP_issue_JSON_canonical)|].
  split; [exact (proj2 sample_address_canonical)|].
  exact (sample_issue_JSON_canonical _ USD_issue_JSON_canonical).
Qed.

(** The JSON of the sample bridge through bytes and back. *)
Lemma XChainBridge_JSON_roundtrip_of_sample :
  (b <- XChainBridge.from bridge ;; XChainBridge.toJSON b) = Ok bridge.
Proof. apply XChainBridge_JSON_roundtrip. exact bridge_JSON_canonical. Defined.

(** ** The facade *)


(** ** AMMWithdraw *)

(** [Amount2] without [Amount] is reported, the well-typed [LPTokenIn]
    notwithstanding. *)
Lemma validateAMMWithdraw_of_Amount2_only :
  AMMWithdraw.validateAMMWithdraw withdrawAmount2Only =
  ValidationError "AMMWithdraw: must set Amount with Amount2".
Proof.
  apply (validateAMMWithdraw_combination_first withdrawAmount2Only).
  - reflexivity.
  - reflexivity.
  - right. left. reflexivity.
Defined.

(** ** The transaction filters *)

(** A payment of the test account, seen from that account and from
    another. *)
Lemma transactionFilter_initiated_of_sample :
  let tx := parsed ACCOUNT_TEST "payment" "tesSUCCESS" 348861 in
  GetTransactions.transactionFilter ACCOUNT_TEST
    (GetTransactions.withInitiated paymentsFrom (Some true)) (VObj tx) = Ok true /\
  GetTransactions.transactionFilter ACCOUNT_TEST
    (GetTransactions.withInitiated paymentsFrom (Some false)) (VObj tx) = Ok false.
Proof.
  cbv zeta.
  apply (transactionFilter_initiated_splits ACCOUNT_TEST paymentsFrom
           (parsed ACCOUNT_TEST "payment" "tesSUCCESS" 348861) true).
  reflexivity.
Defined.

(** Paging from the payment of ledger 348860 does not return it. *)
Lemma orderFilter_of_sample_start :
  let startTx0 := VObj (parsed ACCOUNT_TEST "payment" "tesSUCCESS" 348860) in
  GetTransactions.orderFilter compareByLedger paymentsFrom startTx0 = Ok false /\
  (forall tx,
      GetTransactions.orderFilter compareByLedger
        (GetTransactions.withEarliestFirst paymentsFrom (Some true)) tx = Ok true ->
      GetTransactions.orderFilter compareByLedger
        (GetTransactions.withEarliestFirst paymentsFrom (Some false)) tx = Ok false).
Proof.
  cbv zeta.
  apply (orderFilter_excludes_start compareByLedger paymentsFrom).
  - intros t. unfold compareByLedger. now rewrite Z.sub_diag.
  - reflexivity.
  - reflexivity.
Defined.

(** ** Further runs of the conjunctions *)

(** [Issue.fromParser] on the sample issue followed by one byte. *)
Lemma Issue_fromParser_framing_of_sample :
  Issue.fromParser (USD_issue_bytes ++ [x01]) = Ok (USD_issue_bytes, [x01]) /\
  USD_issue_bytes ++ [x01] = USD_issue_bytes ++ [x01] /\
  List.length USD_issue_bytes = Issue_width USD_issue_bytes.
Proof.
  split; [reflexivity|].
  apply (proj1 (Issue_fromParser_framing (USD_issue_bytes ++ [x01]))
           USD_issue_bytes [x01]).
  reflexivity.
Defined.

(** [Issue.toJSON] on the sample issue followed by one byte, and on its
    first 39 bytes. *)
Lemma Issue_toJSON_reads_one_issue_of_sample :
  Issue.toJSON (USD_issue_bytes ++ [x01]) = Issue.toJSON USD_issue_bytes /\
  Issue.toJSON (firstn 39 USD_issue_bytes) = Throw UnexpectedEnd.
Proof.
  split.
  - apply (proj1 (Issue_toJSON_reads_one_issue USD_issue_bytes)). reflexivity.
  - apply (proj2 (Issue_toJSON_reads_one_issue (firstn 39 USD_issue_bytes))).
    reflexivity.
Defined.

(** An account that is no address, and a channel that is a number. *)
Lemma facade_unconvertible_account_and_channel :
  Binary.multiSigningData (VObj tx) (VStr "nobody") [] =
    (Throw (Error "Non-base58 character"), []) /\
  Binary.signingClaimData (VObj [("channel", VNum 1); ("amount", VStr "1000")]) [] =
    (Throw (Error "Cannot construct Hash256 from value given"), []).
Proof.
  split.
  - apply (proj1 facade_converts_account_and_channel_first). reflexivity.
  - apply (proj2 facade_converts_account_and_channel_first). reflexivity.
Defined.

(** An empty counterparty and an empty list of types. *)
Lemma transactionFilter_empty_options_of_sample :
  (forall tx,
      GetTransactions.transactionFilter ACCOUNT_TEST
        (GetTransactions.withCounterparty noOptions (Some "")) tx =
      GetTransactions.transactionFilter ACCOUNT_TEST noOptions tx) /\
  (forall props,
      GetTransactions.transactionFilter ACCOUNT_TEST
        noTypes (VObj props) = Ok false).
Proof.
  split.
  - apply (proj1 (transactionFilter_empty_options ACCOUNT_TEST
                    (GetTransactions.withCounterparty noOptions (Some "")))).
    reflexivity.
  - apply (proj2 (transactionFilter_empty_options ACCOUNT_TEST
                    noTypes)); reflexivity.
Defined.
